(** * Task-Manager backend: ownership, board lanes, listing and task lifecycle

    A shallow embedding of the request handlers of the task controller
    ([controllers/taskController.js]), of the task schema and its statics
    ([models/Task.js]), of the in-memory fallback store
    ([utils/memoryStore.js]) and of the validation and ownership middleware
    ([middleware/validation.js], [middleware/auth.js]).

    Conventions of the embedding
    - instants ([Date] values, ISO date strings) are integers: milliseconds
      since the epoch;
    - a JavaScript [Number] holding an integer is a [Z];
    - a collection (the [tasks] array of the memory store, a MongoDB
      collection in natural order) is a [list];
    - a handler is a function from the store and the request to a response
      and, when it writes, the store afterwards;
    - the clock read by [new Date()] is an argument [now]. *)

From Stdlib Require Import List ZArith NArith Bool String Ascii Lia.
From Stdlib Require Import QArith Qround.
From Stdlib Require Import Sorted Permutation.
From Stdlib Require Import DecimalString DecimalN.
Import ListNotations.

Close Scope Q_scope.
Local Open Scope string_scope.
Local Open Scope list_scope.
Local Open Scope Z_scope.

Set Implicit Arguments.

(* ------------------------------------------------------------------ *)
(** ** Enumerations of the task schema *)

(** [priority.enum.values] of the schema, in the order the code lists them. *)
Inductive Priority := high | medium | low | backlog.

(** [status.enum.values] of the schema. *)
Inductive Status := pending | in_progress | completed.

(** The string a priority is stored as. *)
Definition priority_name (p : Priority) : string :=
  match p with
  | high => "high" | medium => "medium" | low => "low" | backlog => "backlog"
  end.

(** The string a status is stored as. *)
Definition status_name (s : Status) : string :=
  match s with
  | pending => "pending" | in_progress => "in-progress" | completed => "completed"
  end.

(** [task.priority === priority] on stored strings. *)
Definition priority_eqb (p q : Priority) : bool :=
  String.eqb (priority_name p) (priority_name q).

(** [task.status === status] on stored strings. *)
Definition status_eqb (s r : Status) : bool :=
  String.eqb (status_name s) (status_name r).

(** [const priorities = ['high', 'medium', 'low', 'backlog']]. *)
Definition priorities : list Priority := [high; medium; low; backlog].



(* ------------------------------------------------------------------ *)
(** ** Identifiers *)

(** What the handlers ask of an identifier: it is compared by value
    ([id_eqb]: a query match on an [ObjectId], [==] on the numbers of the
    memory store) and printed by [toString], which never prints two
    identifiers alike. *)
Class Ident (Id : Type) : Type := {
  id_eqb : Id -> Id -> bool;
  id_eqb_eq : forall a b, id_eqb a b = true <-> a = b;
  toString : Id -> string;
  toString_inj : forall a b, toString a = toString b -> a = b
}.

(** A database [ObjectId], held as the 24 hexadecimal digits that its
    [toString()] prints. *)
Record ObjectId : Type := mkObjectId { hex : string }.

Lemma ObjectId_eqb_eq (a b : ObjectId) : String.eqb (hex a) (hex b) = true <-> a = b.
Proof.
  destruct a as [x], b as [y]; simpl. rewrite String.eqb_eq.
  split; [intros ->; reflexivity | intros E; injection E; auto].
Qed.

Lemma ObjectId_hex_inj (a b : ObjectId) : hex a = hex b -> a = b.
Proof. destruct a, b; simpl; intros ->; reflexivity. Qed.

#[export] Instance ObjectId_Ident : Ident ObjectId := {|
  id_eqb := fun a b => String.eqb (hex a) (hex b);
  id_eqb_eq := ObjectId_eqb_eq;
  toString := hex;
  toString_inj := ObjectId_hex_inj
|}.

(** The identifiers of the memory store are the values of its counters
    ([_id: taskIdCounter++]); [toString] prints them in decimal. *)
Definition N_toString (n : N) : string := NilEmpty.string_of_uint (N.to_uint n).

Lemma N_toString_inj (a b : N) : N_toString a = N_toString b -> a = b.
Proof.
  unfold N_toString. intros E.
  apply Unsigned.to_uint_inj.
  assert (S : Some (N.to_uint a) = Some (N.to_uint b)).
  { rewrite <- (NilEmpty.usu (N.to_uint a)), <- (NilEmpty.usu (N.to_uint b)), E.
    reflexivity. }
  injection S; auto.
Qed.

#[export] Instance N_Ident : Ident N := {|
  id_eqb := N.eqb;
  id_eqb_eq := N.eqb_eq;
  toString := N_toString;
  toString_inj := N_toString_inj
|}.



(* ------------------------------------------------------------------ *)
(** ** Records *)

(** The fields of a user that the task handlers read. *)
Record User (Id : Type) : Type := mkUser {
  u_id : Id;
  u_name : string;
  u_email : string;
  u_avatarUrl : option string;
  u_isActive : bool
}.

(** A task document: the paths of [taskSchema] with its two timestamps.
    [assignee] and [createdBy] are required paths. *)
Record Task (Id : Type) : Type := mkTask {
  _id : Id;
  title : string;
  description : option string;
  dueDate : option Z;
  priority : Priority;
  status : Status;
  assignee : Id;
  createdBy : Id;
  position : Z;
  tags : list string;
  isArchived : bool;
  createdAt : Z;
  updatedAt : Z
}.

(** What a handler answers.
    - [Ok code message data]: [res.status(code).json({ success: true, message, data })];
    - [Fail code error]: [res.status(code).json({ success: false, error })];
    - [Invalid details]: the 400 answer of [handleValidationErrors], one
      pair (field, message) per violated rule;
    - [Thrown]: an exception handed to [next(error)]. *)
Inductive Response (A : Type) : Type :=
| Ok (code : Z) (message : option string) (data : A)
| Fail (code : Z) (error : string)
| Invalid (details : list (string * string))
| Thrown.

Arguments Fail {A} code error.
Arguments Invalid {A} details.
Arguments Thrown {A}.

(* ------------------------------------------------------------------ *)
(** ** The ownership check ([middleware/auth.js]) *)

Section Ownership.
Context {Id : Type} `{Ident Id}.

(** [checkResourceOwnership(resourceUserField)] installs
    [req.checkOwnership]; the acting user [req.user._id] is [user].
    An absent resource is [None].  The two guards
    [resource[resourceUserField] &&] and [resource.createdBy &&] test
    identifiers, which are objects and so are truthy. *)
Definition checkResourceOwnership (resourceUserField : Task Id -> Id)
    (user : Id) (resource : option (Task Id)) : bool :=
  match resource with
  | None => false
  | Some r =>
      let isAssignee :=
        String.eqb (toString (resourceUserField r)) (toString user) in
      let isCreator :=
        String.eqb (toString (createdBy r)) (toString user) in
      isAssignee || isCreator
  end.

(** The routes install it with the default field, ['assignee']. *)
Definition checkOwnership : Id -> option (Task Id) -> bool :=
  checkResourceOwnership (@assignee Id).

End Ownership.


(* ------------------------------------------------------------------ *)
(** ** JavaScript arithmetic and arrays *)

(** A JavaScript number as the pagination block can hold it: an integer,
    or what a division by zero leaves. *)
Inductive JsNumber : Type :=
| Finite (z : Z)
| PlusInfinity
| NaN.

(** [Math.ceil(n / d)] for a count [n] (never negative) and an integer
    [d].  The quotient is taken in the rationals; [n / 0] is [NaN] for
    [n = 0] and [Infinity] otherwise. *)
Definition Math_ceil_div (n d : Z) : JsNumber :=
  if d =? 0 then (if n =? 0 then NaN else PlusInfinity)
  else Finite (Qceiling (Qdiv (inject_Z n) (inject_Z d))).

(** [p < x] for an integer [p]: every comparison with [NaN] is false. *)
Definition js_lt (p : Z) (x : JsNumber) : bool :=
  match x with
  | Finite z => p <? z
  | PlusInfinity => true
  | NaN => false
  end.

(** The index [Array.prototype.slice] makes of an argument [k] for an
    array of length [len]: counted from the end when negative, clamped to
    the array. *)
Definition relative_index (len k : Z) : Z :=
  if k <? 0 then Z.max (len + k) 0 else Z.min k len.

(** [l.slice(start, stop)]. *)
Definition js_slice {A : Type} (start stop : Z) (l : list A) : list A :=
  let len := Z.of_nat (List.length l) in
  let k := relative_index len start in
  let final := relative_index len stop in
  firstn (Z.to_nat (final - k)) (skipn (Z.to_nat k) l).

(** [l.find(p)]. *)
Definition js_find {A : Type} (p : A -> bool) (l : list A) : option A :=
  List.find p l.

(* ------------------------------------------------------------------ *)
(** ** Sorting by a comparison *)

Section Sorting.
Variable A : Type.
Variable cmp : A -> A -> comparison.

(** [x] may stand before [y]. *)
Definition cmp_leb (x y : A) : bool :=
  match cmp x y with Gt => false | _ => true end.

Definition cmp_le (x y : A) : Prop := cmp_leb x y = true.

Fixpoint insert_by (x : A) (l : list A) : list A :=
  match l with
  | [] => [x]
  | y :: l' => if cmp_leb x y then x :: y :: l' else y :: insert_by x l'
  end.

(** A sort that keeps the given order between documents the comparison
    holds equal. *)
Fixpoint sort_by (l : list A) : list A :=
  match l with
  | [] => []
  | x :: l' => insert_by x (sort_by l')
  end.

End Sorting.

(* ------------------------------------------------------------------ *)
(** ** Requests and answers of the task handlers *)

(** [req.query] of [GET /api/tasks].  [page] and [limit] are the integers
    their query strings denote (defaults 1 and 15); a filter that is
    absent or empty is [None]; [board] is [board === 'true']. *)
Record ReqQuery : Type := mkReqQuery {
  rq_page : Z;
  rq_limit : Z;
  rq_priority : option Priority;
  rq_status : option Status;
  rq_board : bool
}.

(** One lane of the board: [{ tasks, totalCount, hasMore }]. *)
Record Lane (Id : Type) : Type := mkLane {
  lane_tasks : list (Task Id);
  totalCount : Z;
  hasMore : bool
}.

(** [boardData]: an object whose keys are set in the order of
    [priorities]. *)
Definition BoardData (Id : Type) : Type := list (Priority * Lane Id).

(** The [pagination] block of the list answer. *)
Record Pagination : Type := mkPagination {
  pg_page : Z;
  pg_limit : Z;
  totalPages : JsNumber;
  totalTasks : Z;
  hasNext : bool;
  hasPrev : bool
}.

(** [data] of the answer of [getTasks]: the board, or a page of tasks. *)
Inductive TasksData (Id : Type) : Type :=
| BoardView (boardData : BoardData Id)
| ListView (tasks : list (Task Id)) (pagination : Pagination).

(** The sub-document that stands for a user in an answer. *)
Record UserInfo (Id : Type) : Type := mkUserInfo {
  i_id : Id;
  i_name : string;
  i_email : string;
  i_avatarUrl : option string
}.

Definition user_info {Id : Type} (u : User Id) : UserInfo Id :=
  mkUserInfo (u_id u) (u_name u) (u_email u) (u_avatarUrl u).

(** A task whose [assignee] and [createdBy] were replaced by the users
    they name ([null] when there is no such user); the other fields are
    those of [p_task]. *)
Record PopulatedTask (Id : Type) : Type := mkPopulated {
  p_task : Task Id;
  p_assignee : option (UserInfo Id);
  p_createdBy : option (UserInfo Id)
}.

(** [req.body] of a create or update request once [validateTask] has let
    it through: the title is there, an absent field is [None]. *)
Record TaskBody (Id : Type) : Type := mkTaskBody {
  b_title : string;
  b_description : option string;
  b_dueDate : option Z;
  b_priority : option Priority;
  b_status : option Status;
  b_assignee : option Id;
  b_tags : option (list string)
}.

(** [x = d] in a destructuring pattern. *)
Definition or_default {A : Type} (d : A) (x : option A) : A :=
  match x with Some v => v | None => d end.

(* ------------------------------------------------------------------ *)
(** ** Strings *)

(** White space that [trim] removes (the ASCII part of it). *)
Definition is_space (c : ascii) : bool :=
  let n := nat_of_ascii c in
  Nat.eqb n 32 || (Nat.leb 9 n && Nat.leb n 13).

Fixpoint drop_spaces (l : list ascii) : list ascii :=
  match l with
  | c :: l' => if is_space c then drop_spaces l' else l
  | [] => []
  end.

(** [s.trim()], also the [trim: true] setter of the schema, on ASCII
    strings.  JavaScript also removes the white space outside ASCII (the
    no-break space and the like); a string that holds such characters is
    outside what this definition says of the code. *)
Definition trim (s : string) : string :=
  string_of_list_ascii
    (rev (drop_spaces (rev (drop_spaces (list_ascii_of_string s))))).

(** [s.length <= n].  [String.length] counts the characters of an ASCII
    string as JavaScript does; outside ASCII it counts bytes where
    JavaScript counts UTF-16 units. *)
Definition length_at_most (n : nat) (s : string) : bool :=
  Nat.leb (String.length s) n.

(* ------------------------------------------------------------------ *)
(** ** The document database: queries of the Task model *)

(** A path of a sort specification. *)
Inductive SortKey : Type := by_priority | by_position | by_createdAt.

(** Its direction: [1] or [-1]. *)
Inductive Direction : Type := asc | desc.

Definition directed (d : Direction) (c : comparison) : comparison :=
  match d with asc => c | desc => CompOpp c end.

(** [cursor.skip(n)]: the database refuses a negative [n]. *)
Definition cursor_skip {A : Type} (n : Z) (l : list A) : option (list A) :=
  if n <? 0 then None else Some (skipn (Z.to_nat n) l).

(** [cursor.limit(n)]: [0] is no limit, and a negative [n] limits like
    its absolute value. *)
Definition cursor_limit {A : Type} (n : Z) (l : list A) : list A :=
  if n =? 0 then l else firstn (Z.to_nat (Z.abs n)) l.

(** A loop body run for each element in turn, stopping at the first
    failure. *)
Fixpoint for_each {A B : Type} (f : A -> option B) (l : list A) : option (list B) :=
  match l with
  | [] => Some []
  | x :: l' =>
      match f x with
      | None => None
      | Some y =>
          match for_each f l' with
          | None => None
          | Some ys => Some (y :: ys)
          end
      end
  end.

Section DocumentDb.
Context {Id : Type} `{Ident Id}.

(** The two collections. *)
Record Db : Type := mkDb {
  db_users : list (User Id);
  db_tasks : list (Task Id)
}.

(** The filter documents of the handlers:
    [{ assignee, isArchived: false }] with, when given, [priority] and
    [status]. *)
Record Filter : Type := mkFilter {
  f_assignee : Id;
  f_priority : option Priority;
  f_status : option Status
}.

Definition wanted {A : Type} (eqb : A -> A -> bool) (want : option A) (have : A) : bool :=
  match want with
  | None => true
  | Some w => eqb have w
  end.

Definition matches (f : Filter) (t : Task Id) : bool :=
  id_eqb (assignee t) (f_assignee f)
  && negb (isArchived t)
  && wanted priority_eqb (f_priority f) (priority t)
  && wanted status_eqb (f_status f) (status t).

(** [Task.find(filter)], in natural order. *)
Definition find (f : Filter) (c : list (Task Id)) : list (Task Id) :=
  filter (matches f) c.

(** [Task.countDocuments(filter)]. *)
Definition countDocuments (f : Filter) (c : list (Task Id)) : Z :=
  Z.of_nat (List.length (find f c)).

(** [Task.findById(id)]. *)
Definition findById (id : Id) (c : list (Task Id)) : option (Task Id) :=
  List.find (fun t => id_eqb (_id t) id) c.

(** [User.findById(id)]. *)
Definition User_findById (id : Id) (us : list (User Id)) : option (User Id) :=
  List.find (fun u => id_eqb (u_id u) id) us.

(** How one path orders two documents.  [priority] is a string path, so
    the database orders it as strings. *)
Definition key_compare (k : SortKey) (a b : Task Id) : comparison :=
  match k with
  | by_priority =>
      String.compare (priority_name (priority a)) (priority_name (priority b))
  | by_position => Z.compare (position a) (position b)
  | by_createdAt => Z.compare (createdAt a) (createdAt b)
  end.

(** A sort specification [{ k1: d1, k2: d2, ... }]: the first path that
    tells two documents apart decides. *)
Fixpoint spec_compare (spec : list (SortKey * Direction)) (a b : Task Id) : comparison :=
  match spec with
  | [] => Eq
  | (k, d) :: rest =>
      match directed d (key_compare k a b) with
      | Eq => spec_compare rest a b
      | c => c
      end
  end.

(** [cursor.sort(spec)]. *)
Definition cursor_sort (spec : list (SortKey * Direction)) (l : list (Task Id)) : list (Task Id) :=
  sort_by (spec_compare spec) l.

(** [.populate('assignee', ...).populate('createdBy', ...)]. *)
Definition populate (us : list (User Id)) (t : Task Id) : PopulatedTask Id :=
  mkPopulated t
    (option_map user_info (User_findById (assignee t) us))
    (option_map user_info (User_findById (createdBy t) us)).

(** [taskSchema.statics.getTasksByPriority]. *)
Definition getTasksByPriority (c : list (Task Id)) (assigneeId : Id)
    (p : Priority) (page limit : Z) : option (list (Task Id)) :=
  let skip := (page - 1) * limit in
  option_map (cursor_limit limit)
    (cursor_skip skip
       (cursor_sort [(by_position, asc); (by_createdAt, desc)]
          (find (mkFilter assigneeId (Some p) None) c))).

(** [taskSchema.statics.getBoardData]. *)
Definition getBoardData (c : list (Task Id)) (assigneeId : Id) (limit : Z)
    : option (BoardData Id) :=
  for_each
    (fun p =>
       match getTasksByPriority c assigneeId p 1 limit with
       | None => None
       | Some tasks =>
           let totalCount := countDocuments (mkFilter assigneeId (Some p) None) c in
           Some (p, mkLane tasks totalCount (limit <? totalCount))
       end)
    priorities.

End DocumentDb.

(* ------------------------------------------------------------------ *)
(** ** The document database: writes of the Task model *)

Section DocumentDbWrites.
Context {Id : Type} `{Ident Id}.

(** The validators of [taskSchema] on a document whose string paths were
    trimmed: [title] required and at most 200 characters, [description]
    at most 1000, [dueDate] absent or after the clock, every tag at most
    30.  [priority] and [status] are in their enumerations by type. *)
Definition schema_valid (now : Z) (t : Task Id) : bool :=
  negb (String.eqb (title t) "")
  && length_at_most 200 (title t)
  && match description t with Some d => length_at_most 1000 d | None => true end
  && match dueDate t with Some due => now <? due | None => true end
  && forallb (length_at_most 30) (tags t).

(** [Task.create(fields)]: the document gets its identifier [new_id] from
    the driver, the schema defaults ([isArchived: false]) and the two
    timestamps; it is validated and, when valid, stored.  [None] is a
    validation error, thrown. *)
Definition Task_create (c : list (Task Id)) (now : Z) (new_id : Id)
    (title : string) (description : option string) (dueDate : option Z)
    (priority : Priority) (status : Status) (assignee createdBy : Id)
    (position : Z) (tags : list string) : option (Task Id * list (Task Id)) :=
  let doc :=
    mkTask new_id (trim title) (option_map trim description) dueDate
      priority status assignee createdBy position (map trim tags)
      false now now in
  if schema_valid now doc then Some (doc, c ++ [doc]) else None.

(** An update document: the paths it sets.  A key whose value is
    [undefined] is not part of the update. *)
Record Update : Type := mkUpdate {
  set_title : option string;
  set_description : option string;
  set_dueDate : option Z;
  set_priority : option Priority;
  set_status : option Status;
  set_assignee : option Id;
  set_position : option Z;
  set_tags : option (list string)
}.

(** The document after the update; [timestamps] sets [updatedAt]. *)
Definition apply_update (now : Z) (u : Update) (t : Task Id) : Task Id :=
  mkTask (_id t)
    (match set_title u with Some x => trim x | None => title t end)
    (match set_description u with Some x => Some (trim x) | None => description t end)
    (match set_dueDate u with Some x => Some x | None => dueDate t end)
    (or_default (priority t) (set_priority u))
    (or_default (status t) (set_status u))
    (or_default (assignee t) (set_assignee u))
    (createdBy t)
    (or_default (position t) (set_position u))
    (match set_tags u with Some x => map trim x | None => tags t end)
    (isArchived t)
    (createdAt t)
    now.

(** [runValidators: true]: the validators of the paths the update sets. *)
Definition update_valid (now : Z) (u : Update) : bool :=
  match set_title u with
  | Some x => negb (String.eqb (trim x) "") && length_at_most 200 (trim x)
  | None => true
  end
  && match set_description u with Some x => length_at_most 1000 (trim x) | None => true end
  && match set_dueDate u with Some due => now <? due | None => true end
  && match set_tags u with Some x => forallb (length_at_most 30) (map trim x) | None => true end.

(** Replace the first document that has identifier [id]. *)
Fixpoint replace_by_id (id : Id) (f : Task Id -> Task Id) (c : list (Task Id)) : list (Task Id) :=
  match c with
  | [] => []
  | t :: c' => if id_eqb (_id t) id then f t :: c' else t :: replace_by_id id f c'
  end.

(** Remove the first document that has identifier [id]. *)
Fixpoint remove_by_id (id : Id) (c : list (Task Id)) : list (Task Id) :=
  match c with
  | [] => []
  | t :: c' => if id_eqb (_id t) id then c' else t :: remove_by_id id c'
  end.

(** [Task.findByIdAndUpdate(id, update, { new: true, runValidators: true })]:
    [None] is a validation error, thrown; otherwise the updated document
    ([null] when no document has this identifier) and the collection. *)
Definition findByIdAndUpdate (id : Id) (u : Update) (now : Z) (c : list (Task Id))
    : option (option (Task Id) * list (Task Id)) :=
  if update_valid now u then
    match findById id c with
    | None => Some (None, c)
    | Some t => Some (Some (apply_update now u t), replace_by_id id (apply_update now u) c)
    end
  else None.

(** [Task.findByIdAndDelete(id)]. *)
Definition findByIdAndDelete (id : Id) (c : list (Task Id)) : list (Task Id) :=
  remove_by_id id c.

End DocumentDbWrites.

(* ------------------------------------------------------------------ *)
(** ** The task handlers on the document database
    ([controllers/taskController.js], the branch [isMongoConnected]) *)

(** The access test that [getTask] writes out:
    [task.assignee && (task.assignee._id == user || task.assignee == user)
     || task.createdBy && (task.createdBy._id == user || task.createdBy == user)].
    [loose_eq] is [==] between two identifiers; [==] between a user
    sub-document and an identifier is false. *)
Definition canAccess {Id : Type} (loose_eq : Id -> Id -> bool) (user : Id)
    (task : PopulatedTask Id) : bool :=
  match p_assignee task with
  | Some a => loose_eq (i_id a) user || false
  | None => false
  end
  || match p_createdBy task with
     | Some c => loose_eq (i_id c) user || false
     | None => false
     end.

Section DocumentDbHandlers.
Context {Id : Type} `{Ident Id}.

(** [getTasks], database branch: the documents of the answer as the
    query selects, sorts and cuts them.  [populate] then puts user
    sub-documents in place of their [assignee] and [createdBy]; the
    answer as it is sent, with them, is [getTasks_db_sent] below. *)
Definition getTasks_db (c : list (Task Id)) (userId : Id) (q : ReqQuery)
    : Response (TasksData Id) :=
  if rq_board q then
    match getBoardData c userId (rq_limit q) with
    | Some boardData => Ok 200 None (BoardView boardData)
    | None => Thrown
    end
  else
    let query := mkFilter userId (rq_priority q) (rq_status q) in
    let skip := (rq_page q - 1) * rq_limit q in
    match
      cursor_skip skip
        (cursor_sort [(by_priority, asc); (by_position, asc); (by_createdAt, desc)]
           (find query c))
    with
    | None => Thrown
    | Some rest =>
        let tasks := cursor_limit (rq_limit q) rest in
        let totalTasks := countDocuments query c in
        let totalPages := Math_ceil_div totalTasks (rq_limit q) in
        Ok 200 None
          (ListView tasks
             (mkPagination (rq_page q) (rq_limit q) totalPages totalTasks
                (js_lt (rq_page q) totalPages) (1 <? rq_page q)))
    end.

(** [getTask], database branch, given [loose_eq] for the [==] of its
    access test between the [ObjectId] of a populated user and
    [req.user._id]; [getTask_mongo] below is the handler with the [==]
    that JavaScript has for these operands. *)
Definition getTask_db (loose_eq : Id -> Id -> bool) (db : Db) (user : Id) (id : Id)
    : Response (PopulatedTask Id) :=
  match option_map (populate (db_users db)) (findById id (db_tasks db)) with
  | None => Fail 404 "Task not found"
  | Some task =>
      if negb (canAccess loose_eq user task) then
        Fail 403 "Access denied. You can only view tasks assigned to you or created by you."
      else Ok 200 None task
  end.

(** [createTask], database branch.  [new_id] is the identifier the driver
    gives the new document. *)
Definition createTask_db (db : Db) (user : Id) (body : TaskBody Id) (now : Z)
    (new_id : Id) : Response (PopulatedTask Id) * Db :=
  let priority := or_default backlog (b_priority body) in
  let status := or_default pending (b_status body) in
  let tags := or_default [] (b_tags body) in
  let taskAssignee := or_default user (b_assignee body) in
  match User_findById taskAssignee (db_users db) with
  | None => (Fail 404 "Assignee user not found", db)
  | Some assigneeUser =>
      let lastTask :=
        hd_error
          (cursor_sort [(by_position, desc)]
             (find (mkFilter taskAssignee (Some priority) None) (db_tasks db))) in
      let position :=
        match lastTask with
        | Some t => position t + 1
        | None => 0
        end in
      match
        Task_create (db_tasks db) now new_id (b_title body) (b_description body)
          (b_dueDate body) priority status taskAssignee user position tags
      with
      | None => (Thrown, db)
      | Some (task, c') =>
          (Ok 201 (Some "Task created successfully") (populate (db_users db) task),
           mkDb (db_users db) c')
      end
  end.

(** The update document [{ title, description, dueDate, priority, status,
    assignee, tags }] of [updateTask]. *)
Definition update_of_body (body : TaskBody Id) : Update :=
  mkUpdate (Some (b_title body)) (b_description body) (b_dueDate body)
    (b_priority body) (b_status body) (b_assignee body) None (b_tags body).

(** [updateTask]. *)
Definition updateTask (db : Db) (user : Id) (id : Id) (body : TaskBody Id) (now : Z)
    : Response (option (PopulatedTask Id)) * Db :=
  match findById id (db_tasks db) with
  | None => (Fail 404 "Task not found", db)
  | Some task =>
      if negb (checkOwnership user (Some task)) then
        (Fail 403 "Access denied. You can only modify tasks assigned to you or created by you.", db)
      else
        let unknown_assignee :=
          match b_assignee body with
          | Some a =>
              negb (String.eqb (toString a) (toString (assignee task)))
              && match User_findById a (db_users db) with
                 | None => true
                 | Some _ => false
                 end
          | None => false
          end in
        if unknown_assignee then (Fail 404 "Assignee user not found", db)
        else
          match findByIdAndUpdate id (update_of_body body) now (db_tasks db) with
          | None => (Thrown, db)
          | Some (task', c') =>
              (Ok 200 (Some "Task updated successfully")
                 (option_map (populate (db_users db)) task'),
               mkDb (db_users db) c')
          end
  end.

(** [updateTaskStatus]. *)
Definition updateTaskStatus (db : Db) (user : Id) (id : Id) (status : Status) (now : Z)
    : Response (option (PopulatedTask Id)) * Db :=
  match findById id (db_tasks db) with
  | None => (Fail 404 "Task not found", db)
  | Some task =>
      if negb (checkOwnership user (Some task)) then
        (Fail 403 "Access denied. You can only modify tasks assigned to you or created by you.", db)
      else
        match
          findByIdAndUpdate id
            (mkUpdate None None None None (Some status) None None None)
            now (db_tasks db)
        with
        | None => (Thrown, db)
        | Some (task', c') =>
            (Ok 200 (Some "Task status updated successfully")
               (option_map (populate (db_users db)) task'),
             mkDb (db_users db) c')
        end
  end.

(** [updateTaskPriority]; [position] is [None] when the body has none. *)
Definition updateTaskPriority (db : Db) (user : Id) (id : Id) (priority : Priority)
    (position : option Z) (now : Z) : Response (option (PopulatedTask Id)) * Db :=
  match findById id (db_tasks db) with
  | None => (Fail 404 "Task not found", db)
  | Some task =>
      if negb (checkOwnership user (Some task)) then
        (Fail 403 "Access denied. You can only modify tasks assigned to you or created by you.", db)
      else
        match
          findByIdAndUpdate id
            (mkUpdate None None None (Some priority) None None position None)
            now (db_tasks db)
        with
        | None => (Thrown, db)
        | Some (task', c') =>
            (Ok 200 (Some "Task priority updated successfully")
               (option_map (populate (db_users db)) task'),
             mkDb (db_users db) c')
        end
  end.

(** [deleteTask]. *)
Definition deleteTask (db : Db) (user : Id) (id : Id) : Response unit * Db :=
  match findById id (db_tasks db) with
  | None => (Fail 404 "Task not found", db)
  | Some task =>
      if negb (checkOwnership user (Some task)) then
        (Fail 403 "Access denied. You can only delete tasks assigned to you or created by you.", db)
      else
        (Ok 200 (Some "Task deleted successfully") tt,
         mkDb (db_users db) (findByIdAndDelete id (db_tasks db)))
  end.

End DocumentDbHandlers.

(* ------------------------------------------------------------------ *)
(** ** The in-memory store ([utils/memoryStore.js]) *)

Module memoryStore.

(** The four module variables.  Identifiers are the counter values. *)
Record State : Type := mkState {
  users : list (User N);
  tasks : list (Task N);
  userIdCounter : N;
  taskIdCounter : N
}.

(** The state [clear()] leaves, which is also the initial one. *)
Definition clear : State := mkState [] [] 1 1.

(** [users.create(userData)]: the new user is active. *)
Definition users_create (s : State) (name email : string) (avatarUrl : option string)
    : User N * State :=
  let user := mkUser (userIdCounter s) name email avatarUrl true in
  (user, mkState (users s ++ [user]) (tasks s) (userIdCounter s + 1) (taskIdCounter s)).

(** [users.findByEmail(email)]. *)
Definition users_findByEmail (s : State) (email : string) : option (User N) :=
  js_find (fun user => String.eqb (u_email user) email) (users s).

(** [users.findById(id)]; [id] is the number the argument denotes. *)
Definition users_findById (s : State) (id : N) : option (User N) :=
  js_find (fun user => N.eqb (u_id user) id) (users s).

(** The fields [tasks.create] receives from [createTask]. *)
Record TaskData : Type := mkTaskData {
  d_title : string;
  d_description : option string;
  d_dueDate : option Z;
  d_priority : Priority;
  d_status : Status;
  d_assignee : N;
  d_createdBy : N;
  d_position : Z;
  d_tags : list string
}.

(** [tasks.create(taskData)]. *)
Definition tasks_create (s : State) (now : Z) (taskData : TaskData) : Task N * State :=
  let task :=
    mkTask (taskIdCounter s) (d_title taskData) (d_description taskData)
      (d_dueDate taskData) (d_priority taskData) (d_status taskData)
      (d_assignee taskData) (d_createdBy taskData) (d_position taskData)
      (d_tags taskData) false now now in
  (task, mkState (users s) (tasks s ++ [task]) (userIdCounter s) (taskIdCounter s + 1)).

(** [tasks.findByAssignee(assigneeId)]. *)
Definition tasks_findByAssignee (s : State) (assigneeId : N) : list (Task N) :=
  filter (fun task => N.eqb (assignee task) assigneeId && negb (isArchived task)) (tasks s).

(** [tasks.findById(id)]. *)
Definition tasks_findById (s : State) (id : N) : option (Task N) :=
  js_find (fun task => N.eqb (_id task) id) (tasks s).

(** [tasks.updateById(id, updateData)]: the fields of [updateData]
    overwrite those of the first task with this identifier. *)
Definition tasks_updateById (s : State) (id : N) (updateData : Update (Id := N)) (now : Z)
    : option (Task N) * State :=
  match tasks_findById s id with
  | Some task =>
      let task' :=
        mkTask (_id task)
          (or_default (title task) (set_title updateData))
          (match set_description updateData with
           | Some x => Some x
           | None => description task
           end)
          (match set_dueDate updateData with
           | Some x => Some x
           | None => dueDate task
           end)
          (or_default (priority task) (set_priority updateData))
          (or_default (status task) (set_status updateData))
          (or_default (assignee task) (set_assignee updateData))
          (createdBy task)
          (or_default (position task) (set_position updateData))
          (or_default (tags task) (set_tags updateData))
          (isArchived task) (createdAt task) now in
      (Some task',
       mkState (users s) (replace_by_id id (fun _ => task') (tasks s))
         (userIdCounter s) (taskIdCounter s))
  | None => (None, s)
  end.

(** [tasks.deleteById(id)]. *)
Definition tasks_deleteById (s : State) (id : N) : option (Task N) * State :=
  match tasks_findById s id with
  | Some task =>
      (Some task,
       mkState (users s) (remove_by_id id (tasks s)) (userIdCounter s) (taskIdCounter s))
  | None => (None, s)
  end.

(** [getData()]. *)
Definition getData (s : State) : nat * nat :=
  (List.length (users s), List.length (tasks s)).

End memoryStore.

(* ------------------------------------------------------------------ *)
(** ** The task handlers on the memory store
    ([controllers/taskController.js], the branch without a database) *)

(** [getTasks], memory branch. *)
Definition getTasks_memory (s : memoryStore.State) (userId : N) (q : ReqQuery)
    : Response (TasksData N) :=
  let tasks := memoryStore.tasks_findByAssignee s userId in
  let tasks :=
    match rq_priority q with
    | Some p => filter (fun task => priority_eqb (priority task) p) tasks
    | None => tasks
    end in
  let tasks :=
    match rq_status q with
    | Some st => filter (fun task => status_eqb (status task) st) tasks
    | None => tasks
    end in
  if rq_board q then
    let boardData :=
      map
        (fun p =>
           let inLane := filter (fun task => priority_eqb (priority task) p) tasks in
           (p,
            mkLane (js_slice 0 (rq_limit q) inLane)
              (Z.of_nat (List.length inLane))
              (rq_limit q <? Z.of_nat (List.length inLane))))
        priorities in
    Ok 200 None (BoardView boardData)
  else
    let skip := (rq_page q - 1) * rq_limit q in
    let paginatedTasks := js_slice skip (skip + rq_limit q) tasks in
    let totalPages := Math_ceil_div (Z.of_nat (List.length tasks)) (rq_limit q) in
    Ok 200 None
      (ListView paginatedTasks
         (mkPagination (rq_page q) (rq_limit q) totalPages
            (Z.of_nat (List.length tasks))
            (js_lt (rq_page q) totalPages) (1 <? rq_page q))).

(** [getTask], memory branch: the task is looked up by identifier alone,
    then given its assignee and creator ([null] when the store has no
    such user). *)
Definition getTask_memory (s : memoryStore.State) (user : N) (id : N)
    : Response (PopulatedTask N) :=
  let task :=
    match memoryStore.tasks_findById s id with
    | Some task =>
        Some
          (mkPopulated task
             (option_map user_info (memoryStore.users_findById s (assignee task)))
             (option_map user_info (memoryStore.users_findById s (createdBy task))))
    | None => None
    end in
  match task with
  | None => Fail 404 "Task not found"
  | Some task =>
      if negb (canAccess N.eqb user task) then
        Fail 403 "Access denied. You can only view tasks assigned to you or created by you."
      else Ok 200 None task
  end.

(** [createTask], memory branch.  Reading [createdBy._id] of a creator
    the store does not have throws, after the task was stored. *)
Definition createTask_memory (s : memoryStore.State) (user : N) (body : TaskBody N)
    (now : Z) : Response (PopulatedTask N) * memoryStore.State :=
  let priority' := or_default backlog (b_priority body) in
  let status := or_default pending (b_status body) in
  let tags := or_default [] (b_tags body) in
  let taskAssignee := or_default user (b_assignee body) in
  match memoryStore.users_findById s taskAssignee with
  | None => (Fail 404 "Assignee user not found", s)
  | Some assigneeUser =>
      let existingTasks :=
        filter (fun task => priority_eqb (priority task) priority')
          (memoryStore.tasks_findByAssignee s taskAssignee) in
      let position := Z.of_nat (List.length existingTasks) in
      let (task, s') :=
        memoryStore.tasks_create s now
          (memoryStore.mkTaskData (b_title body) (b_description body) (b_dueDate body)
             priority' status taskAssignee user position tags) in
      match memoryStore.users_findById s' user with
      | None => (Thrown, s')
      | Some createdBy =>
          (Ok 201 (Some "Task created successfully (demo mode)")
             (mkPopulated task (Some (user_info assigneeUser)) (Some (user_info createdBy))),
           s')
      end
  end.

(* ------------------------------------------------------------------ *)
(** ** The validation middleware ([middleware/validation.js]) and the
    routes it guards ([routes/tasks.js]) *)

(** A [dueDate] of a request body: a string that [isISO8601] refuses,
    with the instant [new Date(value)] reads in it when it reads one; or
    an ISO 8601 date, given by the instant [new Date(value)] makes of it;
    or a string that [isISO8601] accepts and in which [new Date(value)]
    reads no instant (it is an Invalid Date), as for a week date such as
    1969-W01-1, which ISO 8601 has and the Date constructor does not
    read. *)
Inductive DateField : Type :=
| NotADate (raw : string) (read : option Z)
| IsoDate (instant : Z)
| IsoUnread (raw : string).

(** An [assignee] of a request body: a string that [isMongoId] refuses,
    or the identifier it denotes. *)
Inductive IdField (Id : Type) : Type :=
| NotAnId (raw : string)
| MongoId (id : Id).

Arguments NotAnId {Id} raw.

(** [req.body] as it arrives; a field that is [undefined] is [None]. *)
Record RawBody (Id : Type) : Type := mkRawBody {
  raw_title : option string;
  raw_description : option string;
  raw_dueDate : option DateField;
  raw_priority : option string;
  raw_status : option string;
  raw_assignee : option (IdField Id);
  raw_tags : option (list string)
}.

(** [isIn(values)]. *)
Definition isIn (values : list string) (s : string) : bool :=
  existsb (String.eqb s) values.

(** One entry of [errors.array()] when a rule is violated. *)
Definition rule (field message : string) (holds : bool) : list (string * string) :=
  if holds then [] else [(field, message)].

Definition statuses : list Status := [pending; in_progress; completed].

Definition priority_of_string (s : string) : option Priority :=
  List.find (fun p => String.eqb (priority_name p) s) priorities.

Definition status_of_string (s : string) : option Status :=
  List.find (fun st => String.eqb (status_name st) s) statuses.

(** The custom validator of [tags]: it throws at the first violation. *)
Definition tags_rule (tags : list string) : list (string * string) :=
  if Nat.ltb 10 (List.length tags) then [("tags", "Cannot have more than 10 tags")]
  else
    rule "tags" "Each tag must be a string with maximum 30 characters"
      (forallb (length_at_most 30) tags).

(** The chains of [validateTask], in order; [now] is the clock the custom
    validator of [dueDate] reads.  An [optional()] chain is skipped for
    an absent field; every validator of a chain runs, also after one of
    them failed.  The custom validator of [dueDate] throws when
    [new Date(value) <= new Date()]; for an Invalid Date that comparison
    is false, so it throws nothing. *)
Definition validateTask {Id : Type} (now : Z) (body : RawBody Id) : list (string * string) :=
  let title := trim (or_default "" (raw_title body)) in
  rule "title" "Title must be between 1 and 200 characters"
    (Nat.leb 1 (String.length title) && Nat.leb (String.length title) 200)
  ++ match raw_description body with
     | None => []
     | Some d =>
         rule "description" "Description cannot exceed 1000 characters"
           (length_at_most 1000 (trim d))
     end
  ++ match raw_dueDate body with
     | None => []
     | Some (NotADate _ read) =>
         ("dueDate", "Due date must be a valid date")
         :: match read with
            | Some value =>
                if value <=? now then [("dueDate", "Due date must be in the future")]
                else []
            | None => []
            end
     | Some (IsoDate value) =>
         if value <=? now then [("dueDate", "Due date must be in the future")] else []
     | Some (IsoUnread _) => []
     end
  ++ match raw_priority body with
     | None => []
     | Some p =>
         rule "priority" "Priority must be high, medium, low, or backlog"
           (isIn (map priority_name priorities) p)
     end
  ++ match raw_status body with
     | None => []
     | Some st =>
         rule "status" "Status must be pending, in-progress, or completed"
           (isIn (map status_name statuses) st)
     end
  ++ match raw_assignee body with
     | None => []
     | Some (NotAnId _) => [("assignee", "Assignee must be a valid user ID")]
     | Some (MongoId _) => []
     end
  ++ match raw_tags body with
     | None => []
     | Some tags => tags_rule tags
     end.

(** The body the handler reads after the chains ran: the sanitizers
    trimmed [title] and [description].  Of a due date the model keeps
    the instant it denotes; a string in which [new Date] reads none
    leaves [b_dueDate] empty, and the routes below say what the write
    does with it. *)
Definition sanitized {Id : Type} (body : RawBody Id) : TaskBody Id :=
  mkTaskBody
    (trim (or_default "" (raw_title body)))
    (option_map trim (raw_description body))
    (match raw_dueDate body with
     | Some (IsoDate value) => Some value
     | _ => None
     end)
    (match raw_priority body with
     | Some p => priority_of_string p
     | None => None
     end)
    (match raw_status body with
     | Some st => status_of_string st
     | None => None
     end)
    (match raw_assignee body with
     | Some (MongoId a) => Some a
     | _ => None
     end)
    (raw_tags body).

(** [handleValidationErrors]: answer 400 and stop, or call [next]. *)
Definition handleValidationErrors {A S : Type} (errors : list (string * string))
    (s : S) (next : Response A * S) : Response A * S :=
  match errors with
  | [] => next
  | _ :: _ => (Invalid errors, s)
  end.

(** What becomes of a write of the Task model whose [dueDate] is a
    string the schema cannot cast to a Date.  [next] is the run of the
    handler on the body without that due date: the checks that stand
    before the write ([404], [403]) read no due date and answer as they
    do there; the write itself ([Task.create], [findByIdAndUpdate] with
    [runValidators]) is refused by the cast, the handler hands the error
    to [next(error)], and nothing is stored. *)
Definition cast_error {A S : Type} (s : S) (next : Response A * S) : Response A * S :=
  match fst next with
  | Ok _ _ _ => (Thrown, s)
  | _ => next
  end.

(** The due date of the body is one [new Date] does not read. *)
Definition due_unread {Id : Type} (body : RawBody Id) : bool :=
  match raw_dueDate body with
  | Some (IsoUnread _) => true
  | _ => false
  end.

(** [router.route('/').post(validateTask, createTask)] on the database;
    [now] is the clock of the validator, [later] the one of the handler. *)
Definition post_task_db {Id : Type} `{Ident Id} (db : Db) (user : Id)
    (body : RawBody Id) (now later : Z) (new_id : Id)
    : Response (PopulatedTask Id) * Db :=
  handleValidationErrors (validateTask now body) db
    (if due_unread body then
       cast_error db (createTask_db db user (sanitized body) later new_id)
     else createTask_db db user (sanitized body) later new_id).

(** The same route on the memory store.  [tasks.create] casts nothing:
    it stores the due date as the string it came as, also one in which
    [new Date] reads no instant; the model shows the stored task with the
    instant of its due date, so without one in that case. *)
Definition post_task_memory (s : memoryStore.State) (user : N) (body : RawBody N)
    (now later : Z) : Response (PopulatedTask N) * memoryStore.State :=
  handleValidationErrors (validateTask now body) s
    (createTask_memory s user (sanitized body) later).

(** [router.route('/:id').put(validateTask, updateTask)]. *)
Definition put_task {Id : Type} `{Ident Id} (db : Db) (user : Id) (id : Id)
    (body : RawBody Id) (now later : Z)
    : Response (option (PopulatedTask Id)) * Db :=
  handleValidationErrors (validateTask now body) db
    (if due_unread body then
       cast_error db (updateTask db user id (sanitized body) later)
     else updateTask db user id (sanitized body) later).

(* ------------------------------------------------------------------ *)
(** ** The order the specification words for the list *)

(** Severity of a priority: high before medium before low before
    backlog. *)
Definition severity (p : Priority) : Z :=
  match p with high => 0 | medium => 1 | low => 2 | backlog => 3 end.

(** [a] may stand before [b] in a list sorted by severity, then by
    position ascending, then by creation time descending. *)
Definition severity_le {Id : Type} (a b : Task Id) : Prop :=
  severity (priority a) < severity (priority b)
  \/ (severity (priority a) = severity (priority b)
      /\ (position a < position b
          \/ (position a = position b /\ createdAt b <= createdAt a))).

(** The count of the non-archived tasks of [user] in lane [p]. *)
Definition lane_count {Id : Type} `{Ident Id} (c : list (Task Id)) (user : Id)
    (p : Priority) : Z :=
  Z.of_nat
    (List.length
       (filter
          (fun t => id_eqb (assignee t) user && negb (isArchived t)
                    && priority_eqb (priority t) p)
          c)).

(* ------------------------------------------------------------------ *)
(** ** Predicates the properties are stated with *)

(** What the board answer must be for the collection [c], the user and
    the limit: the four lanes in order, each with the count of its lane. *)
Definition lanes_of {Id : Type} `{Ident Id} (c : list (Task Id)) (user : Id)
    (limit : Z) (b : BoardData Id) : Prop :=
  map fst b = [high; medium; low; backlog] /\
  forall p lane, In (p, lane) b ->
    totalCount lane = lane_count c user p /\
    0 <= totalCount lane /\
    hasMore lane = (limit <? totalCount lane) /\
    (totalCount lane = 0 -> lane_tasks lane = []).


(** What the pagination block must be for [total] selected tasks, the
    page and the limit; [k] is the number of pages, the least integer
    with [total <= k * limit]. *)
Definition page_block (total page limit k : Z) (pg : Pagination) : Prop :=
  pg_page pg = page /\
  pg_limit pg = limit /\
  totalTasks pg = total /\
  totalPages pg = Finite k /\
  (k - 1) * limit < total <= k * limit /\
  hasNext pg = (page <? k) /\
  hasPrev pg = (1 <? page).

(** What a list query selects: the non-archived tasks of the user that
    have the priority and the status asked for, when one is asked for. *)
Definition selected {Id : Type} (user : Id) (fp : option Priority)
    (fs : option Status) (t : Task Id) : Prop :=
  assignee t = user /\
  isArchived t = false /\
  (forall p, fp = Some p -> priority t = p) /\
  (forall st, fs = Some st -> status t = st).

(** [a] may stand before [b] in a list sorted by the stored priority
    string ascending, then by position ascending, then by creation time
    descending. *)
Definition stored_le {Id : Type} (a b : Task Id) : Prop :=
  String.ltb (priority_name (priority a)) (priority_name (priority b)) = true
  \/ (priority a = priority b
      /\ (position a < position b
          \/ (position a = position b /\ createdAt b <= createdAt a))).

(** The place of a priority among the stored strings in ascending order. *)
Definition name_rank (p : Priority) : Z :=
  match p with backlog => 0 | high => 1 | low => 2 | medium => 3 end.

(** The integer a sort path reads off a document, negated for a
    descending path. *)
Definition key_value {Id : Type} (k : SortKey) (d : Direction) (t : Task Id) : Z :=
  let v :=
    match k with
    | by_priority => name_rank (priority t)
    | by_position => position t
    | by_createdAt => createdAt t
    end in
  match d with asc => v | desc => - v end.

(** The validators of the schema accept the document that [createTask]
    makes of this body. *)
Definition draft_valid {Id : Type} (now : Z) (body : TaskBody Id) : bool :=
  negb (String.eqb (trim (b_title body)) "")
  && length_at_most 200 (trim (b_title body))
  && match b_description body with Some d => length_at_most 1000 (trim d) | None => true end
  && match b_dueDate body with Some due => now <? due | None => true end
  && forallb (length_at_most 30) (map trim (or_default [] (b_tags body))).

(** What a lane tells beside its tasks. *)
Definition lane_summary {Id : Type} (entry : Priority * Lane Id) : Priority * Z * bool :=
  (fst entry, totalCount (snd entry), hasMore (snd entry)).

(* ------------------------------------------------------------------ *)
(** ** Sample stores *)

Module Sample.

Definition alice : ObjectId := mkObjectId "64f1a2b3c4d5e6f708091a01".
Definition bob : ObjectId := mkObjectId "64f1a2b3c4d5e6f708091a02".

Definition task1 : ObjectId := mkObjectId "64f1a2b3c4d5e6f708092b01".
Definition task2 : ObjectId := mkObjectId "64f1a2b3c4d5e6f708092b02".
Definition task3 : ObjectId := mkObjectId "64f1a2b3c4d5e6f708092b03".

(** A request body with a title and, when given, a priority and a due
    date. *)
Definition body {Id : Type} (title : string) (p : option Priority) (due : option Z)
    : TaskBody Id :=
  mkTaskBody title None due p None None None.

(** A database with two users and no task. *)
Definition db0 : Db :=
  mkDb [mkUser alice "Alice" "alice@example.com" None true;
        mkUser bob "Bob" "bob@example.com" None true] [].

(** Alice creates a backlog task at instant 1000, then a high one at 2000. *)
Definition db1 : Db :=
  snd (createTask_db db0 alice (body "Sweep the yard" (Some backlog) None) 1000 task1).

Definition db2 : Db :=
  snd (createTask_db db1 alice (body "Fix the login" (Some high) None) 2000 task2).




(** A memory store with two users and no task. *)
Definition mem0 : memoryStore.State :=
  snd (memoryStore.users_create
         (snd (memoryStore.users_create memoryStore.clear "Alice" "alice@example.com" None))
         "Bob" "bob@example.com" None).

(** User 1 creates a low task at instant 1000, then a high one at 2000. *)
Definition mem1 : memoryStore.State :=
  snd (createTask_memory mem0 1%N (body "Sweep the yard" (Some low) None) 1000).

Definition mem2 : memoryStore.State :=
  snd (createTask_memory mem1 1%N (body "Fix the login" (Some high) None) 2000).

(** The database, with numbers for identifiers, after the same two
    requests. *)
Definition ndb0 : Db := mkDb (memoryStore.users mem0) [].

Definition ndb1 : Db :=
  snd (createTask_db ndb0 1%N (body "Sweep the yard" (Some low) None) 1000 1%N).

Definition ndb2 : Db :=
  snd (createTask_db ndb1 1%N (body "Fix the login" (Some high) None) 2000 2%N).

(** The two tasks of [db2], as they are stored. *)
Definition yard : Task ObjectId :=
  mkTask task1 "Sweep the yard" None None backlog pending alice alice 0 [] false 1000 1000.

Definition login : Task ObjectId :=
  mkTask task2 "Fix the login" None None high pending alice alice 0 [] false 2000 2000.

(** A database and a memory store that hold an archived task of the
    first user. *)
Definition shelved : Task ObjectId :=
  mkTask task3 "Old notes" None None low completed alice alice 0 [] true 500 800.


Definition shelved' : Task N :=
  mkTask 1%N "Old notes" None None low completed 1%N 1%N 0 [] true 500 800.

Definition mem_shelved : memoryStore.State :=
  memoryStore.mkState (memoryStore.users mem0) [shelved'] 3 2.

(** A request body as it arrives, with a title and a due date. *)
Definition raw {Id : Type} (title : string) (due : Z) : RawBody Id :=
  mkRawBody (Some title) None (Some (IsoDate due)) None None None None.

(** A request body whose due date is the week date 1969-W01-1 (Monday,
    30 December 1968): [isISO8601] accepts it and [new Date] reads no
    instant in it. *)
Definition week {Id : Type} (title : string) : RawBody Id :=
  mkRawBody (Some title) None (Some (IsoUnread "1969-W01-1")) None None None None.

End Sample.

(* ------------------------------------------------------------------ *)
(** ** The virtuals of the task schema ([models/Task.js]) *)

(** Milliseconds in a day: [1000 * 60 * 60 * 24]. *)
Definition ms_per_day : Z := 1000 * 60 * 60 * 24.

(** The virtual [isOverdue], read as a condition:
    [this.dueDate && new Date() > this.dueDate && this.status !== 'completed']. *)
Definition isOverdue {Id : Type} (now : Z) (t : Task Id) : bool :=
  match dueDate t with
  | Some due => (due <? now) && negb (status_eqb (status t) completed)
  | None => false
  end.

(** The virtual [daysUntilDue]: [null] without a due date, otherwise
    [Math.ceil((this.dueDate - new Date()) / (1000 * 60 * 60 * 24))]. *)
Definition daysUntilDue {Id : Type} (now : Z) (t : Task Id) : option Z :=
  match dueDate t with
  | None => None
  | Some due =>
      let diffTime := due - now in
      Some (Qceiling (Qdiv (inject_Z diffTime) (inject_Z ms_per_day)))
  end.

(* ------------------------------------------------------------------ *)
(** ** Statistics ([getTaskCounts], [getTaskStats]) *)

(** One document more for the group of key [k]: its count grows, or the
    group is opened with count 1. *)
Fixpoint bump {K : Type} (eqb : K -> K -> bool) (k : K) (groups : list (K * Z))
    : list (K * Z) :=
  match groups with
  | [] => [(k, 1)]
  | (k', n) :: rest =>
      if eqb k' k then (k', n + 1) :: rest else (k', n) :: bump eqb k rest
  end.

(** The stage [{ $group: { _id: '$key', count: { $sum: 1 } } }]: one
    entry per key that occurs, here in the order the keys first occur. *)
Definition group_count {A K : Type} (eqb : K -> K -> bool) (key : A -> K)
    (docs : list A) : list (K * Z) :=
  fold_left (fun groups d => bump eqb (key d) groups) docs [].

(** [data] of the answer of [getTaskStats]. *)
Record Stats : Type := mkStats {
  priorityCounts : list (Priority * Z);
  statusCounts : list (Status * Z);
  overdueTasks : Z;
  tasksDueToday : Z
}.

Section Statistics.
Context {Id : Type} `{Ident Id}.

(** The stage [{ $match: { assignee, isArchived: false } }]. *)
Definition match_assignee (assigneeId : Id) (c : list (Task Id)) : list (Task Id) :=
  find (mkFilter assigneeId None None) c.

(** [taskSchema.statics.getTaskCounts]. *)
Definition getTaskCounts (c : list (Task Id)) (assigneeId : Id) : list (Priority * Z) :=
  group_count priority_eqb (@priority Id) (match_assignee assigneeId c).

(** [getTaskStats].  [now] is [new Date()]; [today] and [tomorrow] are
    the instants the handler makes of the clock with [setHours(0, 0, 0, 0)]
    and [setDate(getDate() + 1)]: the local midnights that frame the day. *)
Definition getTaskStats (c : list (Task Id)) (userId : Id) (now today tomorrow : Z)
    : Response Stats :=
  let priorityCounts := getTaskCounts c userId in
  let statusCounts := group_count status_eqb (@status Id) (match_assignee userId c) in
  let overdueTasks :=
    Z.of_nat
      (List.length
         (filter
            (fun t =>
               id_eqb (assignee t) userId
               && match dueDate t with Some due => due <? now | None => false end
               && negb (status_eqb (status t) completed)
               && negb (isArchived t))
            c)) in
  let tasksDueToday :=
    Z.of_nat
      (List.length
         (filter
            (fun t =>
               id_eqb (assignee t) userId
               && match dueDate t with
                  | Some due => (today <=? due) && (due <? tomorrow)
                  | None => false
                  end
               && negb (status_eqb (status t) completed)
               && negb (isArchived t))
            c)) in
  Ok 200 None (mkStats priorityCounts statusCounts overdueTasks tasksDueToday).

End Statistics.

(* ------------------------------------------------------------------ *)
(** ** The routes of the status and of the priority
    ([validateTaskStatus], [validateTaskPriority], [routes/tasks.js]) *)

(** A [position] of a request body: a value that [isInt] refuses, or the
    integer it denotes. *)
Inductive PositionField : Type :=
| NotAnInt (raw : string)
| IntField (value : Z).

(** The chain of [validateTaskStatus]: [status] is not optional, an
    absent one is validated as the empty string. *)
Definition validateTaskStatus (status : option string) : list (string * string) :=
  rule "status" "Status must be pending, in-progress, or completed"
    (isIn (map status_name statuses) (or_default "" status)).

(** The chains of [validateTaskPriority]. *)
Definition validateTaskPriority (priority : option string)
    (position : option PositionField) : list (string * string) :=
  rule "priority" "Priority must be high, medium, low, or backlog"
    (isIn (map priority_name priorities) (or_default "" priority))
  ++ match position with
     | None => []
     | Some (NotAnInt _) => [("position", "Position must be a non-negative integer")]
     | Some (IntField value) =>
         rule "position" "Position must be a non-negative integer" (0 <=? value)
     end.

(** [router.route('/:id/status').patch(validateTaskStatus, updateTaskStatus)]
    for an [:id] that is an ObjectId ([patch_status_route] below takes
    the [:id] as it arrives).  A status outside the enumeration cannot
    get past the chain; the validator of the schema would throw on it. *)
Definition patch_status {Id : Type} `{Ident Id} (db : Db) (user id : Id)
    (status : option string) (now : Z)
    : Response (option (PopulatedTask Id)) * Db :=
  handleValidationErrors (validateTaskStatus status) db
    match status_of_string (or_default "" status) with
    | Some st => updateTaskStatus db user id st now
    | None => (Thrown, db)
    end.

(** [router.route('/:id/priority').patch(validateTaskPriority, updateTaskPriority)]
    for an [:id] that is an ObjectId. *)
Definition patch_priority {Id : Type} `{Ident Id} (db : Db) (user id : Id)
    (priority : option string) (position : option PositionField) (now : Z)
    : Response (option (PopulatedTask Id)) * Db :=
  handleValidationErrors (validateTaskPriority priority position) db
    match priority_of_string (or_default "" priority) with
    | Some p =>
        updateTaskPriority db user id p
          match position with
          | Some (IntField value) => Some value
          | _ => None
          end
          now
    | None => (Thrown, db)
    end.

(* ------------------------------------------------------------------ *)
(** ** Authentication ([middleware/auth.js]) *)

(** [s.split(sep)] for a separator of one character. *)
Fixpoint split_on (sep : ascii) (s : string) : list string :=
  match s with
  | EmptyString => [""]
  | String c s' =>
      if Ascii.eqb c sep then "" :: split_on sep s'
      else
        match split_on sep s' with
        | piece :: pieces => String c piece :: pieces
        | [] => [String c ""]
        end
  end.

(** The token of the header [authorization]: it must start with
    [Bearer], and the token is what stands between the first and the
    second space. *)
Definition bearer_token (authorization : option string) : option string :=
  match authorization with
  | Some header =>
      if String.prefix "Bearer" header then nth_error (split_on " "%char header) 1
      else None
  | None => None
  end.

(** What [verifyToken] does with a token: it returns the payload, of
    which the handlers read [userId], or throws. *)
Inductive Verified (Id : Type) : Type :=
| Decoded (userId : Id)
| TokenExpiredError
| JsonWebTokenError
| OtherError.

Arguments TokenExpiredError {Id}.
Arguments JsonWebTokenError {Id}.
Arguments OtherError {Id}.

(** What a middleware of authentication does: it calls [next()], with
    [req.user] set or not, or it answers
    [res.status(code).json({ success: false, error, code: tag })]. *)
Inductive Gate (U : Type) : Type :=
| Pass (user : option U)
| Refuse (code : Z) (error : string) (tag : option string).

Arguments Refuse {U} code error tag.

(** [authenticate], given [findUser] for the lookup of its branch
    ([User.findById] or [memoryStore.users.findById]). *)
Definition authenticate_with {Id : Type} (verifyToken : string -> Verified Id)
    (findUser : Id -> option (User Id)) (authorization : option string)
    : Gate (User Id) :=
  match bearer_token authorization with
  | None | Some "" => Refuse 401 "Access denied. No token provided." None
  | Some token =>
      match verifyToken token with
      | Decoded userId =>
          match findUser userId with
          | None => Refuse 401 "Token is valid but user not found" None
          | Some user =>
              if negb (u_isActive user) then
                Refuse 401 "User account is deactivated" None
              else Pass (Some user)
          end
      | TokenExpiredError => Refuse 401 "Access token expired" (Some "TOKEN_EXPIRED")
      | JsonWebTokenError => Refuse 401 "Invalid token" None
      | OtherError => Refuse 500 "Server error during authentication" None
      end
  end.

(** [authenticate], database branch. *)
Definition authenticate_db {Id : Type} `{Ident Id} (verifyToken : string -> Verified Id)
    (db : Db) (authorization : option string) : Gate (User Id) :=
  authenticate_with verifyToken (fun id => User_findById id (db_users db)) authorization.

(** [authenticate], memory branch. *)
Definition authenticate_memory (verifyToken : string -> Verified N)
    (s : memoryStore.State) (authorization : option string) : Gate (User N) :=
  authenticate_with verifyToken (memoryStore.users_findById s) authorization.

(** [optionalAuth]: whatever goes wrong, the request goes on. *)
Definition optionalAuth_with {Id : Type} (verifyToken : string -> Verified Id)
    (findUser : Id -> option (User Id)) (authorization : option string)
    : Gate (User Id) :=
  match bearer_token authorization with
  | None | Some "" => Pass None
  | Some token =>
      match verifyToken token with
      | Decoded userId =>
          match findUser userId with
          | Some user => if u_isActive user then Pass (Some user) else Pass None
          | None => Pass None
          end
      | _ => Pass None
      end
  end.

(* ------------------------------------------------------------------ *)
(** ** Predicates the further properties are stated with *)

(** [a] may stand before [b] in a lane sorted by position ascending,
    then by creation time descending. *)
Definition lane_le {Id : Type} (a b : Task Id) : Prop :=
  position a < position b
  \/ (position a = position b /\ createdAt b <= createdAt a).

(** The task is a non-archived task of [user] with priority [p]. *)
Definition in_lane {Id : Type} (user : Id) (p : Priority) (t : Task Id) : Prop :=
  assignee t = user /\ isArchived t = false /\ priority t = p.

(** Every identifier of the list is below the counter. *)
Definition ids_below {A : Type} (id : A -> N) (counter : N) (l : list A) : Prop :=
  forall x, In x l -> (id x < counter)%N.

(** A memory store in good order: the identifiers of its tasks are all
    different and below [taskIdCounter], those of its users all different
    and below [userIdCounter]. *)
Definition store_in_order (s : memoryStore.State) : Prop :=
  NoDup (map (@_id N) (memoryStore.tasks s)) /\
  ids_below (@_id N) (memoryStore.taskIdCounter s) (memoryStore.tasks s) /\
  NoDup (map (@u_id N) (memoryStore.users s)) /\
  ids_below (@u_id N) (memoryStore.userIdCounter s) (memoryStore.users s).

(** The states the operations of the store lead to from [clear()]. *)
Inductive Reachable : memoryStore.State -> Prop :=
| reach_clear : Reachable memoryStore.clear
| reach_users_create (s : memoryStore.State) (name email : string)
    (avatarUrl : option string) :
    Reachable s -> Reachable (snd (memoryStore.users_create s name email avatarUrl))
| reach_tasks_create (s : memoryStore.State) (now : Z) (d : memoryStore.TaskData) :
    Reachable s -> Reachable (snd (memoryStore.tasks_create s now d))
| reach_tasks_updateById (s : memoryStore.State) (id : N) (u : Update (Id := N)) (now : Z) :
    Reachable s -> Reachable (snd (memoryStore.tasks_updateById s id u now))
| reach_tasks_deleteById (s : memoryStore.State) (id : N) :
    Reachable s -> Reachable (snd (memoryStore.tasks_deleteById s id)).

(** The task that [createTask], memory branch, stores for this request. *)
Definition created_task (s : memoryStore.State) (user : N) (body : TaskBody N)
    (now : Z) : Task N :=
  mkTask (memoryStore.taskIdCounter s) (b_title body) (b_description body)
    (b_dueDate body) (or_default backlog (b_priority body))
    (or_default pending (b_status body)) (or_default user (b_assignee body)) user
    (lane_count (memoryStore.tasks s) (or_default user (b_assignee body))
       (or_default backlog (b_priority body)))
    (or_default [] (b_tags body)) false now now.

(** The list does not begin with white space. *)
Definition no_leading_space (l : list ascii) : Prop :=
  match l with
  | c :: _ => is_space c = false
  | [] => True
  end.

(** The constraints of the data model on a stored task: a title of 1 to
    200 characters, a description of at most 1000, at most 10 tags of at
    most 30 characters each. *)
Definition within_limits {Id : Type} (t : Task Id) : Prop :=
  (1 <= String.length (title t) <= 200)%nat /\
  (forall d, description t = Some d -> (String.length d <= 1000)%nat) /\
  (List.length (tags t) <= 10)%nat /\
  Forall (fun tag => (String.length tag <= 30)%nat) (tags t).

(** No stored position is negative. *)
Definition positions_nonneg {Id : Type} (c : list (Task Id)) : Prop :=
  Forall (fun t => 0 <= position t) c.

(** The title is absent, empty or made of white space only. *)
Definition blank_title (title : option string) : Prop :=
  match title with
  | None => True
  | Some t => forallb is_space (list_ascii_of_string t) = true
  end.

(** The count a list of groups holds for key [k]: 0 when it has no
    group for [k]. *)
Definition count_of {K : Type} (eqb : K -> K -> bool) (k : K) (groups : list (K * Z)) : Z :=
  match List.find (fun e => eqb (fst e) k) groups with
  | Some e => snd e
  | None => 0
  end.

(** The sum of the counts of a list of groups. *)
Definition total_of {K : Type} (groups : list (K * Z)) : Z :=
  fold_right Z.add 0 (map snd groups).

(** The count of the non-archived tasks of [user] with status [st]. *)
Definition status_count {Id : Type} `{Ident Id} (c : list (Task Id)) (user : Id)
    (st : Status) : Z :=
  Z.of_nat
    (List.length
       (filter
          (fun t => id_eqb (assignee t) user && negb (isArchived t)
                    && status_eqb (status t) st)
          c)).

(** The string has no space. *)
Definition no_space (s : string) : Prop :=
  forallb (fun c => negb (Ascii.eqb c " "%char)) (list_ascii_of_string s) = true.

(* ------------------------------------------------------------------ *)
(** ** The handlers as the database runs them *)

(** [a == b] for the operands of the access test of [getTask] on the
    database.  There [task.assignee] and [task.createdBy] are the
    documents [populate] loaded, and [task.assignee._id],
    [task.createdBy._id] and [req.user._id] are [ObjectId] instances.
    For two objects [==] is identity: it calls neither [toString] nor
    [equals].  The objects [populate] made for this answer are not the
    [ObjectId] that [authenticate] made for [req.user], so every [==] of
    the test is false, whatever identifiers the operands hold. *)
Definition loose_eq_objects {Id : Type} (a b : Id) : bool := false.

(** [getTask] on the database. *)
Definition getTask_mongo {Id : Type} `{Ident Id} (db : Db) (user id : Id)
    : Response (PopulatedTask Id) :=
  getTask_db loose_eq_objects db user id.

(** [.populate('assignee', 'name email avatarUrl').populate('createdBy', 'name email')],
    as the list query and [getTasksByPriority] have it: the sub-document
    of the creator is given without [avatarUrl]. *)
Definition populate_listed {Id : Type} `{Ident Id} (us : list (User Id)) (t : Task Id)
    : PopulatedTask Id :=
  mkPopulated t
    (option_map user_info (User_findById (assignee t) us))
    (option_map
       (fun u => mkUserInfo (u_id u) (u_name u) (u_email u) None)
       (User_findById (createdBy t) us)).

(** One lane of the board as the database sends it. *)
Record SentLane (Id : Type) : Type := mkSentLane {
  sent_tasks : list (PopulatedTask Id);
  sent_totalCount : Z;
  sent_hasMore : bool
}.

(** [data] of the answer of [getTasks] as the database sends it: every
    task carries the sub-documents of its assignee and of its creator. *)
Inductive SentData (Id : Type) : Type :=
| SentBoard (boardData : list (Priority * SentLane Id))
| SentList (tasks : list (PopulatedTask Id)) (pagination : Pagination).

(** [getTasks] on the database, with the two [populate] calls of the
    list query and of [getTasksByPriority]: they run on the documents
    the query returns and change neither their number nor their order. *)
Definition getTasks_db_sent {Id : Type} `{Ident Id} (db : Db) (userId : Id)
    (q : ReqQuery) : Response (SentData Id) :=
  match getTasks_db (db_tasks db) userId q with
  | Ok code message (BoardView boardData) =>
      Ok code message
        (SentBoard
           (map
              (fun entry =>
                 (fst entry,
                  mkSentLane (map (populate_listed (db_users db)) (lane_tasks (snd entry)))
                    (totalCount (snd entry)) (hasMore (snd entry))))
              boardData))
  | Ok code message (ListView tasks pagination) =>
      Ok code message (SentList (map (populate_listed (db_users db)) tasks) pagination)
  | Fail code error => Fail code error
  | Invalid details => Invalid details
  | Thrown => Thrown
  end.

(** The key, the count and the flag of a lane that was sent. *)
Definition sent_summary {Id : Type} (entry : Priority * SentLane Id)
    : Priority * Z * bool :=
  (fst entry, sent_totalCount (snd entry), sent_hasMore (snd entry)).

(** The routes of the status and of the priority with [req.params.id] as
    it arrives.  The chains run first; then, for a string that is no
    ObjectId, [Task.findById] rejects with a cast error, which the
    handler hands to [next(error)]. *)
Definition patch_status_route {Id : Type} `{Ident Id} (db : Db) (user : Id)
    (param : IdField Id) (status : option string) (now : Z)
    : Response (option (PopulatedTask Id)) * Db :=
  match param with
  | MongoId id => patch_status db user id status now
  | NotAnId _ => handleValidationErrors (validateTaskStatus status) db (Thrown, db)
  end.

Definition patch_priority_route {Id : Type} `{Ident Id} (db : Db) (user : Id)
    (param : IdField Id) (priority : option string) (position : option PositionField)
    (now : Z) : Response (option (PopulatedTask Id)) * Db :=
  match param with
  | MongoId id => patch_priority db user id priority position now
  | NotAnId _ =>
      handleValidationErrors (validateTaskPriority priority position) db (Thrown, db)
  end.

(** Every character of the string is an ASCII character.  On such
    strings [trim] and [String.length] are the [trim] and the [length]
    of JavaScript. *)
Definition ascii_only (s : string) : Prop :=
  forallb (fun c => Nat.ltb (nat_of_ascii c) 128) (list_ascii_of_string s) = true.

(** The strings of a request body are ASCII strings. *)
Definition ascii_body {Id : Type} (body : RawBody Id) : Prop :=
  ascii_only (or_default "" (raw_title body)) /\
  ascii_only (or_default "" (raw_description body)) /\
  Forall ascii_only (or_default [] (raw_tags body)).

(* ================================================================== *)
(** * Properties *)

Unset Implicit Arguments.

(** ** Enumerations and identifiers *)

Lemma priority_eqb_eq (p q : Priority) : priority_eqb p q = true <-> p = q.
Proof.
  split.
  - destruct p, q; simpl; intros E; try reflexivity; discriminate E.
  - intros ->. unfold priority_eqb. apply String.eqb_refl.
Qed.

Lemma status_eqb_eq (s r : Status) : status_eqb s r = true <-> s = r.
Proof.
  split.
  - destruct s, r; simpl; intros E; try reflexivity; discriminate E.
  - intros ->. unfold status_eqb. apply String.eqb_refl.
Qed.

Lemma id_eqb_refl {Id} `{Ident Id} (a : Id) : id_eqb a a = true.
Proof. apply id_eqb_eq. reflexivity. Qed.

Lemma id_eqb_neq {Id} `{Ident Id} (a b : Id) : id_eqb a b = false <-> a <> b.
Proof.
  split.
  - intros E F. apply id_eqb_eq in F. congruence.
  - intros N. destruct (id_eqb a b) eqn:E; [|reflexivity].
    apply id_eqb_eq in E. contradiction.
Qed.

(** ** The ownership check *)

Section OwnershipFacts.
Context {Id : Type} `{Ident Id}.

Lemma toString_eqb (a b : Id) :
  String.eqb (toString a) (toString b) = true <-> a = b.
Proof.
  rewrite String.eqb_eq. split.
  - apply toString_inj.
  - intros ->. reflexivity.
Qed.

Lemma checkOwnership_false (u : Id) (t : Task Id) :
  checkOwnership u (Some t) = false <-> assignee t <> u /\ createdBy t <> u.
Proof.
  unfold checkOwnership, checkResourceOwnership.
  rewrite orb_false_iff.
  split; intros [A C]; split.
  - intros E. apply toString_eqb in E. congruence.
  - intros E. apply toString_eqb in E. congruence.
  - destruct (String.eqb _ _) eqn:E; [apply toString_eqb in E; contradiction | reflexivity].
  - destruct (String.eqb (toString (createdBy t)) _) eqn:E;
      [apply toString_eqb in E; contradiction | reflexivity].
Qed.

End OwnershipFacts.

(** X29. [req.checkOwnership] answers true exactly when the acting user
    is the task's assignee or its creator, and answers false (it does
    not throw) when the task is absent. *)
Theorem checkOwnership_iff {Id : Type} `{Ident Id} (u : Id) :
  (forall t : Task Id,
     checkOwnership u (Some t) = true <-> (u = assignee t \/ u = createdBy t)) /\
  checkOwnership u None = false.
Proof.
  split; [|reflexivity].
  intros t. unfold checkOwnership, checkResourceOwnership.
  rewrite orb_true_iff, !toString_eqb.
  split; intros [E | E]; auto.
Qed.

(** ** JavaScript arithmetic and arrays *)

Lemma relative_index_bounds (len k : Z) :
  0 <= len -> 0 <= relative_index len k <= len.
Proof. unfold relative_index. destruct (k <? 0) eqn:E; lia. Qed.

Lemma js_slice_beyond {A : Type} (start stop : Z) (l : list A) :
  Z.of_nat (List.length l) <= start -> js_slice start stop l = [].
Proof.
  intros Hs. unfold js_slice.
  assert (K : relative_index (Z.of_nat (List.length l)) start = Z.of_nat (List.length l)).
  { unfold relative_index. destruct (start <? 0) eqn:E; lia. }
  rewrite K, Nat2Z.id, skipn_all. apply firstn_nil.
Qed.

Lemma In_firstn {A : Type} (n : nat) (l : list A) (x : A) :
  In x (firstn n l) -> In x l.
Proof.
  intros I. rewrite <- (firstn_skipn n l). apply in_or_app. left; exact I.
Qed.

Lemma In_skipn {A : Type} (n : nat) (l : list A) (x : A) :
  In x (skipn n l) -> In x l.
Proof.
  intros I. rewrite <- (firstn_skipn n l). apply in_or_app. right; exact I.
Qed.

Lemma js_slice_incl {A : Type} (start stop : Z) (l : list A) (x : A) :
  In x (js_slice start stop l) -> In x l.
Proof.
  unfold js_slice. intros I.
  apply In_firstn in I. apply In_skipn in I. exact I.
Qed.

(** [Math.ceil(n / d)] is the least integer [k] with [n <= k * d]. *)
Lemma Math_ceil_div_spec (n d : Z) :
  0 < d ->
  exists k, Math_ceil_div n d = Finite k /\ (k - 1) * d < n <= k * d.
Proof.
  intros Hd. unfold Math_ceil_div.
  destruct (d =? 0) eqn:E; [lia|].
  eexists; split; [reflexivity|].
  set (x := Qdiv (inject_Z n) (inject_Z d)).
  assert (Hx : Qeq (Qmult x (inject_Z d)) (inject_Z n)).
  { unfold x. rewrite Qmult_comm. apply Qmult_div_r. unfold Qeq; simpl. lia. }
  assert (D : Qlt (inject_Z 0) (inject_Z d)) by (rewrite <- Zlt_Qlt; exact Hd).
  split.
  - rewrite Zlt_Qlt. rewrite <- Hx. rewrite inject_Z_mult.
    apply Qmult_lt_compat_r; [exact D|]. apply Qceiling_lt.
  - rewrite Zle_Qle. rewrite <- Hx. rewrite inject_Z_mult.
    apply Qmult_le_compat_r; [apply Qle_ceiling|]. apply Qlt_le_weak. exact D.
Qed.

(** ** Sorting *)

Section SortingFacts.
Variable A : Type.
Variable cmp : A -> A -> comparison.

Lemma insert_by_perm (x : A) (l : list A) : Permutation (x :: l) (insert_by cmp x l).
Proof.
  induction l as [|y l IH]; simpl; [reflexivity|].
  destruct (cmp_leb cmp x y); [reflexivity|].
  rewrite perm_swap. apply perm_skip. exact IH.
Qed.

Lemma sort_by_perm (l : list A) : Permutation l (sort_by cmp l).
Proof.
  induction l as [|x l IH]; simpl; [constructor|].
  rewrite <- insert_by_perm. apply perm_skip. exact IH.
Qed.

Lemma sort_by_length (l : list A) : List.length (sort_by cmp l) = List.length l.
Proof. symmetry. apply Permutation_length, sort_by_perm. Qed.

Lemma sort_by_In (l : list A) (x : A) : In x (sort_by cmp l) <-> In x l.
Proof.
  split; apply Permutation_in; [symmetry|]; apply sort_by_perm.
Qed.

Hypothesis cmp_antisym : forall x y, cmp y x = CompOpp (cmp x y).

Lemma cmp_leb_total (x y : A) : cmp_leb cmp x y = false -> cmp_le cmp y x.
Proof.
  unfold cmp_le, cmp_leb. rewrite (cmp_antisym x y).
  destruct (cmp x y); simpl; congruence.
Qed.

Lemma insert_by_HdRel (a x : A) (l : list A) :
  cmp_le cmp a x -> HdRel (cmp_le cmp) a l -> HdRel (cmp_le cmp) a (insert_by cmp x l).
Proof.
  intros Hax Hl. destruct l as [|y l]; simpl.
  - constructor. exact Hax.
  - destruct (cmp_leb cmp x y); constructor; [exact Hax|].
    inversion Hl; assumption.
Qed.

Lemma insert_by_Sorted (x : A) (l : list A) :
  Sorted (cmp_le cmp) l -> Sorted (cmp_le cmp) (insert_by cmp x l).
Proof.
  induction l as [|y l IH]; simpl; intros S.
  - repeat constructor.
  - destruct (cmp_leb cmp x y) eqn:E.
    + constructor; [exact S|]. constructor. exact E.
    + inversion S as [|? ? S' H']; subst.
      constructor; [apply IH; exact S'|].
      apply insert_by_HdRel; [|exact H'].
      apply cmp_leb_total. exact E.
Qed.

Lemma sort_by_Sorted (l : list A) : Sorted (cmp_le cmp) (sort_by cmp l).
Proof.
  induction l as [|x l IH]; simpl; [constructor|].
  apply insert_by_Sorted. exact IH.
Qed.

Hypothesis cmp_le_trans : forall x y z, cmp_le cmp x y -> cmp_le cmp y z -> cmp_le cmp x z.

Lemma sort_by_StronglySorted (l : list A) : StronglySorted (cmp_le cmp) (sort_by cmp l).
Proof.
  apply Sorted_StronglySorted; [|apply sort_by_Sorted].
  intros x y z. apply cmp_le_trans.
Qed.

End SortingFacts.

(** ** Filters and lookups *)

Lemma filter_filter_andb {A : Type} (f g : A -> bool) (l : list A) :
  filter f (filter g l) = filter (fun x => g x && f x) l.
Proof.
  induction l as [|x l IH]; simpl; [reflexivity|].
  destruct (g x); simpl; [|exact IH].
  destruct (f x); rewrite IH; reflexivity.
Qed.

Lemma filter_length_zero {A : Type} (f : A -> bool) (l : list A) :
  List.length (filter f l) = 0%nat -> filter f l = [].
Proof. destruct (filter f l); simpl; [reflexivity | discriminate]. Qed.

Lemma find_first_In {A : Type} (f : A -> bool) (l : list A) (x : A) :
  List.find f l = Some x -> In x l /\ f x = true.
Proof. apply find_some. Qed.

Section QueryFacts.
Context {Id : Type} `{Ident Id}.

(** What a filter document selects. *)
Lemma matches_iff (user : Id) (fp : option Priority) (fs : option Status) (t : Task Id) :
  matches (mkFilter user fp fs) t = true <->
  (assignee t = user /\ isArchived t = false
   /\ (forall p, fp = Some p -> priority t = p)
   /\ (forall st, fs = Some st -> status t = st)).
Proof.
  unfold matches; simpl.
  rewrite !andb_true_iff, negb_true_iff, id_eqb_eq.
  split.
  - intros [[[A R] P] S]. repeat split; auto.
    + intros p ->. simpl in P. apply priority_eqb_eq in P. exact P.
    + intros st ->. simpl in S. apply status_eqb_eq in S. exact S.
  - intros (A & R & P & S). repeat split; auto.
    + destruct fp as [p|]; simpl; [|reflexivity].
      apply priority_eqb_eq. apply P. reflexivity.
    + destruct fs as [st|]; simpl; [|reflexivity].
      apply status_eqb_eq. apply S. reflexivity.
Qed.

Lemma find_In (f : Filter) (c : list (Task Id)) (t : Task Id) :
  In t (find f c) <-> In t c /\ matches f t = true.
Proof. unfold find. apply filter_In. Qed.

Lemma countDocuments_nonneg (f : Filter) (c : list (Task Id)) : 0 <= countDocuments f c.
Proof. unfold countDocuments. lia. Qed.

(** A lane filter counts the lane. *)
Lemma countDocuments_lane (c : list (Task Id)) (user : Id) (p : Priority) :
  countDocuments (mkFilter user (Some p) None) c = lane_count c user p.
Proof.
  unfold countDocuments, lane_count, find. do 2 f_equal.
  apply filter_ext. intros t. unfold matches; simpl.
  rewrite andb_true_r. reflexivity.
Qed.

Lemma findById_In (id : Id) (c : list (Task Id)) (t : Task Id) :
  findById id c = Some t -> In t c /\ _id t = id.
Proof.
  unfold findById. intros F. apply find_some in F. destruct F as [I E].
  apply id_eqb_eq in E. auto.
Qed.

(** In a collection whose identifiers are all different, a stored
    document is found under its identifier. *)
Lemma findById_stored (c : list (Task Id)) (t : Task Id) :
  NoDup (map (@_id Id) c) -> In t c -> findById (_id t) c = Some t.
Proof.
  unfold findById. induction c as [|x c IH]; simpl; intros ND I; [contradiction|].
  inversion ND as [|? ? NI ND']; subst.
  destruct I as [-> | I].
  - rewrite id_eqb_refl. reflexivity.
  - destruct (id_eqb (_id x) (_id t)) eqn:E.
    + apply id_eqb_eq in E. exfalso. apply NI. rewrite E.
      apply in_map. exact I.
    + apply IH; assumption.
Qed.

End QueryFacts.

(** ** The board *)

Lemma lane_db {Id : Type} `{Ident Id} (c : list (Task Id)) (user : Id) (limit : Z)
    (p : Priority) :
  exists tasks,
    getTasksByPriority c user p 1 limit = Some tasks /\
    (lane_count c user p = 0 -> tasks = []).
Proof.
  unfold getTasksByPriority. simpl.
  eexists; split; [reflexivity|].
  rewrite <- countDocuments_lane. unfold countDocuments. intros Z0.
  assert (E : find (mkFilter user (Some p) None) c = []).
  { unfold find in *. apply filter_length_zero. lia. }
  rewrite E. simpl. unfold cursor_limit. destruct (limit =? 0); [reflexivity|].
  apply firstn_nil.
Qed.

Lemma board_db {Id : Type} `{Ident Id} (c : list (Task Id)) (user : Id) (limit : Z) :
  exists b, getBoardData c user limit = Some b /\ lanes_of c user limit b.
Proof.
  unfold getBoardData, priorities, for_each.
  destruct (lane_db c user limit high) as (th & -> & Hh).
  destruct (lane_db c user limit medium) as (tm & -> & Hm).
  destruct (lane_db c user limit low) as (tl & -> & Hl).
  destruct (lane_db c user limit backlog) as (tb & -> & Hb).
  eexists; split; [reflexivity|].
  split; [reflexivity|].
  intros p lane I. simpl in I.
  destruct I as [E | [E | [E | [E | []]]]]; inversion E; subst; simpl;
    rewrite countDocuments_lane;
    (split; [reflexivity | split; [unfold lane_count; lia | split; [reflexivity | assumption]]]).
Qed.

Lemma board_memory (s : memoryStore.State) (user : N) (page limit : Z) :
  exists b,
    getTasks_memory s user (mkReqQuery page limit None None true)
      = Ok 200 None (BoardView b) /\
    lanes_of (memoryStore.tasks s) user limit b.
Proof.
  unfold getTasks_memory; cbn [rq_board rq_priority rq_status rq_limit rq_page].
  eexists; split; [reflexivity|].
  split; [reflexivity|].
  intros p lane I. apply in_map_iff in I. destruct I as (q & E & _).
  inversion E; subst; clear E. cbn [totalCount hasMore lane_tasks].
  assert (L :
    filter (fun task : Task N => priority_eqb (priority task) p)
      (memoryStore.tasks_findByAssignee s user)
    = filter (fun t => id_eqb (assignee t) user && negb (isArchived t)
                       && priority_eqb (priority t) p) (memoryStore.tasks s)).
  { unfold memoryStore.tasks_findByAssignee.
    rewrite filter_filter_andb. reflexivity. }
  rewrite !L. fold (lane_count (memoryStore.tasks s) user p).
  split; [reflexivity | split; [unfold lane_count; lia | split; [reflexivity|]]].
  unfold lane_count; intros Z0.
  rewrite (filter_length_zero _ _); [|lia].
  apply js_slice_beyond. simpl. lia.
Qed.

(** C2. The board answer has exactly the four lanes high, medium, low and
    backlog, whatever the user and the limit; each lane carries the count
    of the user's non-archived tasks of that priority (never negative; a
    lane without tasks is empty with count 0) and [hasMore] tells whether
    that count exceeds the limit.  This holds on the database and on the
    memory store. *)
Theorem board_four_lanes {Id : Type} `{Ident Id} :
  (forall (c : list (Task Id)) (user : Id) (page limit : Z)
          (fp : option Priority) (fs : option Status),
     exists b,
       getTasks_db c user (mkReqQuery page limit fp fs true) = Ok 200 None (BoardView b) /\
       lanes_of c user limit b) /\
  (forall (s : memoryStore.State) (user : N) (page limit : Z),
     exists b,
       getTasks_memory s user (mkReqQuery page limit None None true)
         = Ok 200 None (BoardView b) /\
       lanes_of (memoryStore.tasks s) user limit b).
Proof.
  split.
  - intros c user page limit fp fs. unfold getTasks_db; cbn [rq_board rq_limit].
    destruct (board_db c user limit) as (b & -> & L).
    exists b. split; [reflexivity | exact L].
  - apply board_memory.
Qed.

(** On the memory store the filters of a request are applied before the
    lanes are built: with a status filter a lane counts the tasks that
    pass it. *)
Example board_memory_filtered :
  exists b,
    getTasks_memory Sample.mem2 1%N (mkReqQuery 1 15 None (Some completed) true)
      = Ok 200 None (BoardView b) /\
    map lane_summary b
      = [(high, 0, false); (medium, 0, false); (low, 0, false); (backlog, 0, false)] /\
    lane_count (memoryStore.tasks Sample.mem2) 1%N high = 1.
Proof.
  eexists. split; [reflexivity|]. split; reflexivity.
Qed.

(** ** Listing *)

(** The filters of the memory branch select what the filter document of
    the database branch selects. *)
Lemma memory_selection (s : memoryStore.State) (user : N)
    (fp : option Priority) (fs : option Status) :
  match fs with
  | Some st =>
      filter (fun task : Task N => status_eqb (status task) st)
        match fp with
        | Some p =>
            filter (fun task : Task N => priority_eqb (priority task) p)
              (memoryStore.tasks_findByAssignee s user)
        | None => memoryStore.tasks_findByAssignee s user
        end
  | None =>
      match fp with
      | Some p =>
          filter (fun task : Task N => priority_eqb (priority task) p)
            (memoryStore.tasks_findByAssignee s user)
      | None => memoryStore.tasks_findByAssignee s user
      end
  end = find (mkFilter user fp fs) (memoryStore.tasks s).
Proof.
  unfold memoryStore.tasks_findByAssignee, find.
  destruct fp as [p|], fs as [st|]; rewrite ?filter_filter_andb;
    apply filter_ext; intros t; unfold matches; simpl;
    rewrite ?andb_true_r, ?andb_assoc; reflexivity.
Qed.

Lemma getTasks_memory_list (s : memoryStore.State) (user : N) (page limit : Z)
    (fp : option Priority) (fs : option Status) :
  getTasks_memory s user (mkReqQuery page limit fp fs false) =
  let selected := find (mkFilter user fp fs) (memoryStore.tasks s) in
  let total := Z.of_nat (List.length selected) in
  Ok 200 None
    (ListView (js_slice ((page - 1) * limit) ((page - 1) * limit + limit) selected)
       (mkPagination page limit (Math_ceil_div total limit) total
          (js_lt page (Math_ceil_div total limit)) (1 <? page))).
Proof.
  unfold getTasks_memory; cbn [rq_board rq_priority rq_status rq_limit rq_page].
  rewrite memory_selection. reflexivity.
Qed.

Lemma getTasks_db_list {Id : Type} `{Ident Id} (c : list (Task Id)) (user : Id)
    (page limit : Z) (fp : option Priority) (fs : option Status) :
  1 <= page -> 0 <= limit ->
  getTasks_db c user (mkReqQuery page limit fp fs false) =
  let selected := find (mkFilter user fp fs) c in
  let total := Z.of_nat (List.length selected) in
  Ok 200 None
    (ListView
       (cursor_limit limit
          (skipn (Z.to_nat ((page - 1) * limit))
             (cursor_sort [(by_priority, asc); (by_position, asc); (by_createdAt, desc)]
                selected)))
       (mkPagination page limit (Math_ceil_div total limit) total
          (js_lt page (Math_ceil_div total limit)) (1 <? page))).
Proof.
  intros Hp Hl.
  unfold getTasks_db; cbn [rq_board rq_priority rq_status rq_limit rq_page].
  unfold cursor_skip.
  destruct ((page - 1) * limit <? 0) eqn:E; [nia|].
  reflexivity.
Qed.

Lemma page_block_holds (total page limit : Z) :
  1 <= limit ->
  exists k,
    page_block total page limit k
      (mkPagination page limit (Math_ceil_div total limit) total
         (js_lt page (Math_ceil_div total limit)) (1 <? page)).
Proof.
  intros Hl.
  destruct (Math_ceil_div_spec total limit) as (k & E & B); [lia|].
  exists k. unfold page_block; simpl. rewrite E. simpl.
  repeat split; try reflexivity; lia.
Qed.

Lemma cursor_limit_nil {A : Type} (n : Z) : cursor_limit n (@nil A) = [].
Proof. unfold cursor_limit. destruct (n =? 0); [reflexivity | apply firstn_nil]. Qed.

(** C5. For a list query with page at least 1 and limit at least 1 the
    pagination block reports the number of selected tasks, the number of
    pages [k = ceil(total / limit)], [hasNext = (page < k)] and
    [hasPrev = (page > 1)]; a page after the last one is answered with an
    empty list of tasks and [hasNext = false], not with an error.  This
    holds on the database and on the memory store. *)
Theorem pagination_metadata {Id : Type} `{Ident Id}
    (c : list (Task Id)) (user : Id) (s : memoryStore.State) (user' : N)
    (page limit : Z) (fp : option Priority) (fs : option Status) :
  1 <= page -> 1 <= limit ->
  (exists tasks pg k,
     getTasks_db c user (mkReqQuery page limit fp fs false)
       = Ok 200 None (ListView tasks pg) /\
     page_block (countDocuments (mkFilter user fp fs) c) page limit k pg /\
     (k < page -> tasks = [] /\ hasNext pg = false)) /\
  (exists tasks pg k,
     getTasks_memory s user' (mkReqQuery page limit fp fs false)
       = Ok 200 None (ListView tasks pg) /\
     page_block (countDocuments (mkFilter user' fp fs) (memoryStore.tasks s))
       page limit k pg /\
     (k < page -> tasks = [] /\ hasNext pg = false)).
Proof.
  intros Hp Hl. split.
  - rewrite getTasks_db_list by lia. cbv zeta.
    destruct (page_block_holds (countDocuments (mkFilter user fp fs) c) page limit Hl)
      as (k & B).
    do 3 eexists. split; [reflexivity|]. split; [exact B|].
    intros K. destruct B as (_ & _ & _ & _ & R & N & _). split.
    + rewrite skipn_all2; [apply cursor_limit_nil|].
      unfold cursor_sort. rewrite sort_by_length. unfold countDocuments in R. nia.
    + assert (F : (page <? k) = false) by (apply Z.ltb_ge; lia).
      rewrite <- F. exact N.
  - rewrite getTasks_memory_list. cbv zeta.
    destruct (page_block_holds
                (countDocuments (mkFilter user' fp fs) (memoryStore.tasks s)) page limit Hl)
      as (k & B).
    do 3 eexists. split; [reflexivity|]. split; [exact B|].
    intros K. destruct B as (_ & _ & _ & _ & R & N & _). split.
    + apply js_slice_beyond. unfold countDocuments in R. nia.
    + assert (F : (page <? k) = false) by (apply Z.ltb_ge; lia).
      rewrite <- F. exact N.
Qed.

(** ** The order of a sort specification *)

Lemma priority_compare_rank (p q : Priority) :
  String.compare (priority_name p) (priority_name q)
  = Z.compare (name_rank p) (name_rank q).
Proof. destruct p, q; reflexivity. Qed.

Lemma directed_key {Id : Type} (k : SortKey) (d : Direction) (a b : Task Id) :
  directed d (key_compare k a b) = Z.compare (key_value k d a) (key_value k d b).
Proof.
  assert (O : forall x y, CompOpp (x ?= y) = (- x ?= - y)).
  { intros x y. rewrite Z.compare_opp. apply eq_sym, Z.compare_antisym. }
  destruct k, d; unfold directed, key_compare, key_value;
    rewrite ?priority_compare_rank, ?O; reflexivity.
Qed.

Lemma spec_compare_antisym {Id : Type} (spec : list (SortKey * Direction))
    (a b : Task Id) :
  spec_compare spec b a = CompOpp (spec_compare spec a b).
Proof.
  induction spec as [|[k d] spec IH]; simpl; [reflexivity|].
  rewrite !directed_key.
  rewrite (Z.compare_antisym (key_value k d a) (key_value k d b)).
  destruct (key_value k d a ?= key_value k d b); simpl; auto.
Qed.

Lemma spec_compare_trans {Id : Type} (spec : list (SortKey * Direction))
    (a b c : Task Id) :
  cmp_le (spec_compare spec) a b -> cmp_le (spec_compare spec) b c ->
  cmp_le (spec_compare spec) a c.
Proof.
  unfold cmp_le, cmp_leb.
  induction spec as [|[k d] spec IH]; simpl; [reflexivity|].
  rewrite !directed_key.
  destruct (Z.compare_spec (key_value k d a) (key_value k d b)) as [E1|L1|G1];
    destruct (Z.compare_spec (key_value k d b) (key_value k d c)) as [E2|L2|G2];
    destruct (Z.compare_spec (key_value k d a) (key_value k d c)) as [E3|L3|G3];
    try lia; try (intros; reflexivity); try (intros; discriminate); auto.
Qed.

Lemma cursor_sort_sorted {Id : Type} (spec : list (SortKey * Direction))
    (l : list (Task Id)) :
  StronglySorted (cmp_le (spec_compare spec)) (cursor_sort spec l).
Proof.
  unfold cursor_sort. apply sort_by_StronglySorted.
  - intros x y. apply spec_compare_antisym.
  - intros x y z. apply spec_compare_trans.
Qed.

Lemma StronglySorted_weaken {A : Type} (R S : A -> A -> Prop) (l : list A) :
  (forall a b, R a b -> S a b) -> StronglySorted R l -> StronglySorted S l.
Proof.
  intros RS. induction 1 as [|x l _ IH F]; constructor; [exact IH|].
  revert F. apply Forall_impl. apply RS.
Qed.

Lemma priority_name_inj (p q : Priority) : priority_name p = priority_name q -> p = q.
Proof. destruct p, q; simpl; intros E; try reflexivity; discriminate E. Qed.

(** The specification of the list, read as a relation. *)
Lemma list_spec_le {Id : Type} (a b : Task Id) :
  cmp_le (spec_compare [(by_priority, asc); (by_position, asc); (by_createdAt, desc)]) a b
  <-> stored_le a b.
Proof.
  unfold cmp_le, cmp_leb, stored_le, String.ltb. simpl.
  destruct (String.compare (priority_name (priority a)) (priority_name (priority b))) eqn:C.
  - apply String.compare_eq_iff, priority_name_inj in C.
    destruct (Z.compare_spec (position a) (position b)) as [E|L|G].
    + destruct (Z.compare_spec (createdAt a) (createdAt b)) as [E'|L'|G']; simpl;
        split; intros K; try reflexivity; try discriminate;
        try (right; split; [exact C|]; right; split; [exact E|]; lia);
        destruct K as [K | (_ & [K | (_ & K)])]; try discriminate; lia.
    + split; intros K; [right; split; [exact C|]; left; exact L | reflexivity].
    + split; intros K; [discriminate|].
      destruct K as [K | (_ & [K | (K & _)])]; try discriminate; lia.
  - split; intros K; [left|]; reflexivity.
  - split; intros K; [discriminate|].
    destruct K as [K | (K & _)]; [discriminate|].
    rewrite K in C. rewrite priority_compare_rank, Z.compare_refl in C. discriminate.
Qed.

(** The stored priority strings in ascending order. *)
Lemma priority_names_ascending :
  String.ltb (priority_name backlog) (priority_name high) = true /\
  String.ltb (priority_name high) (priority_name low) = true /\
  String.ltb (priority_name low) (priority_name medium) = true.
Proof. repeat split. Qed.

Example sample_db2_tasks :
  map (fun t => (priority t, position t, createdAt t)) (db_tasks Sample.db2)
  = [(backlog, 0, 1000); (high, 0, 2000)].
Proof. reflexivity. Qed.

Example sample_mem2_tasks :
  map (fun t => (_id t, priority t, position t)) (memoryStore.tasks Sample.mem2)
  = [(1%N, low, 0); (2%N, high, 0)].
Proof. reflexivity. Qed.

Example sample_same_records : db_tasks Sample.ndb2 = memoryStore.tasks Sample.mem2.
Proof. reflexivity. Qed.

(** C3, as the specification words it, fails: the database branch sorts
    the stored priority strings, so a backlog task stands before a high
    one, and the memory branch keeps the order of creation, so a low task
    created first stands before a high one.  Neither answer is sorted by
    severity. *)
Lemma list_order_counterexample :
  (exists tasks pg,
     getTasks_db (db_tasks Sample.db2) Sample.alice (mkReqQuery 1 15 None None false)
       = Ok 200 None (ListView tasks pg) /\
     map (@priority ObjectId) tasks = [backlog; high] /\
     ~ Sorted severity_le tasks) /\
  (exists tasks pg,
     getTasks_memory Sample.mem2 1%N (mkReqQuery 1 15 None None false)
       = Ok 200 None (ListView tasks pg) /\
     map (@priority N) tasks = [low; high] /\
     ~ Sorted severity_le tasks).
Proof.
  split.
  - do 2 eexists. split; [vm_compute; reflexivity|].
    split; [reflexivity|].
    intros S. inversion S as [|? ? _ Hd]; subst.
    inversion Hd as [|? ? L]; subst.
    unfold severity_le in L; simpl in L. lia.
  - do 2 eexists. split; [vm_compute; reflexivity|].
    split; [reflexivity|].
    intros S. inversion S as [|? ? _ Hd]; subst.
    inversion Hd as [|? ? L]; subst.
    unfold severity_le in L; simpl in L. lia.
Qed.

(** ** Creating a task *)

Lemma createTask_memory_stored (s : memoryStore.State) (user : N) (body : TaskBody N)
    (now : Z) :
  memoryStore.users_findById s (or_default user (b_assignee body)) <> None ->
  exists task,
    memoryStore.tasks (snd (createTask_memory s user body now))
      = memoryStore.tasks s ++ [task] /\
    position task
      = lane_count (memoryStore.tasks s) (or_default user (b_assignee body))
          (or_default backlog (b_priority body)) /\
    assignee task = or_default user (b_assignee body) /\
    priority task = or_default backlog (b_priority body) /\
    createdBy task = user /\
    isArchived task = false.
Proof.
  intros F. unfold createTask_memory.
  destruct (memoryStore.users_findById s (or_default user (b_assignee body)))
    as [au|]; [clear F | congruence].
  unfold memoryStore.tasks_create.
  eexists. split.
  - match goal with |- context [memoryStore.users_findById ?s' user] =>
      destruct (memoryStore.users_findById s' user) end; reflexivity.
  - simpl. repeat split.
    unfold lane_count, memoryStore.tasks_findByAssignee.
    rewrite filter_filter_andb. reflexivity.
Qed.

(** The first document of a lane sorted by position descending has the
    largest position of the lane. *)
Lemma last_of_lane {Id : Type} `{Ident Id} (lane : list (Task Id)) :
  match hd_error (cursor_sort [(by_position, desc)] lane) with
  | None => lane = []
  | Some last => In last lane /\ forall t, In t lane -> position t <= position last
  end.
Proof.
  pose proof (cursor_sort_sorted [(by_position, desc)] lane) as S.
  pose proof (sort_by_In _ (spec_compare [(by_position, desc)]) lane) as I.
  unfold cursor_sort in *.
  destruct (sort_by (spec_compare [(by_position, desc)]) lane) as [|x rest] eqn:E; simpl.
  - destruct lane as [|t lane]; [reflexivity|].
    exfalso. apply (I t). left; reflexivity.
  - split; [apply I; left; reflexivity|].
    intros t T. apply I in T. destruct T as [<- | T]; [lia|].
    inversion S as [|? ? _ F]; subst.
    rewrite Forall_forall in F. specialize (F t T).
    unfold cmp_le, cmp_leb in F. simpl in F.
    destruct (Z.compare_spec (position x) (position t)); simpl in F;
      try lia; discriminate.
Qed.

Lemma schema_valid_draft {Id : Type} `{Ident Id} (now : Z) (body : TaskBody Id)
    (new_id a u : Id) (p : Priority) (st : Status) (pos : Z) :
  schema_valid now
    (mkTask new_id (trim (b_title body)) (option_map trim (b_description body))
       (b_dueDate body) p st a u pos (map trim (or_default [] (b_tags body)))
       false now now)
  = draft_valid now body.
Proof.
  unfold schema_valid, draft_valid; simpl.
  destruct (b_description body); reflexivity.
Qed.

Lemma createTask_db_stored {Id : Type} `{Ident Id} (db : Db) (user : Id)
    (body : TaskBody Id) (now : Z) (new_id : Id) :
  User_findById (or_default user (b_assignee body)) (db_users db) <> None ->
  draft_valid now body = true ->
  exists task,
    createTask_db db user body now new_id
      = (Ok 201 (Some "Task created successfully") (populate (db_users db) task),
         mkDb (db_users db) (db_tasks db ++ [task])) /\
    _id task = new_id /\
    assignee task = or_default user (b_assignee body) /\
    priority task = or_default backlog (b_priority body) /\
    createdBy task = user /\
    isArchived task = false /\
    position task
      = match
          hd_error
            (cursor_sort [(by_position, desc)]
               (find (mkFilter (or_default user (b_assignee body))
                        (Some (or_default backlog (b_priority body))) None)
                  (db_tasks db)))
        with
        | Some last => position last + 1
        | None => 0
        end.
Proof.
  intros F V. unfold createTask_db.
  destruct (User_findById (or_default user (b_assignee body)) (db_users db))
    as [au|]; [clear F | congruence].
  unfold Task_create. rewrite schema_valid_draft, V.
  eexists. split; [reflexivity|]. simpl. repeat split.
Qed.



(** ** Writes by identifier *)

Section WriteFacts.
Context {Id : Type} `{Ident Id}.

Lemma replace_by_id_found (id : Id) (f : Task Id -> Task Id) (c : list (Task Id))
    (t : Task Id) :
  findById id c = Some t -> _id (f t) = id ->
  findById id (replace_by_id id f c) = Some (f t).
Proof.
  unfold findById. induction c as [|x c IH]; simpl; [discriminate|].
  intros F E. destruct (id_eqb (_id x) id) eqn:X.
  - injection F as ->. simpl. rewrite E, id_eqb_refl. reflexivity.
  - simpl. rewrite X. apply IH; assumption.
Qed.

Lemma replace_by_id_others (id : Id) (f : Task Id -> Task Id) (c : list (Task Id))
    (x : Task Id) :
  (forall t, _id (f t) = _id t) -> _id x <> id ->
  (In x (replace_by_id id f c) <-> In x c).
Proof.
  intros K N. induction c as [|y c IH]; simpl; [reflexivity|].
  destruct (id_eqb (_id y) id) eqn:Y.
  - apply id_eqb_eq in Y. simpl. split; intros [E | I]; auto; exfalso; apply N.
    + rewrite <- E, K. exact Y.
    + rewrite <- E. exact Y.
  - simpl. rewrite IH. reflexivity.
Qed.

Lemma replace_by_id_length (id : Id) (f : Task Id -> Task Id) (c : list (Task Id)) :
  List.length (replace_by_id id f c) = List.length c.
Proof.
  induction c as [|y c IH]; simpl; [reflexivity|].
  destruct (id_eqb (_id y) id); simpl; [reflexivity | rewrite IH; reflexivity].
Qed.

(** The owner of a stored task may set its status. *)
Lemma updateTaskStatus_owner (db : Db) (u id : Id) (st : Status) (now : Z) (t : Task Id) :
  findById id (db_tasks db) = Some t -> checkOwnership u (Some t) = true ->
  updateTaskStatus db u id st now
  = (Ok 200 (Some "Task status updated successfully")
       (Some (populate (db_users db)
                (apply_update now (mkUpdate None None None None (Some st) None None None) t))),
     mkDb (db_users db)
       (replace_by_id id
          (apply_update now (mkUpdate None None None None (Some st) None None None))
          (db_tasks db))).
Proof.
  intros F O. unfold updateTaskStatus. rewrite F, O. simpl.
  unfold findByIdAndUpdate. simpl. rewrite F. reflexivity.
Qed.

End WriteFacts.

(** C7. A user who is neither the assignee nor the creator of a stored
    task is refused when asking to delete it: the answer is the 403
    authorization failure, the store is the one before the request, and
    the task is still found in it. *)
Theorem delete_refused_keeps_task {Id : Type} `{Ident Id}
    (db : Db) (u : Id) (t : Task Id) :
  In t (db_tasks db) -> NoDup (map (@_id Id) (db_tasks db)) ->
  u <> assignee t -> u <> createdBy t ->
  deleteTask db u (_id t)
  = (Fail 403 "Access denied. You can only delete tasks assigned to you or created by you.",
     db) /\
  In t (db_tasks (snd (deleteTask db u (_id t)))) /\
  findById (_id t) (db_tasks (snd (deleteTask db u (_id t)))) = Some t.
Proof.
  intros I ND NA NC.
  pose proof (findById_stored (db_tasks db) t ND I) as F.
  assert (O : checkOwnership u (Some t) = false).
  { apply checkOwnership_false. split; congruence. }
  assert (E : deleteTask db u (_id t)
              = (Fail 403 "Access denied. You can only delete tasks assigned to you or created by you.", db)).
  { unfold deleteTask. rewrite F, O. reflexivity. }
  rewrite E. simpl. auto.
Qed.

(** C9. A status update that succeeds on a stored task changes the status
    of that task and nothing else of it: title, description, due date,
    priority, assignee, creator, position, tags and the archived flag are
    those from before.  The other tasks and the users are untouched. *)
Theorem status_update_frame {Id : Type} `{Ident Id}
    (db db' : Db) (u : Id) (t : Task Id) (st : Status) (now : Z)
    (code : Z) (message : option string) (data : option (PopulatedTask Id)) :
  In t (db_tasks db) -> NoDup (map (@_id Id) (db_tasks db)) ->
  updateTaskStatus db u (_id t) st now = (Ok code message data, db') ->
  exists t',
    findById (_id t) (db_tasks db') = Some t' /\
    data = Some (populate (db_users db) t') /\
    status t' = st /\
    title t' = title t /\
    description t' = description t /\
    dueDate t' = dueDate t /\
    priority t' = priority t /\
    assignee t' = assignee t /\
    createdBy t' = createdBy t /\
    position t' = position t /\
    tags t' = tags t /\
    isArchived t' = isArchived t /\
    _id t' = _id t /\
    createdAt t' = createdAt t /\
    db_users db' = db_users db /\
    (forall x, _id x <> _id t -> (In x (db_tasks db') <-> In x (db_tasks db))) /\
    List.length (db_tasks db') = List.length (db_tasks db).
Proof.
  intros I ND E.
  pose proof (findById_stored (db_tasks db) t ND I) as F.
  destruct (checkOwnership u (Some t)) eqn:O.
  - rewrite (updateTaskStatus_owner db u (_id t) st now t F O) in E.
    injection E as _ _ <- <-.
    eexists. split; [|split; [reflexivity|]].
    + simpl. apply replace_by_id_found; [exact F | reflexivity].
    + simpl. repeat split.
      * apply replace_by_id_others; [reflexivity | assumption].
      * apply replace_by_id_others; [reflexivity | assumption].
      * apply replace_by_id_length.
  - unfold updateTaskStatus in E. rewrite F, O in E. simpl in E. discriminate E.
Qed.

(** ** Reading one task *)


(** The access test that [getTask] writes out, when [==] decides the
    equality of identifiers: it holds exactly when the populated assignee
    or the populated creator is the acting user. *)
Lemma canAccess_iff {Id : Type} (loose_eq : Id -> Id -> bool) (u : Id)
    (task : PopulatedTask Id) :
  (forall a b, loose_eq a b = true <-> a = b) ->
  (canAccess loose_eq u task = true <->
   (exists a, p_assignee task = Some a /\ i_id a = u) \/
   (exists c, p_createdBy task = Some c /\ i_id c = u)).
Proof.
  intros D. unfold canAccess. rewrite orb_true_iff.
  destruct (p_assignee task) as [a|], (p_createdBy task) as [c|];
    rewrite ?orb_false_r, ?D; split;
    try (intros [E | E]; try discriminate E; eauto; fail);
    intros [(x & E & K) | (x & E & K)]; try discriminate E;
    try (injection E as <-; auto).
Qed.


(** ** Validation of the due date *)

Lemma validateTask_due_past {Id : Type} (now due : Z) (body : RawBody Id) :
  raw_dueDate body = Some (IsoDate due) -> due <= now ->
  In ("dueDate", "Due date must be in the future") (validateTask now body).
Proof.
  intros D L. unfold validateTask. rewrite D.
  apply in_or_app; right. apply in_or_app; right. apply in_or_app; left.
  apply Z.leb_le in L. rewrite L. left; reflexivity.
Qed.

Lemma validateTask_passed_due {Id : Type} (now due : Z) (body : RawBody Id) :
  raw_dueDate body = Some (IsoDate due) -> validateTask now body = [] -> now < due.
Proof.
  intros D V. unfold validateTask in V. rewrite D in V.
  apply app_eq_nil in V. destruct V as [_ V].
  apply app_eq_nil in V. destruct V as [_ V].
  apply app_eq_nil in V. destruct V as [V _].
  destruct (due <=? now) eqn:L; [discriminate V|].
  apply Z.leb_gt in L. exact L.
Qed.

Lemma handleValidationErrors_refuses {A S : Type} (errors : list (string * string))
    (s : S) (next : Response A * S) (e : string * string) :
  In e errors -> handleValidationErrors errors s next = (Invalid errors, s).
Proof. destruct errors; simpl; [contradiction | reflexivity]. Qed.

Lemma handleValidationErrors_passed {A S : Type} (errors : list (string * string))
    (s s' : S) (next : Response A * S) (code : Z) (m : option string) (data : A) :
  handleValidationErrors errors s next = (Ok code m data, s') -> errors = [].
Proof. destruct errors; simpl; [reflexivity | discriminate]. Qed.

(** X30. A create or update request whose due date is one that
    [new Date] reads, at or before the clock of the validator, is
    answered with the validation failure, which names the field dueDate,
    and leaves the store as it was; so such a request succeeds only if
    its due date is after that clock.  This holds for creation on the
    database and on the memory store and for the update. *)
Theorem due_date_must_be_future {Id : Type} `{Ident Id}
    (db : Db) (user id new_id : Id) (body : RawBody Id)
    (s : memoryStore.State) (user' : N) (body' : RawBody N)
    (now later due due' : Z) :
  raw_dueDate body = Some (IsoDate due) ->
  raw_dueDate body' = Some (IsoDate due') ->
  (due <= now ->
   exists errors,
     In ("dueDate", "Due date must be in the future") errors /\
     post_task_db db user body now later new_id = (Invalid errors, db) /\
     put_task db user id body now later = (Invalid errors, db)) /\
  (due' <= now ->
   exists errors,
     In ("dueDate", "Due date must be in the future") errors /\
     post_task_memory s user' body' now later = (Invalid errors, s)) /\
  (forall code m data db',
     post_task_db db user body now later new_id = (Ok code m data, db') -> now < due) /\
  (forall code m data db',
     put_task db user id body now later = (Ok code m data, db') -> now < due) /\
  (forall code m data s',
     post_task_memory s user' body' now later = (Ok code m data, s') -> now < due').
Proof.
  intros D D'. repeat split.
  - intros L. exists (validateTask now body).
    pose proof (validateTask_due_past now due body D L) as I.
    split; [exact I|]. unfold post_task_db, put_task.
    split; apply handleValidationErrors_refuses with (1 := I).
  - intros L. exists (validateTask now body').
    pose proof (validateTask_due_past now due' body' D' L) as I.
    split; [exact I|]. unfold post_task_memory.
    apply handleValidationErrors_refuses with (1 := I).
  - intros code m data db' E. unfold post_task_db in E.
    apply handleValidationErrors_passed in E.
    apply (validateTask_passed_due now due body D E).
  - intros code m data db' E. unfold put_task in E.
    apply handleValidationErrors_passed in E.
    apply (validateTask_passed_due now due body D E).
  - intros code m data s' E. unfold post_task_memory in E.
    apply handleValidationErrors_passed in E.
    apply (validateTask_passed_due now due' body' D' E).
Qed.

(** ** The two backends side by side *)

Lemma lanes_of_summary {Id : Type} `{Ident Id} (c : list (Task Id)) (user : Id)
    (limit : Z) (b : BoardData Id) :
  lanes_of c user limit b ->
  map lane_summary b
  = map (fun p => (p, lane_count c user p, limit <? lane_count c user p)) priorities.
Proof.
  intros [K L].
  destruct b as [|[p1 l1] [|[p2 l2] [|[p3 l3] [|[p4 l4] [|? ?]]]]]; try discriminate K.
  simpl in K. injection K as -> -> -> ->.
  destruct (L high l1) as (T1 & _ & M1 & _); [simpl; auto|].
  destruct (L medium l2) as (T2 & _ & M2 & _); [simpl; auto|].
  destruct (L low l3) as (T3 & _ & M3 & _); [simpl; auto 6|].
  destruct (L backlog l4) as (T4 & _ & M4 & _); [simpl; auto 6|].
  unfold lane_summary; simpl.
  rewrite M1, M2, M3, M4, T1, T2, T3, T4. reflexivity.
Qed.

Lemma js_slice_all {A : Type} (stop : Z) (l : list A) :
  Z.of_nat (List.length l) <= stop -> js_slice 0 stop l = l.
Proof.
  intros L. unfold js_slice, relative_index.
  assert (E0 : (0 <? 0) = false) by reflexivity. rewrite E0.
  assert (E : (stop <? 0) = false) by (apply Z.ltb_ge; lia). rewrite E.
  rewrite (Z.min_l 0) by lia. rewrite (Z.min_r stop) by lia.
  rewrite Z.sub_0_r, Nat2Z.id. apply firstn_all.
Qed.


Lemma remove_by_id_absent {Id : Type} `{Ident Id} (id : Id) (c : list (Task Id)) :
  findById id c = None -> remove_by_id id c = c.
Proof.
  unfold findById. induction c as [|t c IH]; simpl; [reflexivity|].
  destruct (id_eqb (_id t) id); [discriminate|].
  intros F. rewrite IH; [reflexivity | exact F].
Qed.

(* ================================================================== *)
(** * The properties at sample stores *)

(** The identifiers of a sample collection are all different. *)
Ltac distinct_ids := repeat constructor; simpl; intuition discriminate.

Example sample_db2_is : db_tasks Sample.db2 = [Sample.yard; Sample.login].
Proof. reflexivity. Qed.

Lemma pagination_metadata_witness :
  1 <= 3 /\ 1 <= 1 /\
  (exists tasks pg k,
     getTasks_db (db_tasks Sample.db2) Sample.alice (mkReqQuery 3 1 None None false)
       = Ok 200 None (ListView tasks pg) /\
     page_block (countDocuments (mkFilter Sample.alice None None) (db_tasks Sample.db2))
       3 1 k pg /\
     (k < 3 -> tasks = [] /\ hasNext pg = false)) /\
  (exists tasks pg k,
     getTasks_memory Sample.mem2 1%N (mkReqQuery 3 1 None None false)
       = Ok 200 None (ListView tasks pg) /\
     page_block
       (countDocuments (mkFilter 1%N None None) (memoryStore.tasks Sample.mem2))
       3 1 k pg /\
     (k < 3 -> tasks = [] /\ hasNext pg = false)).
Proof.
  split; [lia|]. split; [lia|].
  apply (pagination_metadata (db_tasks Sample.db2) Sample.alice Sample.mem2 1%N
           3 1 None None); lia.
Defined.


Lemma delete_refused_keeps_task_witness :
  In Sample.yard (db_tasks Sample.db2) /\
  NoDup (map (@_id ObjectId) (db_tasks Sample.db2)) /\
  Sample.bob <> assignee Sample.yard /\
  Sample.bob <> createdBy Sample.yard /\
  deleteTask Sample.db2 Sample.bob (_id Sample.yard)
  = (Fail 403 "Access denied. You can only delete tasks assigned to you or created by you.",
     Sample.db2) /\
  In Sample.yard (db_tasks (snd (deleteTask Sample.db2 Sample.bob (_id Sample.yard)))).
Proof.
  assert (I : In Sample.yard (db_tasks Sample.db2)) by (left; reflexivity).
  assert (ND : NoDup (map (@_id ObjectId) (db_tasks Sample.db2))).
  { distinct_ids. }
  assert (NA : Sample.bob <> assignee Sample.yard) by discriminate.
  assert (NC : Sample.bob <> createdBy Sample.yard) by discriminate.
  split; [exact I|]. split; [exact ND|]. split; [exact NA|]. split; [exact NC|].
  destruct (delete_refused_keeps_task Sample.db2 Sample.bob Sample.yard I ND NA NC)
    as (E & K & _).
  split; [exact E | exact K].
Defined.

Lemma due_date_must_be_future_witness :
  raw_dueDate (Sample.raw (Id := ObjectId) "Pay the rent" 500) = Some (IsoDate 500) /\
  raw_dueDate (Sample.raw (Id := N) "Pay the rent" 500) = Some (IsoDate 500) /\
  500 <= 1000 /\
  (exists errors,
     In ("dueDate", "Due date must be in the future") errors /\
     post_task_db Sample.db2 Sample.alice (Sample.raw "Pay the rent" 500) 1000 1001
       Sample.task3
     = (Invalid errors, Sample.db2) /\
     put_task Sample.db2 Sample.alice Sample.task1 (Sample.raw "Pay the rent" 500)
       1000 1001
     = (Invalid errors, Sample.db2)) /\
  (exists errors,
     In ("dueDate", "Due date must be in the future") errors /\
     post_task_memory Sample.mem2 1%N (Sample.raw "Pay the rent" 500) 1000 1001
     = (Invalid errors, Sample.mem2)).
Proof.
  split; [reflexivity|]. split; [reflexivity|]. split; [lia|].
  destruct (due_date_must_be_future Sample.db2 Sample.alice Sample.task1 Sample.task3
              (Sample.raw "Pay the rent" 500) Sample.mem2 1%N
              (Sample.raw "Pay the rent" 500) 1000 1001 500 500
              eq_refl eq_refl)
    as (D & M & _).
  split; [apply D; lia | apply M; lia].
Defined.

Lemma status_update_frame_witness :
  In Sample.yard (db_tasks Sample.db2) /\
  NoDup (map (@_id ObjectId) (db_tasks Sample.db2)) /\
  updateTaskStatus Sample.db2 Sample.alice (_id Sample.yard) completed 5000
  = (Ok 200 (Some "Task status updated successfully")
       (Some (populate (db_users Sample.db2)
                (mkTask Sample.task1 "Sweep the yard" None None backlog completed
                   Sample.alice Sample.alice 0 [] false 1000 5000))),
     snd (updateTaskStatus Sample.db2 Sample.alice (_id Sample.yard) completed 5000)) /\
  exists t',
    findById (_id Sample.yard)
      (db_tasks (snd (updateTaskStatus Sample.db2 Sample.alice (_id Sample.yard)
                        completed 5000)))
    = Some t' /\
    status t' = completed /\
    title t' = title Sample.yard /\
    priority t' = priority Sample.yard /\
    position t' = position Sample.yard /\
    isArchived t' = isArchived Sample.yard.
Proof.
  assert (I : In Sample.yard (db_tasks Sample.db2)) by (left; reflexivity).
  assert (ND : NoDup (map (@_id ObjectId) (db_tasks Sample.db2))).
  { distinct_ids. }
  assert (E : updateTaskStatus Sample.db2 Sample.alice (_id Sample.yard) completed 5000
    = (Ok 200 (Some "Task status updated successfully")
         (Some (populate (db_users Sample.db2)
                  (mkTask Sample.task1 "Sweep the yard" None None backlog completed
                     Sample.alice Sample.alice 0 [] false 1000 5000))),
       snd (updateTaskStatus Sample.db2 Sample.alice (_id Sample.yard) completed 5000)))
    by (vm_compute; reflexivity).
  split; [exact I|]. split; [exact ND|]. split; [exact E|].
  destruct (status_update_frame Sample.db2 _ Sample.alice Sample.yard completed 5000
              200 _ _ I ND E)
    as (t' & F & _ & S & T & _ & _ & P & _ & _ & Q & _ & A & _).
  exists t'. auto 10.
Defined.


(* ================================================================== *)
(** * Further properties of the handlers *)

(** ** Writes on the database *)

Section HandlerFacts.
Context {Id : Type} `{Ident Id}.

Lemma checkOwnership_owner (u : Id) (t : Task Id) :
  u = assignee t \/ u = createdBy t -> checkOwnership u (Some t) = true.
Proof.
  intros O. unfold checkOwnership, checkResourceOwnership.
  apply orb_true_iff. destruct O as [-> | ->]; [left | right];
    apply String.eqb_refl.
Qed.

Lemma findById_absent (id : Id) (c : list (Task Id)) :
  (forall t, In t c -> _id t <> id) -> findById id c = None.
Proof.
  intros A. unfold findById.
  destruct (List.find (fun t => id_eqb (_id t) id) c) as [t|] eqn:F; [|reflexivity].
  apply find_some in F. destruct F as [I E]. apply id_eqb_eq in E.
  exfalso. exact (A t I E).
Qed.

Lemma findById_none_absent (id : Id) (c : list (Task Id)) :
  findById id c = None -> forall t, In t c -> _id t <> id.
Proof.
  unfold findById. intros F t I E.
  apply (find_none _ _ F) in I. rewrite E, id_eqb_refl in I. discriminate I.
Qed.

(** Removing by identifier from a collection of distinct identifiers
    leaves the documents with another identifier, in their order. *)
Lemma remove_by_id_filter (id : Id) (c : list (Task Id)) :
  NoDup (map (@_id Id) c) ->
  remove_by_id id c = filter (fun x => negb (id_eqb (_id x) id)) c.
Proof.
  induction c as [|t c IH]; simpl; intros ND; [reflexivity|].
  inversion ND as [|? ? NI ND']; subst.
  destruct (id_eqb (_id t) id) eqn:E; simpl.
  - apply id_eqb_eq in E. symmetry. apply forallb_filter_id.
    apply forallb_forall. intros x I. apply negb_true_iff, id_eqb_neq.
    intros K. apply NI. rewrite E, <- K. apply in_map. exact I.
  - rewrite IH by assumption. reflexivity.
Qed.

Lemma replace_by_id_ids (id : Id) (f : Task Id -> Task Id) (c : list (Task Id)) :
  (forall t, _id (f t) = _id t) ->
  map (@_id Id) (replace_by_id id f c) = map (@_id Id) c.
Proof.
  intros K. induction c as [|t c IH]; simpl; [reflexivity|].
  destruct (id_eqb (_id t) id); simpl; [rewrite K | rewrite IH]; reflexivity.
Qed.

Lemma replace_by_id_twice (id : Id) (f g : Task Id -> Task Id) (c : list (Task Id)) :
  (forall t, _id (f t) = _id t) ->
  replace_by_id id g (replace_by_id id f c) = replace_by_id id (fun t => g (f t)) c.
Proof.
  intros K. induction c as [|t c IH]; simpl; [reflexivity|].
  destruct (id_eqb (_id t) id) eqn:E; simpl.
  - rewrite K, E. reflexivity.
  - rewrite E, IH. reflexivity.
Qed.

Lemma replace_by_id_ext (id : Id) (f g : Task Id -> Task Id) (c : list (Task Id)) :
  (forall t, f t = g t) -> replace_by_id id f c = replace_by_id id g c.
Proof.
  intros K. induction c as [|t c IH]; simpl; [reflexivity|].
  destruct (id_eqb (_id t) id); [rewrite K | rewrite IH]; reflexivity.
Qed.

(** What [findByIdAndUpdate] does for a stored document and an update
    that its validators accept. *)
Lemma findByIdAndUpdate_found (id : Id) (u : Update) (now : Z) (c : list (Task Id))
    (t : Task Id) :
  findById id c = Some t -> update_valid now u = true ->
  findByIdAndUpdate id u now c
  = Some (Some (apply_update now u t), replace_by_id id (apply_update now u) c).
Proof.
  intros F V. unfold findByIdAndUpdate. rewrite V, F. reflexivity.
Qed.

End HandlerFacts.

(** X1. Who a new task is assigned to.  On both branches a create request
    without an assignee stores a task assigned to its creator; a request
    that names an existing user stores a task assigned to that user; in
    both cases the creator is the acting user and the task is not
    archived.  A request that names a user the store does not have is
    answered 404 and stores nothing. *)
Theorem create_assignee {Id : Type} `{Ident Id}
    (db : Db) (user : Id) (body : TaskBody Id) (now : Z) (new_id : Id)
    (s : memoryStore.State) (user' : N) (body' : TaskBody N) (now' : Z) :
  draft_valid now body = true ->
  memoryStore.users_findById s user' <> None ->
  (User_findById (or_default user (b_assignee body)) (db_users db) <> None ->
   exists task,
     createTask_db db user body now new_id
       = (Ok 201 (Some "Task created successfully") (populate (db_users db) task),
          mkDb (db_users db) (db_tasks db ++ [task])) /\
     assignee task = or_default user (b_assignee body) /\
     (b_assignee body = None -> assignee task = user) /\
     createdBy task = user /\ isArchived task = false /\ _id task = new_id) /\
  (User_findById (or_default user (b_assignee body)) (db_users db) = None ->
   createTask_db db user body now new_id = (Fail 404 "Assignee user not found", db)) /\
  (memoryStore.users_findById s (or_default user' (b_assignee body')) <> None ->
   exists task data,
     createTask_memory s user' body' now'
       = (Ok 201 (Some "Task created successfully (demo mode)") data,
          memoryStore.mkState (memoryStore.users s) (memoryStore.tasks s ++ [task])
            (memoryStore.userIdCounter s) (memoryStore.taskIdCounter s + 1)) /\
     p_task data = task /\
     assignee task = or_default user' (b_assignee body') /\
     (b_assignee body' = None -> assignee task = user') /\
     createdBy task = user' /\ isArchived task = false /\
     _id task = memoryStore.taskIdCounter s) /\
  (memoryStore.users_findById s (or_default user' (b_assignee body')) = None ->
   createTask_memory s user' body' now' = (Fail 404 "Assignee user not found", s)).
Proof.
  intros V U'. split; [|split; [|split]].
  - intros F.
    destruct (createTask_db_stored db user body now new_id F V)
      as (task & E & I & A & _ & C & R & _).
    exists task. repeat split; try assumption.
    intros N. rewrite A, N. reflexivity.
  - intros F. unfold createTask_db. rewrite F. reflexivity.
  - intros F. unfold createTask_memory.
    destruct (memoryStore.users_findById s (or_default user' (b_assignee body')))
      as [au|]; [clear F | congruence].
    unfold memoryStore.tasks_create.
    change (memoryStore.users_findById
              (memoryStore.mkState (memoryStore.users s) ?x ?y ?z) user')
      with (memoryStore.users_findById s user').
    destruct (memoryStore.users_findById s user') as [cu|] eqn:FC; [|congruence].
    do 2 eexists. split; [reflexivity|]. simpl. repeat split.
    intros N. rewrite N. reflexivity.
  - intros F. unfold createTask_memory. rewrite F. reflexivity.
Qed.

(** X2. An identifier that no stored task has is answered 404 by every
    handler of a single task, and none of them changes the store. *)
Theorem unknown_task_not_found {Id : Type} `{Ident Id}
    (db : Db) (u id : Id) (loose_eq : Id -> Id -> bool) (body : TaskBody Id)
    (st : Status) (p : Priority) (pos : option Z) (now : Z)
    (s : memoryStore.State) (u' id' : N) :
  (forall t, In t (db_tasks db) -> _id t <> id) ->
  (forall t, In t (memoryStore.tasks s) -> _id t <> id') ->
  getTask_db loose_eq db u id = Fail 404 "Task not found" /\
  updateTask db u id body now = (Fail 404 "Task not found", db) /\
  updateTaskStatus db u id st now = (Fail 404 "Task not found", db) /\
  updateTaskPriority db u id p pos now = (Fail 404 "Task not found", db) /\
  deleteTask db u id = (Fail 404 "Task not found", db) /\
  getTask_memory s u' id' = Fail 404 "Task not found".
Proof.
  intros A A'.
  pose proof (findById_absent id (db_tasks db) A) as F.
  assert (F' : memoryStore.tasks_findById s id' = None)
    by exact (findById_absent id' (memoryStore.tasks s) A').
  unfold getTask_db, updateTask, updateTaskStatus, updateTaskPriority, deleteTask,
    getTask_memory.
  rewrite F, F'. repeat split.
Qed.

(** X3. A user who is neither the assignee nor the creator of a stored
    task is refused, with 403, by the full update, the status update and
    the priority update alike, and the store stays as it was. *)
Theorem update_refused {Id : Type} `{Ident Id}
    (db : Db) (u : Id) (t : Task Id) (body : TaskBody Id)
    (st : Status) (p : Priority) (pos : option Z) (now : Z) :
  In t (db_tasks db) -> NoDup (map (@_id Id) (db_tasks db)) ->
  u <> assignee t -> u <> createdBy t ->
  updateTask db u (_id t) body now
    = (Fail 403 "Access denied. You can only modify tasks assigned to you or created by you.",
       db) /\
  updateTaskStatus db u (_id t) st now
    = (Fail 403 "Access denied. You can only modify tasks assigned to you or created by you.",
       db) /\
  updateTaskPriority db u (_id t) p pos now
    = (Fail 403 "Access denied. You can only modify tasks assigned to you or created by you.",
       db).
Proof.
  intros I ND NA NC.
  pose proof (findById_stored (db_tasks db) t ND I) as F.
  assert (O : checkOwnership u (Some t) = false).
  { apply checkOwnership_false. split; congruence. }
  unfold updateTask, updateTaskStatus, updateTaskPriority.
  rewrite F, O. repeat split.
Qed.

(** X4. The assignee or the creator of a stored task deletes it: the
    answer is 200, the task is gone, the other tasks are kept in their
    order and the users are untouched; the same request once more is
    answered 404. *)
Theorem delete_by_owner {Id : Type} `{Ident Id} (db : Db) (u : Id) (t : Task Id) :
  In t (db_tasks db) -> NoDup (map (@_id Id) (db_tasks db)) ->
  u = assignee t \/ u = createdBy t ->
  exists db',
    deleteTask db u (_id t) = (Ok 200 (Some "Task deleted successfully") tt, db') /\
    db_users db' = db_users db /\
    db_tasks db' = filter (fun x => negb (id_eqb (_id x) (_id t))) (db_tasks db) /\
    ~ In t (db_tasks db') /\
    (forall x, In x (db_tasks db) -> x <> t -> In x (db_tasks db')) /\
    deleteTask db' u (_id t) = (Fail 404 "Task not found", db').
Proof.
  intros I ND O.
  pose proof (findById_stored (db_tasks db) t ND I) as F.
  pose proof (checkOwnership_owner u t O) as K.
  pose proof (remove_by_id_filter (_id t) (db_tasks db) ND) as R.
  eexists. split.
  - unfold deleteTask. rewrite F, K. reflexivity.
  - unfold findByIdAndDelete. simpl. rewrite R.
    split; [reflexivity|]. split; [reflexivity|]. split; [|split].
    + intros J. apply filter_In in J. destruct J as [_ J].
      rewrite id_eqb_refl in J. discriminate J.
    + intros x J D. apply filter_In. split; [exact J|].
      apply negb_true_iff, id_eqb_neq. intros E. apply D.
      pose proof (findById_stored (db_tasks db) x ND J) as Fx.
      rewrite E, F in Fx. congruence.
    + unfold deleteTask. simpl. rewrite findById_absent; [reflexivity|].
      intros x J. apply filter_In in J. destruct J as [_ J].
      apply negb_true_iff, id_eqb_neq in J. exact J.
Qed.

(** X5. The priority update of a stored task by its assignee or creator
    sets the priority, sets the position exactly when the request has
    one, and changes nothing else of the task but [updatedAt]; the other
    tasks and the users are untouched. *)
Theorem priority_update_frame {Id : Type} `{Ident Id}
    (db : Db) (u : Id) (t : Task Id) (p : Priority) (pos : option Z) (now : Z) :
  In t (db_tasks db) -> NoDup (map (@_id Id) (db_tasks db)) ->
  u = assignee t \/ u = createdBy t ->
  exists t' db',
    updateTaskPriority db u (_id t) p pos now
      = (Ok 200 (Some "Task priority updated successfully")
           (Some (populate (db_users db) t')), db') /\
    findById (_id t) (db_tasks db') = Some t' /\
    priority t' = p /\
    position t' = match pos with Some z => z | None => position t end /\
    _id t' = _id t /\ title t' = title t /\ description t' = description t /\
    dueDate t' = dueDate t /\ status t' = status t /\ assignee t' = assignee t /\
    createdBy t' = createdBy t /\ tags t' = tags t /\
    isArchived t' = isArchived t /\ createdAt t' = createdAt t /\
    updatedAt t' = now /\
    db_users db' = db_users db /\
    (forall x, _id x <> _id t -> (In x (db_tasks db') <-> In x (db_tasks db))) /\
    map (@_id Id) (db_tasks db') = map (@_id Id) (db_tasks db).
Proof.
  intros I ND O.
  pose proof (findById_stored (db_tasks db) t ND I) as F.
  pose proof (checkOwnership_owner u t O) as K.
  do 2 eexists. split.
  - unfold updateTaskPriority. rewrite F, K. simpl.
    rewrite (findByIdAndUpdate_found _ _ _ _ t F) by reflexivity. reflexivity.
  - simpl. split; [apply replace_by_id_found; [exact F | reflexivity]|].
    split; [reflexivity|]. split; [destruct pos; reflexivity|].
    repeat split.
    + apply replace_by_id_others; [reflexivity | assumption].
    + apply replace_by_id_others; [reflexivity | assumption].
    + apply replace_by_id_ids. reflexivity.
Qed.

(** X6. A full update that succeeds never changes the creator, the
    identifier, the position, the archived flag or the creation time of
    the task; the title it stores is the trimmed title of the request,
    and a priority, status, assignee or due date that the request carries
    is the one stored. *)
Theorem full_update_frame {Id : Type} `{Ident Id}
    (db db' : Db) (u : Id) (t : Task Id) (body : TaskBody Id) (now : Z)
    (code : Z) (message : option string) (data : option (PopulatedTask Id)) :
  In t (db_tasks db) -> NoDup (map (@_id Id) (db_tasks db)) ->
  updateTask db u (_id t) body now = (Ok code message data, db') ->
  exists t',
    findById (_id t) (db_tasks db') = Some t' /\
    data = Some (populate (db_users db) t') /\
    createdBy t' = createdBy t /\ _id t' = _id t /\ position t' = position t /\
    isArchived t' = isArchived t /\ createdAt t' = createdAt t /\
    updatedAt t' = now /\
    title t' = trim (b_title body) /\
    (forall p, b_priority body = Some p -> priority t' = p) /\
    (forall st, b_status body = Some st -> status t' = st) /\
    (forall a, b_assignee body = Some a -> assignee t' = a) /\
    (forall due, b_dueDate body = Some due -> dueDate t' = Some due /\ now < due) /\
    db_users db' = db_users db /\
    map (@_id Id) (db_tasks db') = map (@_id Id) (db_tasks db).
Proof.
  intros I ND E.
  pose proof (findById_stored (db_tasks db) t ND I) as F.
  unfold updateTask in E. rewrite F in E.
  destruct (negb (checkOwnership u (Some t))); [discriminate E|].
  match type of E with (if ?b then _ else _) = _ => destruct b end;
    [discriminate E|].
  unfold findByIdAndUpdate in E.
  destruct (update_valid now (update_of_body body)) eqn:V; [|discriminate E].
  rewrite F in E. injection E as _ _ <- <-. simpl.
  eexists. split; [apply replace_by_id_found; [exact F | reflexivity]|].
  split; [reflexivity|]. simpl.
  do 7 (split; [reflexivity|]).
  split; [intros p ->; reflexivity|].
  split; [intros st ->; reflexivity|].
  split; [intros a ->; reflexivity|].
  split; [|split; [reflexivity | apply replace_by_id_ids; reflexivity]].
  intros due D. rewrite D. split; [reflexivity|].
  unfold update_valid, update_of_body in V. simpl in V.
  rewrite D in V. rewrite !andb_true_iff in V.
  destruct V as [[_ V] _]. apply Z.ltb_lt in V. exact V.
Qed.

(** X7. Reassigning moves the right to modify.  After the assignee or the
    creator of a stored task gave it, by a full update, to another
    existing user, the creator and the new assignee pass the ownership
    check on the stored task, and the previous assignee, unless he is one
    of them, is refused on his next request. *)
Theorem reassign_moves_access {Id : Type} `{Ident Id}
    (db : Db) (u a : Id) (t : Task Id) (body : TaskBody Id) (now : Z) :
  In t (db_tasks db) -> NoDup (map (@_id Id) (db_tasks db)) ->
  u = assignee t \/ u = createdBy t ->
  b_assignee body = Some a ->
  User_findById a (db_users db) <> None ->
  update_valid now (update_of_body body) = true ->
  exists t' db',
    updateTask db u (_id t) body now
      = (Ok 200 (Some "Task updated successfully")
           (Some (populate (db_users db) t')), db') /\
    findById (_id t) (db_tasks db') = Some t' /\
    assignee t' = a /\
    checkOwnership (createdBy t) (Some t') = true /\
    checkOwnership a (Some t') = true /\
    (assignee t <> a -> assignee t <> createdBy t ->
     forall st later,
       updateTaskStatus db' (assignee t) (_id t) st later
       = (Fail 403 "Access denied. You can only modify tasks assigned to you or created by you.",
          db')).
Proof.
  intros I ND O A U V.
  pose proof (findById_stored (db_tasks db) t ND I) as F.
  pose proof (checkOwnership_owner u t O) as K.
  assert (F' : findById (_id t)
                 (replace_by_id (_id t) (apply_update now (update_of_body body))
                    (db_tasks db))
               = Some (apply_update now (update_of_body body) t)).
  { apply replace_by_id_found; [exact F | reflexivity]. }
  do 2 eexists. split.
  - unfold updateTask. rewrite F, K, A. simpl.
    destruct (User_findById a (db_users db)); [|congruence].
    rewrite andb_false_r.
    rewrite (findByIdAndUpdate_found _ _ _ _ t F V). reflexivity.
  - cbn [db_tasks]. split; [exact F'|].
    assert (EA : assignee (apply_update now (update_of_body body) t) = a).
    { simpl. rewrite A. reflexivity. }
    split; [exact EA|].
    split; [apply checkOwnership_owner; right; reflexivity|].
    split; [apply checkOwnership_owner; left; symmetry; exact EA|].
    intros NA NC st later. unfold updateTaskStatus. cbn [db_tasks]. rewrite F'.
    assert (R : checkOwnership (assignee t)
                  (Some (apply_update now (update_of_body body) t)) = false).
    { apply checkOwnership_false. rewrite EA. simpl. split; congruence. }
    rewrite R. reflexivity.
Qed.

(** X8. Status updates overwrite one another: after two successful
    status updates of a task the store is the one the second update alone
    would have left; so repeating an update changes nothing. *)
Theorem status_last_write_wins {Id : Type} `{Ident Id}
    (db : Db) (u : Id) (t : Task Id) (st1 st2 : Status) (now1 now2 : Z) :
  In t (db_tasks db) -> NoDup (map (@_id Id) (db_tasks db)) ->
  u = assignee t \/ u = createdBy t ->
  snd (updateTaskStatus (snd (updateTaskStatus db u (_id t) st1 now1)) u (_id t) st2 now2)
    = snd (updateTaskStatus db u (_id t) st2 now2) /\
  fst (updateTaskStatus (snd (updateTaskStatus db u (_id t) st1 now1)) u (_id t) st2 now2)
    = fst (updateTaskStatus db u (_id t) st2 now2) /\
  snd (updateTaskStatus (snd (updateTaskStatus db u (_id t) st2 now2)) u (_id t) st2 now2)
    = snd (updateTaskStatus db u (_id t) st2 now2).
Proof.
  intros I ND O.
  pose proof (findById_stored (db_tasks db) t ND I) as F.
  pose proof (checkOwnership_owner u t O) as K.
  assert (G : forall st now st' now',
    updateTaskStatus (snd (updateTaskStatus db u (_id t) st now)) u (_id t) st' now'
    = updateTaskStatus db u (_id t) st' now').
  { intros st now st' now'.
    rewrite (updateTaskStatus_owner db u (_id t) st now t F K). simpl.
    set (f := apply_update now (mkUpdate None None None None (Some st) None None None)).
    assert (Ff : findById (_id t) (replace_by_id (_id t) f (db_tasks db)) = Some (f t)).
    { apply replace_by_id_found; [exact F | reflexivity]. }
    assert (Kf : checkOwnership u (Some (f t)) = true).
    { apply checkOwnership_owner. exact O. }
    rewrite (updateTaskStatus_owner
               (mkDb (db_users db) (replace_by_id (_id t) f (db_tasks db)))
               u (_id t) st' now' (f t) Ff Kf).
    rewrite (updateTaskStatus_owner db u (_id t) st' now' t F K).
    cbn [db_users db_tasks]. rewrite replace_by_id_twice by reflexivity.
    reflexivity. }
  rewrite !G. repeat split.
Qed.

(** ** The lanes of the board *)

Lemma firstn_StronglySorted {A : Type} (R : A -> A -> Prop) (n : nat) (l : list A) :
  StronglySorted R l -> StronglySorted R (firstn n l).
Proof.
  revert n. induction l as [|x l IH]; intros n S; destruct n; simpl;
    try constructor.
  - apply IH. inversion S; assumption.
  - inversion S as [|? ? _ F]; subst.
    rewrite Forall_forall in *. intros y I. apply F.
    revert I. apply In_firstn.
Qed.

Lemma lane_spec_le {Id : Type} (a b : Task Id) :
  cmp_le (spec_compare [(by_position, asc); (by_createdAt, desc)]) a b <-> lane_le a b.
Proof.
  unfold cmp_le, cmp_leb, lane_le. simpl.
  destruct (Z.compare_spec (position a) (position b)) as [E|L|G].
  - destruct (Z.compare_spec (createdAt a) (createdAt b)); simpl;
      split; intros K; try reflexivity; try discriminate; try lia.
  - split; intros K; [lia | reflexivity].
  - split; intros K; [discriminate | lia].
Qed.

Lemma cursor_limit_firstn {A : Type} (n : Z) (l : list A) :
  1 <= n -> cursor_limit n l = firstn (Z.to_nat n) l.
Proof.
  intros Hn. unfold cursor_limit.
  destruct (n =? 0) eqn:E; [lia|]. rewrite Z.abs_eq by lia. reflexivity.
Qed.

Lemma js_slice_window {A : Type} (skip limit : Z) (l : list A) :
  0 <= skip -> 0 <= limit ->
  js_slice skip (skip + limit) l = firstn (Z.to_nat limit) (skipn (Z.to_nat skip) l).
Proof.
  intros Hs Hl. unfold js_slice, relative_index.
  assert (E1 : (skip <? 0) = false) by (apply Z.ltb_ge; lia).
  assert (E2 : (skip + limit <? 0) = false) by (apply Z.ltb_ge; lia).
  rewrite E1, E2.
  set (len := Z.of_nat (List.length l)).
  destruct (Z.le_gt_cases len skip) as [B | B].
  - rewrite skipn_all2 by (subst len; lia).
    rewrite (Z.min_r skip) by lia.
    rewrite skipn_all2 by (subst len; lia).
    rewrite !firstn_nil. reflexivity.
  - rewrite (Z.min_l skip) by lia.
    destruct (Z.le_gt_cases (skip + limit) len) as [C | C].
    + rewrite Z.min_l by lia. f_equal. lia.
    + rewrite Z.min_r by lia.
      rewrite !firstn_all2; [reflexivity | |];
        rewrite length_skipn; subst len; lia.
Qed.

Lemma getBoardData_lanes {Id : Type} `{Ident Id} (c : list (Task Id)) (user : Id)
    (limit : Z) :
  getBoardData c user limit
  = Some
      (map
         (fun p =>
            (p,
             mkLane
               (cursor_limit limit
                  (cursor_sort [(by_position, asc); (by_createdAt, desc)]
                     (find (mkFilter user (Some p) None) c)))
               (countDocuments (mkFilter user (Some p) None) c)
               (limit <? countDocuments (mkFilter user (Some p) None) c)))
         priorities).
Proof. reflexivity. Qed.

Lemma lane_find_iff {Id : Type} `{Ident Id} (c : list (Task Id)) (user : Id)
    (p : Priority) (t : Task Id) :
  In t (find (mkFilter user (Some p) None) c) <-> In t c /\ in_lane user p t.
Proof.
  rewrite find_In, matches_iff. unfold in_lane.
  split.
  - intros (I & A & R & P & _). repeat split; auto.
  - intros (I & A & R & P). repeat split; auto; congruence.
Qed.

(** X9. A lane of the board on the database, for a limit of at least 1:
    it shows the first [limit] tasks of the lane in the order of
    position ascending, then creation time descending (all of them when
    the lane has no more), every shown task is a non-archived task of the
    user with the priority of the lane, and [hasMore] holds exactly when
    fewer tasks are shown than the lane has. *)
Theorem board_lane_tasks_db {Id : Type} `{Ident Id}
    (c : list (Task Id)) (user : Id) (limit : Z) :
  1 <= limit ->
  exists b,
    getBoardData c user limit = Some b /\
    forall p lane, In (p, lane) b ->
      Z.of_nat (List.length (lane_tasks lane)) = Z.min limit (totalCount lane) /\
      (exists rest,
         Permutation (lane_tasks lane ++ rest) (find (mkFilter user (Some p) None) c) /\
         StronglySorted lane_le (lane_tasks lane ++ rest)) /\
      (forall t, In t (lane_tasks lane) -> In t c /\ in_lane user p t) /\
      (hasMore lane = true <->
       Z.of_nat (List.length (lane_tasks lane)) < totalCount lane).
Proof.
  intros Hl. rewrite getBoardData_lanes. eexists. split; [reflexivity|].
  intros p lane I. apply in_map_iff in I. destruct I as (q & E & _).
  inversion E; subst; clear E. cbn [lane_tasks totalCount hasMore].
  set (lane := find (mkFilter user (Some p) None) c).
  set (sorted := cursor_sort [(by_position, asc); (by_createdAt, desc)] lane).
  assert (L : List.length sorted = List.length lane)
    by (apply sort_by_length).
  rewrite cursor_limit_firstn by lia.
  unfold countDocuments. fold lane.
  assert (N : Z.of_nat (List.length (firstn (Z.to_nat limit) sorted))
              = Z.min limit (Z.of_nat (List.length lane))).
  { rewrite length_firstn, L. lia. }
  split; [exact N|]. split; [|split].
  - exists (skipn (Z.to_nat limit) sorted). rewrite firstn_skipn. split.
    + symmetry. apply sort_by_perm.
    + apply StronglySorted_weaken with (2 := cursor_sort_sorted _ _).
      intros a b. apply lane_spec_le.
  - intros t J. apply In_firstn in J. apply sort_by_In in J.
    apply lane_find_iff in J. exact J.
  - rewrite N, Z.ltb_lt. lia.
Qed.

(** X10. A lane of the board on the memory store, for a limit that is
    not negative: it shows the first [limit] tasks of the lane in the
    order they were stored, and [hasMore] holds exactly when fewer tasks
    are shown than the lane has. *)
Theorem board_lane_tasks_memory (s : memoryStore.State) (user : N) (page limit : Z) :
  0 <= limit ->
  exists b,
    getTasks_memory s user (mkReqQuery page limit None None true)
      = Ok 200 None (BoardView b) /\
    forall p lane, In (p, lane) b ->
      Z.of_nat (List.length (lane_tasks lane)) = Z.min limit (totalCount lane) /\
      (exists rest,
         lane_tasks lane ++ rest = find (mkFilter user (Some p) None) (memoryStore.tasks s)) /\
      (hasMore lane = true <->
       Z.of_nat (List.length (lane_tasks lane)) < totalCount lane).
Proof.
  intros Hl. unfold getTasks_memory; cbn [rq_board rq_priority rq_status rq_limit rq_page].
  eexists. split; [reflexivity|].
  intros p lane I. apply in_map_iff in I. destruct I as (q & E & _).
  inversion E; subst; clear E. cbn [lane_tasks totalCount hasMore].
  pose proof (memory_selection s user (Some p) None) as M. cbv beta iota in M.
  rewrite M. set (lane := find (mkFilter user (Some p) None) (memoryStore.tasks s)).
  assert (W : js_slice 0 limit lane = firstn (Z.to_nat limit) lane).
  { exact (js_slice_window 0 limit lane (Z.le_refl 0) Hl). }
  rewrite W.
  assert (N : Z.of_nat (List.length (firstn (Z.to_nat limit) lane))
              = Z.min limit (Z.of_nat (List.length lane))).
  { rewrite length_firstn. lia. }
  split; [exact N|]. split.
  - exists (skipn (Z.to_nat limit) lane). apply firstn_skipn.
  - rewrite N, Z.ltb_lt. lia.
Qed.

(** ** The pages of the list *)

Lemma window_length {A : Type} (skip limit : Z) (l : list A) :
  0 <= skip -> 0 <= limit ->
  Z.of_nat (List.length (firstn (Z.to_nat limit) (skipn (Z.to_nat skip) l)))
  = Z.min limit (Z.max 0 (Z.of_nat (List.length l) - skip)).
Proof. intros Hs Hl. rewrite length_firstn, length_skipn. lia. Qed.

Lemma window_nth {A : Type} (skip limit : Z) (l : list A) (j : nat) :
  (j < Z.to_nat limit)%nat ->
  nth_error (firstn (Z.to_nat limit) (skipn (Z.to_nat skip) l)) j
  = nth_error l (Z.to_nat skip + j).
Proof.
  intros Hj. rewrite nth_error_firstn.
  apply Nat.ltb_lt in Hj. rewrite Hj. apply nth_error_skipn.
Qed.

(** X11. The pages of a list query cut one list in blocks.  For a limit
    of at least 1 there is one list of the selected tasks (on the
    database a list sorted by the stored priority string, then by
    position ascending, then by creation time descending; on the memory
    store the selected tasks in the stored order) such that page [page],
    for every [page >= 1], is answered with the block of that list that
    starts at [(page - 1) * limit]: its [j]-th task is task
    [(page - 1) * limit + j] of the list, and it has [limit] tasks or as
    many as are left. *)
Theorem pages_are_blocks {Id : Type} `{Ident Id}
    (c : list (Task Id)) (user : Id) (s : memoryStore.State) (user' : N)
    (limit : Z) (fp : option Priority) (fs : option Status) :
  1 <= limit ->
  (exists all,
     Permutation all (find (mkFilter user fp fs) c) /\
     StronglySorted stored_le all /\
     forall page, 1 <= page ->
       exists tasks pg,
         getTasks_db c user (mkReqQuery page limit fp fs false)
           = Ok 200 None (ListView tasks pg) /\
         Z.of_nat (List.length tasks)
           = Z.min limit (Z.max 0 (Z.of_nat (List.length all) - (page - 1) * limit)) /\
         forall j, (j < Z.to_nat limit)%nat ->
           nth_error tasks j = nth_error all (Z.to_nat ((page - 1) * limit) + j)) /\
  (forall page, 1 <= page ->
     exists tasks pg,
       getTasks_memory s user' (mkReqQuery page limit fp fs false)
         = Ok 200 None (ListView tasks pg) /\
       Z.of_nat (List.length tasks)
         = Z.min limit
             (Z.max 0
                (Z.of_nat (List.length (find (mkFilter user' fp fs) (memoryStore.tasks s)))
                 - (page - 1) * limit)) /\
       forall j, (j < Z.to_nat limit)%nat ->
         nth_error tasks j
         = nth_error (find (mkFilter user' fp fs) (memoryStore.tasks s))
             (Z.to_nat ((page - 1) * limit) + j)).
Proof.
  intros Hl. split.
  - exists (cursor_sort [(by_priority, asc); (by_position, asc); (by_createdAt, desc)]
              (find (mkFilter user fp fs) c)).
    split; [symmetry; apply sort_by_perm|].
    split.
    { apply StronglySorted_weaken with (2 := cursor_sort_sorted _ _).
      intros a b. apply list_spec_le. }
    intros page Hp. rewrite getTasks_db_list by lia. cbv zeta.
    do 2 eexists. split; [reflexivity|].
    rewrite cursor_limit_firstn by lia.
    split; [apply window_length; nia|].
    intros j Hj. apply window_nth. exact Hj.
  - intros page Hp. rewrite getTasks_memory_list. cbv zeta.
    do 2 eexists. split; [reflexivity|].
    rewrite js_slice_window by nia.
    split; [apply window_length; nia|].
    intros j Hj. apply window_nth. exact Hj.
Qed.

(** ** Whose tasks an answer depends on *)

Lemma matches_other {Id : Type} `{Ident Id} (user : Id) (fp : option Priority)
    (fs : option Status) (t : Task Id) :
  assignee t <> user \/ isArchived t = true ->
  matches (mkFilter user fp fs) t = false.
Proof.
  intros O. unfold matches; simpl. destruct O as [O | O].
  - apply id_eqb_neq in O. rewrite O. reflexivity.
  - rewrite O, andb_false_r. reflexivity.
Qed.

Lemma find_skips_other {Id : Type} `{Ident Id} (user : Id) (fp : option Priority)
    (fs : option Status) (c1 c2 : list (Task Id)) (t : Task Id) :
  assignee t <> user \/ isArchived t = true ->
  find (mkFilter user fp fs) (c1 ++ t :: c2) = find (mkFilter user fp fs) (c1 ++ c2).
Proof.
  intros O. unfold find. rewrite !filter_app. simpl.
  rewrite (matches_other user fp fs t O). reflexivity.
Qed.

(** X12. The answer of [getTasks], list or board, does not depend on the
    tasks of other users nor on archived tasks: with or without such a
    task in the store, wherever it stands, the answer is the same.  This
    holds on the database and on the memory store. *)
Theorem answer_ignores_other_tasks {Id : Type} `{Ident Id}
    (c1 c2 : list (Task Id)) (t : Task Id) (user : Id)
    (s1 s2 : memoryStore.State) (d1 d2 : list (Task N)) (t' : Task N) (user' : N)
    (q : ReqQuery) :
  assignee t <> user \/ isArchived t = true ->
  assignee t' <> user' \/ isArchived t' = true ->
  memoryStore.tasks s1 = d1 ++ t' :: d2 ->
  memoryStore.tasks s2 = d1 ++ d2 ->
  getTasks_db (c1 ++ t :: c2) user q = getTasks_db (c1 ++ c2) user q /\
  getTasks_memory s1 user' q = getTasks_memory s2 user' q.
Proof.
  intros O O' E1 E2. split.
  - unfold getTasks_db, getBoardData, getTasksByPriority, countDocuments.
    rewrite !(find_skips_other user _ _ c1 c2 t O).
    simpl. rewrite !(find_skips_other user _ _ c1 c2 t O). reflexivity.
  - assert (A : memoryStore.tasks_findByAssignee s1 user'
                = memoryStore.tasks_findByAssignee s2 user').
    { unfold memoryStore.tasks_findByAssignee.
      rewrite E1, E2, !filter_app. simpl.
      assert (K : (assignee t' =? user')%N && negb (isArchived t') = false).
      { destruct O' as [O' | O'].
        - apply N.eqb_neq in O'. rewrite O'. reflexivity.
        - rewrite O', andb_false_r. reflexivity. }
      rewrite K. reflexivity. }
    unfold getTasks_memory. rewrite A. reflexivity.
Qed.

(** ** Where a new task is listed *)

Section SortSnoc.
Variable A : Type.
Variable cmp : A -> A -> comparison.



End SortSnoc.


(** ** The memory store *)

Lemma replace_first_ids (id : N) (f : Task N -> Task N) (c : list (Task N)) :
  (forall t, _id t = id -> _id (f t) = id) ->
  map (@_id N) (replace_by_id id f c) = map (@_id N) c.
Proof.
  intros K. induction c as [|t c IH]; simpl; [reflexivity|].
  destruct (N.eqb (_id t) id) eqn:E; simpl.
  - apply N.eqb_eq in E. rewrite (K t E), E. reflexivity.
  - rewrite IH. reflexivity.
Qed.

Lemma remove_by_id_incl {Id : Type} `{Ident Id} (id : Id) (c : list (Task Id))
    (x : Task Id) :
  In x (remove_by_id id c) -> In x c.
Proof.
  induction c as [|t c IH]; simpl; [auto|].
  destruct (id_eqb (_id t) id); simpl; intuition.
Qed.

Lemma remove_by_id_NoDup {Id : Type} `{Ident Id} (id : Id) (c : list (Task Id)) :
  NoDup (map (@_id Id) c) -> NoDup (map (@_id Id) (remove_by_id id c)).
Proof.
  induction c as [|t c IH]; simpl; intros ND; [constructor|].
  inversion ND as [|? ? NI ND']; subst.
  destruct (id_eqb (_id t) id); [exact ND'|].
  simpl. constructor; [|apply IH; exact ND'].
  intros I. apply NI. apply in_map_iff in I. destruct I as (x & E & I).
  apply in_map_iff. exists x. split; [exact E|].
  apply (remove_by_id_incl id c x I).
Qed.

Lemma ids_below_fresh {A : Type} (id : A -> N) (counter : N) (l : list A) :
  ids_below id counter l -> ~ In counter (map id l).
Proof.
  intros B I. apply in_map_iff in I. destruct I as (x & E & I).
  specialize (B x I). lia.
Qed.

Lemma NoDup_snoc {A : Type} (l : list A) (x : A) :
  NoDup l -> ~ In x l -> NoDup (l ++ [x]).
Proof.
  intros ND NI. apply NoDup_app; [exact ND | repeat constructor; auto |].
  intros y I [<- | []]. exact (NI I).
Qed.

Lemma ids_below_snoc {A : Type} (id : A -> N) (counter : N) (l : list A) (x : A) :
  ids_below id counter l -> id x = counter -> ids_below id (counter + 1) (l ++ [x]).
Proof.
  intros B E y I. apply in_app_or in I. destruct I as [I | [<- | []]].
  - specialize (B y I). lia.
  - lia.
Qed.

(** X14. The memory store stays in good order: in every state that
    [clear], [users.create], [tasks.create], [tasks.updateById] and
    [tasks.deleteById] lead to, the identifiers of the tasks are all
    different and below the task counter, and so are those of the users
    with the user counter. *)
Theorem reachable_store_in_order (s : memoryStore.State) :
  Reachable s -> store_in_order s.
Proof.
  induction 1 as [| s name email avatarUrl _ IH | s now d _ IH
                  | s id u now _ IH | s id _ IH].
  - repeat split; simpl; try constructor; intros x [].
  - destruct IH as (T & TB & U & UB). repeat split; simpl; auto.
    + rewrite map_app. simpl. apply NoDup_snoc; [exact U|].
      apply ids_below_fresh. exact UB.
    + apply ids_below_snoc; [exact UB | reflexivity].
  - destruct IH as (T & TB & U & UB). repeat split; simpl; auto.
    + rewrite map_app. simpl. apply NoDup_snoc; [exact T|].
      apply ids_below_fresh. exact TB.
    + apply ids_below_snoc; [exact TB | reflexivity].
  - destruct IH as (T & TB & U & UB).
    unfold memoryStore.tasks_updateById.
    destruct (memoryStore.tasks_findById s id) as [task|] eqn:F;
      [|repeat split; assumption].
    apply find_some in F. destruct F as [I E]. apply N.eqb_eq in E.
    assert (M : map (@_id N)
                  (replace_by_id id
                     (fun _ =>
                        mkTask (_id task)
                          (or_default (title task) (set_title u))
                          match set_description u with
                          | Some x => Some x
                          | None => description task
                          end
                          match set_dueDate u with
                          | Some x => Some x
                          | None => dueDate task
                          end
                          (or_default (priority task) (set_priority u))
                          (or_default (status task) (set_status u))
                          (or_default (assignee task) (set_assignee u))
                          (createdBy task)
                          (or_default (position task) (set_position u))
                          (or_default (tags task) (set_tags u))
                          (isArchived task) (createdAt task) now)
                     (memoryStore.tasks s))
                = map (@_id N) (memoryStore.tasks s)).
    { apply replace_first_ids. intros t _. exact E. }
    repeat split; simpl; auto.
    + rewrite M. exact T.
    + intros x J. apply (in_map (@_id N)) in J. rewrite M in J.
      apply in_map_iff in J. destruct J as (y & <- & J). apply TB. exact J.
  - destruct IH as (T & TB & U & UB).
    unfold memoryStore.tasks_deleteById.
    destruct (memoryStore.tasks_findById s id) as [task|];
      [|repeat split; assumption].
    repeat split; simpl; auto.
    + apply remove_by_id_NoDup. exact T.
    + intros x J. apply TB. apply (remove_by_id_incl id _ x J).
Qed.

Lemma findById_snoc {Id : Type} `{Ident Id} (id : Id) (c : list (Task Id)) (t : Task Id) :
  findById id (c ++ [t])
  = match findById id c with
    | Some x => Some x
    | None => if id_eqb (_id t) id then Some t else None
    end.
Proof.
  unfold findById. induction c as [|x c IH]; simpl; [reflexivity|].
  destruct (id_eqb (_id x) id); [reflexivity | exact IH].
Qed.

Lemma findById_fresh {Id : Type} `{Ident Id} (id : Id) (c : list (Task Id)) :
  ~ In id (map (@_id Id) c) -> findById id c = None.
Proof.
  intros NI. apply findById_absent. intros t I E. apply NI.
  rewrite <- E. apply in_map. exact I.
Qed.

Lemma createTask_memory_result (s : memoryStore.State) (user : N) (body : TaskBody N)
    (now : Z) (au cu : User N) :
  memoryStore.users_findById s (or_default user (b_assignee body)) = Some au ->
  memoryStore.users_findById s user = Some cu ->
  createTask_memory s user body now
  = (Ok 201 (Some "Task created successfully (demo mode)")
       (mkPopulated (created_task s user body now) (Some (user_info au))
          (Some (user_info cu))),
     memoryStore.mkState (memoryStore.users s)
       (memoryStore.tasks s ++ [created_task s user body now])
       (memoryStore.userIdCounter s) (memoryStore.taskIdCounter s + 1)).
Proof.
  intros EA EC. unfold createTask_memory. rewrite EA.
  unfold memoryStore.tasks_create.
  change (memoryStore.users_findById
            (memoryStore.mkState (memoryStore.users s) ?x ?y ?z) user)
    with (memoryStore.users_findById s user).
  rewrite EC. unfold created_task, lane_count, memoryStore.tasks_findByAssignee.
  rewrite filter_filter_andb. reflexivity.
Qed.

Lemma tasks_findById_snoc (s : memoryStore.State) (t : Task N) (uc tc id : N) :
  memoryStore.tasks_findById
    (memoryStore.mkState (memoryStore.users s) (memoryStore.tasks s ++ [t]) uc tc) id
  = match memoryStore.tasks_findById s id with
    | Some x => Some x
    | None => if N.eqb (_id t) id then Some t else None
    end.
Proof. exact (findById_snoc id (memoryStore.tasks s) t). Qed.

(** X15. Create, then read back, on the memory store in good order.  The
    task a user creates gets the value of the task counter for
    identifier, which no stored task has; it is found under that
    identifier, every other lookup is answered as before, the store is
    still in good order, and [getTask] gives its creator the very task
    the creation answered. *)
Theorem create_then_read_memory (s : memoryStore.State) (user : N)
    (body : TaskBody N) (now : Z) :
  store_in_order s ->
  memoryStore.users_findById s user <> None ->
  memoryStore.users_findById s (or_default user (b_assignee body)) <> None ->
  exists task data s',
    createTask_memory s user body now
      = (Ok 201 (Some "Task created successfully (demo mode)") data, s') /\
    p_task data = task /\
    _id task = memoryStore.taskIdCounter s /\
    ~ In (_id task) (map (@_id N) (memoryStore.tasks s)) /\
    memoryStore.tasks_findById s' (_id task) = Some task /\
    (forall id, id <> _id task ->
       memoryStore.tasks_findById s' id = memoryStore.tasks_findById s id) /\
    store_in_order s' /\
    getTask_memory s' user (_id task) = Ok 200 None data.
Proof.
  intros (T & TB & U & UB) FU FA.
  destruct (memoryStore.users_findById s (or_default user (b_assignee body)))
    as [au|] eqn:EA; [clear FA | congruence].
  destruct (memoryStore.users_findById s user) as [cu|] eqn:EC; [clear FU | congruence].
  rewrite (createTask_memory_result s user body now au cu EA EC).
  set (task := created_task s user body now).
  assert (I : _id task = memoryStore.taskIdCounter s) by reflexivity.
  pose proof (ids_below_fresh (@_id N) _ _ TB) as NI.
  assert (Fn : memoryStore.tasks_findById s (memoryStore.taskIdCounter s) = None)
    by (exact (findById_fresh _ _ NI)).
  do 3 eexists. split; [reflexivity|]. cbn [p_task].
  split; [reflexivity|]. split; [exact I|]. split; [rewrite I; exact NI|].
  split; [|split; [|split]].
  - rewrite tasks_findById_snoc, I, Fn, N.eqb_refl. reflexivity.
  - intros id D. rewrite tasks_findById_snoc.
    destruct (memoryStore.tasks_findById s id); [reflexivity|].
    apply N.eqb_neq in D. rewrite N.eqb_sym, D. reflexivity.
  - repeat split; cbn [memoryStore.tasks memoryStore.users memoryStore.taskIdCounter
                        memoryStore.userIdCounter]; auto.
    + rewrite map_app. simpl map. apply NoDup_snoc; [exact T | exact NI].
    + apply ids_below_snoc; [exact TB | exact I].
  - unfold getTask_memory. rewrite tasks_findById_snoc, I, Fn, N.eqb_refl.
    change (memoryStore.users_findById
              (memoryStore.mkState (memoryStore.users s) ?x ?y ?z) ?i)
      with (memoryStore.users_findById s i).
    assert (A : assignee task = or_default user (b_assignee body)) by reflexivity.
    assert (C : createdBy task = user) by reflexivity.
    rewrite A, C, EA, EC. cbn [option_map].
    assert (K : canAccess N.eqb user
                  (mkPopulated task (Some (user_info au)) (Some (user_info cu))) = true).
    { unfold canAccess. cbn [p_assignee p_createdBy user_info i_id].
      unfold memoryStore.users_findById, js_find in EC.
      apply find_some in EC. destruct EC as [_ EC]. rewrite EC.
      rewrite orb_true_r. reflexivity. }
    rewrite K. reflexivity.
Qed.

(** ** The database across the handlers *)

Section DbOrder.
Context {Id : Type} `{Ident Id}.

Lemma createTask_db_cases (db : Db) (user : Id) (body : TaskBody Id) (now : Z)
    (new_id : Id) :
  snd (createTask_db db user body now new_id) = db \/
  exists task,
    _id task = new_id /\
    snd (createTask_db db user body now new_id)
    = mkDb (db_users db) (db_tasks db ++ [task]).
Proof.
  unfold createTask_db.
  destruct (User_findById _ (db_users db)); [|left; reflexivity].
  unfold Task_create.
  match goal with |- context [schema_valid now ?d] => destruct (schema_valid now d) end;
    [right | left; reflexivity].
  eexists. split; [|reflexivity]. reflexivity.
Qed.

Lemma update_cases (db : Db) (id : Id) (u : Update) (now : Z) :
  match findByIdAndUpdate id u now (db_tasks db) with
  | None => True
  | Some (_, c') =>
      c' = db_tasks db \/ c' = replace_by_id id (apply_update now u) (db_tasks db)
  end.
Proof.
  unfold findByIdAndUpdate. destruct (update_valid now u); [|exact I].
  destruct (findById id (db_tasks db)); [right | left]; reflexivity.
Qed.

Lemma db_eta (db : Db (Id := Id)) : mkDb (db_users db) (db_tasks db) = db.
Proof. destruct db; reflexivity. Qed.

Lemma updateTask_cases (db : Db) (user id : Id) (body : TaskBody Id) (now : Z) :
  snd (updateTask db user id body now) = db \/
  snd (updateTask db user id body now)
  = mkDb (db_users db)
      (replace_by_id id (apply_update now (update_of_body body)) (db_tasks db)).
Proof.
  unfold updateTask.
  destruct (findById id (db_tasks db)); [|left; reflexivity].
  destruct (negb _); [left; reflexivity|].
  match goal with |- context [if ?b then _ else _] => destruct b end;
    [left; reflexivity|].
  pose proof (update_cases db id (update_of_body body) now) as K.
  destruct (findByIdAndUpdate id (update_of_body body) now (db_tasks db))
    as [[t' c']|]; [|left; reflexivity].
  destruct K as [-> | ->]; [left; apply db_eta | right; reflexivity].
Qed.

Lemma updateTaskStatus_cases (db : Db) (user id : Id) (st : Status) (now : Z) :
  snd (updateTaskStatus db user id st now) = db \/
  snd (updateTaskStatus db user id st now)
  = mkDb (db_users db)
      (replace_by_id id
         (apply_update now (mkUpdate None None None None (Some st) None None None))
         (db_tasks db)).
Proof.
  unfold updateTaskStatus.
  destruct (findById id (db_tasks db)); [|left; reflexivity].
  destruct (negb _); [left; reflexivity|].
  match goal with |- context [findByIdAndUpdate id ?u now _] =>
    pose proof (update_cases db id u now) as K;
    destruct (findByIdAndUpdate id u now (db_tasks db)) as [[t' c']|]
  end; [|left; reflexivity].
  destruct K as [-> | ->]; [left; apply db_eta | right; reflexivity].
Qed.

Lemma updateTaskPriority_cases (db : Db) (user id : Id) (p : Priority)
    (pos : option Z) (now : Z) :
  snd (updateTaskPriority db user id p pos now) = db \/
  snd (updateTaskPriority db user id p pos now)
  = mkDb (db_users db)
      (replace_by_id id
         (apply_update now (mkUpdate None None None (Some p) None None pos None))
         (db_tasks db)).
Proof.
  unfold updateTaskPriority.
  destruct (findById id (db_tasks db)); [|left; reflexivity].
  destruct (negb _); [left; reflexivity|].
  match goal with |- context [findByIdAndUpdate id ?u now _] =>
    pose proof (update_cases db id u now) as K;
    destruct (findByIdAndUpdate id u now (db_tasks db)) as [[t' c']|]
  end; [|left; reflexivity].
  destruct K as [-> | ->]; [left; apply db_eta | right; reflexivity].
Qed.

Lemma deleteTask_cases (db : Db) (user id : Id) :
  snd (deleteTask db user id) = db \/
  snd (deleteTask db user id) = mkDb (db_users db) (remove_by_id id (db_tasks db)).
Proof.
  unfold deleteTask.
  destruct (findById id (db_tasks db)); [|left; reflexivity].
  destruct (negb _); [left | right]; reflexivity.
Qed.

End DbOrder.

(** X16. No handler disturbs the order of the database: when the
    identifiers of the stored tasks are all different and the driver
    gives a new document an identifier that is not stored, they are still
    all different after [createTask], [updateTask], [updateTaskStatus],
    [updateTaskPriority] and [deleteTask], whatever these answer; and
    none of them changes the users. *)
Theorem handlers_keep_identifiers_distinct {Id : Type} `{Ident Id}
    (db : Db) (user id new_id : Id) (body : TaskBody Id) (st : Status)
    (p : Priority) (pos : option Z) (now : Z) :
  NoDup (map (@_id Id) (db_tasks db)) ->
  ~ In new_id (map (@_id Id) (db_tasks db)) ->
  (NoDup (map (@_id Id) (db_tasks (snd (createTask_db db user body now new_id)))) /\
   db_users (snd (createTask_db db user body now new_id)) = db_users db) /\
  (NoDup (map (@_id Id) (db_tasks (snd (updateTask db user id body now)))) /\
   db_users (snd (updateTask db user id body now)) = db_users db) /\
  (NoDup (map (@_id Id) (db_tasks (snd (updateTaskStatus db user id st now)))) /\
   db_users (snd (updateTaskStatus db user id st now)) = db_users db) /\
  (NoDup (map (@_id Id) (db_tasks (snd (updateTaskPriority db user id p pos now)))) /\
   db_users (snd (updateTaskPriority db user id p pos now)) = db_users db) /\
  (NoDup (map (@_id Id) (db_tasks (snd (deleteTask db user id)))) /\
   db_users (snd (deleteTask db user id)) = db_users db).
Proof.
  intros ND NI.
  split; [|split; [|split; [|split]]].
  - destruct (createTask_db_cases db user body now new_id) as [-> | (task & E & ->)];
      [split; [exact ND | reflexivity]|].
    split; [|reflexivity]. simpl. rewrite map_app. simpl. rewrite E.
    apply NoDup_snoc; assumption.
  - destruct (updateTask_cases db user id body now) as [-> | ->];
      [split; [exact ND | reflexivity]|].
    split; [|reflexivity]. simpl. rewrite replace_by_id_ids by reflexivity. exact ND.
  - destruct (updateTaskStatus_cases db user id st now) as [-> | ->];
      [split; [exact ND | reflexivity]|].
    split; [|reflexivity]. simpl. rewrite replace_by_id_ids by reflexivity. exact ND.
  - destruct (updateTaskPriority_cases db user id p pos now) as [-> | ->];
      [split; [exact ND | reflexivity]|].
    split; [|reflexivity]. simpl. rewrite replace_by_id_ids by reflexivity. exact ND.
  - destruct (deleteTask_cases db user id) as [-> | ->];
      [split; [exact ND | reflexivity]|].
    split; [|reflexivity]. simpl. apply remove_by_id_NoDup. exact ND.
Qed.

(** X17. Create, then use, on the database.  When the driver gives the
    new document an identifier that is not stored, the created task is
    found under it, every other lookup is answered as before, and its
    creator may at once set its status: the answer is 200 and the stored
    task has that status. *)
Theorem create_then_use_db {Id : Type} `{Ident Id}
    (db : Db) (user : Id) (body : TaskBody Id) (now : Z) (new_id : Id)
    (st : Status) (later : Z) :
  User_findById (or_default user (b_assignee body)) (db_users db) <> None ->
  draft_valid now body = true ->
  ~ In new_id (map (@_id Id) (db_tasks db)) ->
  exists task db',
    createTask_db db user body now new_id
      = (Ok 201 (Some "Task created successfully") (populate (db_users db) task), db') /\
    findById new_id (db_tasks db') = Some task /\
    (forall id, id <> new_id -> findById id (db_tasks db') = findById id (db_tasks db)) /\
    exists task' db'',
      updateTaskStatus db' user new_id st later
        = (Ok 200 (Some "Task status updated successfully")
             (Some (populate (db_users db) task')), db'') /\
      findById new_id (db_tasks db'') = Some task' /\
      status task' = st /\ title task' = title task /\ createdBy task' = user.
Proof.
  intros F V NI.
  destruct (createTask_db_stored db user body now new_id F V)
    as (task & E & I & _ & _ & C & _).
  pose proof (findById_fresh new_id (db_tasks db) NI) as Fn.
  assert (Ft : findById new_id (db_tasks db ++ [task]) = Some task).
  { rewrite findById_snoc, Fn, I, id_eqb_refl. reflexivity. }
  exists task. eexists. split; [exact E|]. cbn [db_tasks].
  split; [exact Ft|]. split.
  - intros id D. rewrite findById_snoc.
    destruct (findById id (db_tasks db)); [reflexivity|].
    rewrite I. destruct (id_eqb new_id id) eqn:K; [|reflexivity].
    apply id_eqb_eq in K. congruence.
  - assert (K : checkOwnership user (Some task) = true).
    { apply checkOwnership_owner. right. symmetry. exact C. }
    rewrite (updateTaskStatus_owner (mkDb (db_users db) (db_tasks db ++ [task]))
               user new_id st later task Ft K).
    do 2 eexists. split; [reflexivity|]. cbn [db_tasks].
    split; [apply replace_by_id_found; [exact Ft | exact I]|].
    simpl. repeat split. exact C.
Qed.

(** ** Operations of the memory store *)

Lemma findById_remove_other {Id : Type} `{Ident Id} (id id' : Id) (c : list (Task Id)) :
  id' <> id -> findById id' (remove_by_id id c) = findById id' c.
Proof.
  intros D. unfold findById. induction c as [|t c IH]; simpl; [reflexivity|].
  destruct (id_eqb (_id t) id) eqn:E; simpl.
  - apply id_eqb_eq in E.
    destruct (id_eqb (_id t) id') eqn:E'; [|reflexivity].
    apply id_eqb_eq in E'. congruence.
  - destruct (id_eqb (_id t) id'); [reflexivity | exact IH].
Qed.

Lemma findById_remove_same {Id : Type} `{Ident Id} (id : Id) (c : list (Task Id)) :
  NoDup (map (@_id Id) c) -> findById id (remove_by_id id c) = None.
Proof.
  intros ND. rewrite remove_by_id_filter by exact ND.
  apply findById_absent. intros t I. apply filter_In in I. destruct I as [_ I].
  apply negb_true_iff, id_eqb_neq in I. exact I.
Qed.

(** X18. [tasks.deleteById] on a store in good order: for a stored task
    it returns that task, after which the identifier finds nothing, every
    other lookup is answered as before, and the counter, which is above
    the identifier, is unchanged, so that no later task gets the
    identifier again; for an identifier that is not stored it returns
    nothing and leaves the store as it is. *)
Theorem deleteById_removes (s : memoryStore.State) (t : Task N) (id : N) :
  store_in_order s ->
  (In t (memoryStore.tasks s) ->
   exists s',
     memoryStore.tasks_deleteById s (_id t) = (Some t, s') /\
     memoryStore.tasks_findById s' (_id t) = None /\
     (forall id', id' <> _id t ->
        memoryStore.tasks_findById s' id' = memoryStore.tasks_findById s id') /\
     memoryStore.users s' = memoryStore.users s /\
     memoryStore.taskIdCounter s' = memoryStore.taskIdCounter s /\
     (_id t < memoryStore.taskIdCounter s')%N /\
     store_in_order s') /\
  ((forall x, In x (memoryStore.tasks s) -> _id x <> id) ->
   memoryStore.tasks_deleteById s id = (None, s)).
Proof.
  intros (T & TB & U & UB). split.
  - intros I.
    assert (F : memoryStore.tasks_findById s (_id t) = Some t)
      by exact (findById_stored (memoryStore.tasks s) t T I).
    unfold memoryStore.tasks_deleteById. rewrite F.
    eexists. split; [reflexivity|].
    split; [exact (findById_remove_same (_id t) (memoryStore.tasks s) T)|].
    split; [intros id' D;
            exact (findById_remove_other (_id t) id' (memoryStore.tasks s) D)|].
    split; [reflexivity|]. split; [reflexivity|].
    split; [apply TB; exact I|].
    repeat split; simpl; auto.
    + apply remove_by_id_NoDup. exact T.
    + intros x J. apply TB. apply (remove_by_id_incl (_id t) _ x J).
  - intros A.
    assert (F : memoryStore.tasks_findById s id = None)
      by exact (findById_absent id (memoryStore.tasks s) A).
    unfold memoryStore.tasks_deleteById. rewrite F. reflexivity.
Qed.

Lemma find_snoc {A : Type} (f : A -> bool) (l : list A) (x : A) :
  List.find f (l ++ [x])
  = match List.find f l with
    | Some y => Some y
    | None => if f x then Some x else None
    end.
Proof.
  induction l as [|y l IH]; simpl; [reflexivity|].
  destruct (f y); [reflexivity | exact IH].
Qed.

(** X19. [users.create] on a store in good order: the new user is
    active, gets the value of the user counter for identifier and is
    found under it; the users stored before are found as before; and a
    lookup by the e-mail address finds the new user only if no user had
    that address, otherwise still the one who had it first. *)
Theorem users_create_then_find (s : memoryStore.State) (name email : string)
    (avatarUrl : option string) :
  store_in_order s ->
  exists user s',
    memoryStore.users_create s name email avatarUrl = (user, s') /\
    u_id user = memoryStore.userIdCounter s /\
    u_isActive user = true /\ u_email user = email /\ u_name user = name /\
    memoryStore.users_findById s' (u_id user) = Some user /\
    (forall id, id <> u_id user ->
       memoryStore.users_findById s' id = memoryStore.users_findById s id) /\
    memoryStore.users_findByEmail s' email
      = match memoryStore.users_findByEmail s email with
        | Some first => Some first
        | None => Some user
        end /\
    memoryStore.tasks s' = memoryStore.tasks s /\
    store_in_order s'.
Proof.
  intros (T & TB & U & UB).
  do 2 eexists. split; [reflexivity|].
  cbn [u_id u_isActive u_email u_name].
  split; [reflexivity|]. split; [reflexivity|]. split; [reflexivity|].
  split; [reflexivity|].
  assert (Fn : List.find (fun user : User N => N.eqb (u_id user) (memoryStore.userIdCounter s))
                 (memoryStore.users s) = None).
  { destruct (List.find _ (memoryStore.users s)) as [x|] eqn:F; [|reflexivity].
    apply find_some in F. destruct F as [I E]. apply N.eqb_eq in E.
    specialize (UB x I). lia. }
  unfold memoryStore.users_findById, memoryStore.users_findByEmail, js_find.
  cbn [memoryStore.users memoryStore.tasks].
  split; [|split; [|split; [|split]]].
  - rewrite find_snoc, Fn. simpl. rewrite N.eqb_refl. reflexivity.
  - intros id D. rewrite find_snoc.
    destruct (List.find (fun user : User N => N.eqb (u_id user) id)
                (memoryStore.users s)); [reflexivity|].
    simpl. apply N.eqb_neq in D. rewrite N.eqb_sym, D. reflexivity.
  - rewrite find_snoc.
    destruct (List.find (fun user : User N => String.eqb (u_email user) email)
                (memoryStore.users s)); [reflexivity|].
    simpl. rewrite String.eqb_refl. reflexivity.
  - reflexivity.
  - repeat split; cbn [memoryStore.tasks memoryStore.users memoryStore.taskIdCounter
                        memoryStore.userIdCounter]; auto.
    + rewrite map_app. simpl map. apply NoDup_snoc; [exact U|].
      apply ids_below_fresh. exact UB.
    + apply ids_below_snoc; [exact UB | reflexivity].
Qed.

(** ** Trimming *)

Lemma drop_spaces_no_leading (l : list ascii) : no_leading_space (drop_spaces l).
Proof.
  induction l as [|c l IH]; simpl; [exact I|].
  destruct (is_space c) eqn:E; [exact IH | exact E].
Qed.

Lemma drop_spaces_fixed (l : list ascii) : no_leading_space l -> drop_spaces l = l.
Proof. destruct l as [|c l]; simpl; [reflexivity | intros ->; reflexivity]. Qed.

Lemma drop_spaces_suffix (l : list ascii) :
  exists p, l = p ++ drop_spaces l /\ forallb is_space p = true.
Proof.
  induction l as [|c l (p & E & S)]; simpl.
  - exists []. split; reflexivity.
  - destruct (is_space c) eqn:C.
    + exists (c :: p). simpl. rewrite C, S. split; [f_equal; exact E | reflexivity].
    + exists []. split; reflexivity.
Qed.

(** The characters [trim] keeps. *)
Lemma trim_kept (l : list ascii) :
  no_leading_space l ->
  exists q, l = rev (drop_spaces (rev l)) ++ q /\
            no_leading_space (rev (drop_spaces (rev l))).
Proof.
  intros NL. destruct (drop_spaces_suffix (rev l)) as (p & E & _).
  exists (rev p). assert (K : l = rev (drop_spaces (rev l)) ++ rev p).
  { rewrite <- rev_app_distr, <- E, rev_involutive. reflexivity. }
  split; [exact K|].
  destruct (rev (drop_spaces (rev l))) as [|c r]; [exact I|].
  rewrite K in NL. exact NL.
Qed.

Lemma length_list_ascii_of_string (s : string) :
  List.length (list_ascii_of_string s) = String.length s.
Proof. induction s as [|c s IH]; simpl; [reflexivity | rewrite IH; reflexivity]. Qed.

Lemma length_string_of_list_ascii (l : list ascii) :
  String.length (string_of_list_ascii l) = List.length l.
Proof. induction l as [|c l IH]; simpl; [reflexivity | rewrite IH; reflexivity]. Qed.

Lemma trim_idempotent (s : string) : trim (trim s) = trim s.
Proof.
  unfold trim. set (l1 := drop_spaces (list_ascii_of_string s)).
  destruct (trim_kept l1 (drop_spaces_no_leading _)) as (q & _ & NL).
  set (r := rev (drop_spaces (rev l1))) in *.
  rewrite list_ascii_of_string_of_list_ascii.
  rewrite (drop_spaces_fixed r NL).
  assert (NR : no_leading_space (rev r)).
  { unfold r. rewrite rev_involutive. apply drop_spaces_no_leading. }
  rewrite (drop_spaces_fixed (rev r) NR), rev_involutive. reflexivity.
Qed.

Lemma trim_length (s : string) : (String.length (trim s) <= String.length s)%nat.
Proof.
  unfold trim. rewrite length_string_of_list_ascii, length_rev.
  destruct (drop_spaces_suffix (list_ascii_of_string s)) as (p & E & _).
  destruct (drop_spaces_suffix (rev (drop_spaces (list_ascii_of_string s))))
    as (p' & E' & _).
  apply (f_equal (@List.length ascii)) in E, E'.
  rewrite length_app in E, E'. rewrite length_rev in E'.
  rewrite length_list_ascii_of_string in E. lia.
Qed.

Lemma trim_blank (s : string) :
  forallb is_space (list_ascii_of_string s) = true -> trim s = "".
Proof.
  intros B. unfold trim.
  assert (D : drop_spaces (list_ascii_of_string s) = []).
  { induction (list_ascii_of_string s) as [|c l IH]; simpl in *; [reflexivity|].
    apply andb_true_iff in B. destruct B as [-> B]. apply IH. exact B. }
  rewrite D. reflexivity.
Qed.

Lemma length_at_most_le (n : nat) (s : string) :
  length_at_most n s = true <-> (String.length s <= n)%nat.
Proof. unfold length_at_most. apply Nat.leb_le. Qed.

(** ** From the validation to the store *)

Lemma rule_passed (field message : string) (holds : bool) :
  rule field message holds = [] -> holds = true.
Proof. destruct holds; [reflexivity | discriminate]. Qed.

Lemma tags_rule_passed (tags : list string) :
  tags_rule tags = [] ->
  (List.length tags <= 10)%nat /\ forallb (length_at_most 30) tags = true.
Proof.
  unfold tags_rule. destruct (Nat.ltb 10 (List.length tags)) eqn:E; [discriminate|].
  intros R. apply rule_passed in R. apply Nat.ltb_ge in E. auto.
Qed.

(** What a body that [validateTask] lets through is like. *)
Lemma validateTask_passed {Id : Type} (now : Z) (body : RawBody Id) :
  validateTask now body = [] ->
  (1 <= String.length (trim (or_default "" (raw_title body))) <= 200)%nat /\
  (forall d, raw_description body = Some d -> (String.length (trim d) <= 1000)%nat) /\
  (forall raw read, raw_dueDate body <> Some (NotADate raw read)) /\
  (forall tags, raw_tags body = Some tags ->
     (List.length tags <= 10)%nat /\ forallb (length_at_most 30) tags = true).
Proof.
  unfold validateTask. intros V.
  apply app_eq_nil in V. destruct V as [T V].
  apply app_eq_nil in V. destruct V as [D V].
  apply app_eq_nil in V. destruct V as [U V].
  apply app_eq_nil in V. destruct V as [_ V].
  apply app_eq_nil in V. destruct V as [_ V].
  apply app_eq_nil in V. destruct V as [_ G].
  apply rule_passed in T. apply andb_true_iff in T. destruct T as [T1 T2].
  apply Nat.leb_le in T1, T2.
  split; [lia|]. split; [|split].
  - intros d E. rewrite E in D. apply rule_passed in D.
    apply length_at_most_le in D. exact D.
  - intros raw read E. rewrite E in U. discriminate U.
  - intros tags E. rewrite E in G. apply tags_rule_passed. exact G.
Qed.

Lemma forallb_trim (tags : list string) :
  forallb (length_at_most 30) tags = true ->
  forallb (length_at_most 30) (map trim tags) = true.
Proof.
  rewrite !forallb_forall. intros F x I.
  apply in_map_iff in I. destruct I as (y & <- & I).
  specialize (F y I). apply length_at_most_le in F. apply length_at_most_le.
  pose proof (trim_length y). lia.
Qed.

Lemma validated_draft {Id : Type} (now later : Z) (body : RawBody Id) :
  validateTask now body = [] ->
  (forall due, raw_dueDate body = Some (IsoDate due) -> later < due) ->
  draft_valid later (sanitized body) = true.
Proof.
  intros V L. destruct (validateTask_passed now body V) as (T & D & U & G).
  unfold draft_valid, sanitized. cbn [b_title b_description b_dueDate b_tags].
  rewrite trim_idempotent.
  repeat (apply andb_true_iff; split).
  - apply negb_true_iff, String.eqb_neq. intros E. rewrite E in T. simpl in T. lia.
  - apply length_at_most_le. lia.
  - destruct (raw_description body) as [d|]; simpl; [|reflexivity].
    rewrite trim_idempotent. apply length_at_most_le. apply D. reflexivity.
  - destruct (raw_dueDate body) as [[raw read | due | raw]|]; try reflexivity.
    apply Z.ltb_lt. apply L. reflexivity.
  - destruct (raw_tags body) as [tags|]; simpl; [|reflexivity].
    apply forallb_trim. apply (G tags). reflexivity.
Qed.

(** X20. From the validation to the store, for a request whose strings
    are ASCII strings and whose due date, if it has one, is one that
    [new Date] reads.  When [validateTask] lets such a create request
    through, its assignee exists and its due date is still ahead when
    the handler runs, the task is stored on the database: the validators
    of the schema do not refuse what the middleware accepted.  The stored
    task keeps the constraints of the data model: a trimmed title of 1
    to 200 characters, a description of at most 1000, at most 10 tags of
    at most 30 characters. *)
Theorem validated_request_is_stored {Id : Type} `{Ident Id}
    (db : Db) (user new_id : Id) (body : RawBody Id) (now later : Z) :
  ascii_body body ->
  due_unread body = false ->
  validateTask now body = [] ->
  (forall due, raw_dueDate body = Some (IsoDate due) -> later < due) ->
  User_findById (or_default user (b_assignee (sanitized body))) (db_users db) <> None ->
  exists task,
    post_task_db db user body now later new_id
      = (Ok 201 (Some "Task created successfully") (populate (db_users db) task),
         mkDb (db_users db) (db_tasks db ++ [task])) /\
    title task = trim (or_default "" (raw_title body)) /\
    within_limits task.
Proof.
  intros _ U V L F.
  pose proof (validated_draft now later body V L) as D.
  destruct (validateTask_passed now body V) as (T & Dd & _ & G).
  unfold post_task_db. rewrite V, U. cbn [handleValidationErrors].
  unfold createTask_db.
  destruct (User_findById (or_default user (b_assignee (sanitized body))) (db_users db));
    [|congruence].
  unfold Task_create. rewrite schema_valid_draft, D.
  eexists. split; [reflexivity|]. cbn [title]. unfold within_limits.
  cbn [title description tags sanitized b_title b_description b_tags].
  rewrite trim_idempotent. split; [reflexivity|]. split; [exact T|]. split; [|split].
  - destruct (raw_description body) as [d|]; simpl; [|discriminate].
    intros d' E. injection E as <-. rewrite trim_idempotent. apply Dd. reflexivity.
  - rewrite length_map. destruct (raw_tags body) as [tags|]; simpl; [|lia].
    apply (G tags). reflexivity.
  - destruct (raw_tags body) as [tags|]; simpl; [|constructor].
    destruct (G tags eq_refl) as [_ B].
    apply forallb_trim in B. rewrite forallb_forall in B.
    apply Forall_forall. intros x I. apply length_at_most_le. apply B. exact I.
Qed.

(** X21. A create or update request whose title is absent, empty or made
    of white space only is answered with the validation failure, which
    names the field title, whatever else the body holds, and the store
    stays as it was. *)
Theorem blank_title_is_refused {Id : Type} `{Ident Id}
    (db : Db) (user id new_id : Id) (body : RawBody Id)
    (s : memoryStore.State) (user' : N) (body' : RawBody N) (now later : Z) :
  blank_title (raw_title body) -> blank_title (raw_title body') ->
  (exists errors,
     In ("title", "Title must be between 1 and 200 characters") errors /\
     post_task_db db user body now later new_id = (Invalid errors, db) /\
     put_task db user id body now later = (Invalid errors, db)) /\
  (exists errors,
     In ("title", "Title must be between 1 and 200 characters") errors /\
     post_task_memory s user' body' now later = (Invalid errors, s)).
Proof.
  assert (K : forall (I : Type) (b : RawBody I), blank_title (raw_title b) ->
            In ("title", "Title must be between 1 and 200 characters")
              (validateTask now b)).
  { intros I b B. unfold validateTask.
    assert (E : trim (or_default "" (raw_title b)) = "").
    { destruct (raw_title b) as [t|]; simpl in *; [apply trim_blank; exact B | reflexivity]. }
    rewrite E. simpl. left. reflexivity. }
  intros B B'. split.
  - exists (validateTask now body). pose proof (K _ body B) as J.
    split; [exact J|]. unfold post_task_db, put_task.
    split; apply handleValidationErrors_refuses with (1 := J).
  - exists (validateTask now body'). pose proof (K _ body' B') as J.
    split; [exact J|]. unfold post_task_memory.
    apply handleValidationErrors_refuses with (1 := J).
Qed.

(** ** Positions *)

Section PositionFacts.
Context {Id : Type} `{Ident Id}.

Lemma replace_by_id_Forall (P : Task Id -> Prop) (id : Id) (f : Task Id -> Task Id)
    (c : list (Task Id)) :
  (forall t, P t -> P (f t)) -> Forall P c -> Forall P (replace_by_id id f c).
Proof.
  intros K. induction 1 as [|t c Pt Pc IH]; simpl; [constructor|].
  destruct (id_eqb (_id t) id); constructor; auto.
Qed.

Lemma remove_by_id_Forall (P : Task Id -> Prop) (id : Id) (c : list (Task Id)) :
  Forall P c -> Forall P (remove_by_id id c).
Proof.
  rewrite !Forall_forall. intros F x I. apply F.
  apply (remove_by_id_incl id c x I).
Qed.

Lemma createTask_db_position (db : Db) (user : Id) (body : TaskBody Id) (now : Z)
    (new_id : Id) :
  positions_nonneg (db_tasks db) ->
  positions_nonneg (db_tasks (snd (createTask_db db user body now new_id))).
Proof.
  intros P. unfold createTask_db.
  destruct (User_findById _ (db_users db)); [|exact P].
  unfold Task_create.
  match goal with |- context [schema_valid now ?d] => destruct (schema_valid now d) end;
    [|exact P].
  cbn [snd db_tasks]. apply Forall_app. split; [exact P|].
  constructor; [|constructor]. cbn [position].
  match goal with |- context [hd_error (cursor_sort ?sp ?lane)] =>
    pose proof (last_of_lane lane) as K;
    destruct (hd_error (cursor_sort sp lane)) as [last|]
  end; [|lia].
  destruct K as [K _]. apply find_In in K. destruct K as [K _].
  unfold positions_nonneg in P. rewrite Forall_forall in P.
  specialize (P last K). lia.
Qed.

End PositionFacts.

Lemma cast_error_store {A S : Type} (s : S) (next : Response A * S) :
  snd (cast_error s next) = s \/ snd (cast_error s next) = snd next.
Proof. unfold cast_error. destruct (fst next); auto. Qed.

Lemma cast_error_not_ok {A S : Type} (s : S) (next : Response A * S)
    (code : Z) (m : option string) (data : A) (s' : S) :
  cast_error s next <> (Ok code m data, s').
Proof.
  unfold cast_error. destruct next as [r t]. simpl.
  destruct r; intros E; discriminate E.
Qed.

(** X22. No stored position is negative.  When none is, none is after a
    request to any route that writes: creation (on the database and on
    the memory store), full update, status update, priority update with
    or without a position, and deletion, whatever the request holds and
    whatever the answer is. *)
Theorem positions_stay_nonneg {Id : Type} `{Ident Id}
    (db : Db) (user id new_id : Id) (body : RawBody Id) (st_raw p_raw : option string)
    (pos_raw : option PositionField) (now later : Z)
    (s : memoryStore.State) (user' : N) (body' : RawBody N) :
  positions_nonneg (db_tasks db) ->
  positions_nonneg (memoryStore.tasks s) ->
  positions_nonneg (db_tasks (snd (post_task_db db user body now later new_id))) /\
  positions_nonneg (db_tasks (snd (put_task db user id body now later))) /\
  positions_nonneg (db_tasks (snd (patch_status db user id st_raw now))) /\
  positions_nonneg (db_tasks (snd (patch_priority db user id p_raw pos_raw now))) /\
  positions_nonneg (db_tasks (snd (deleteTask db user id))) /\
  positions_nonneg (memoryStore.tasks (snd (post_task_memory s user' body' now later))).
Proof.
  intros P P'.
  assert (R : forall u, (forall z, set_position u = Some z -> 0 <= z) ->
            positions_nonneg
              (replace_by_id id (apply_update now u) (db_tasks db))).
  { intros u K. apply replace_by_id_Forall; [|exact P].
    intros t Pt. cbn [apply_update position].
    destruct (set_position u) as [z|]; simpl; [apply K; reflexivity | exact Pt]. }
  assert (R' : forall u, (forall z, set_position u = Some z -> 0 <= z) ->
            positions_nonneg
              (replace_by_id id (apply_update later u) (db_tasks db))).
  { intros u K. apply replace_by_id_Forall; [|exact P].
    intros t Pt. cbn [apply_update position].
    destruct (set_position u) as [z|]; simpl; [apply K; reflexivity | exact Pt]. }
  split; [|split; [|split; [|split; [|split]]]].
  - unfold post_task_db, handleValidationErrors.
    destruct (validateTask now body); [|exact P].
    destruct (due_unread body); [|apply createTask_db_position; exact P].
    destruct (cast_error_store db
                (createTask_db db user (sanitized body) later new_id)) as [-> | ->];
      [exact P | apply createTask_db_position; exact P].
  - unfold put_task, handleValidationErrors.
    destruct (validateTask now body); [|exact P].
    assert (U : positions_nonneg
                  (db_tasks (snd (updateTask db user id (sanitized body) later)))).
    { destruct (updateTask_cases db user id (sanitized body) later) as [-> | ->];
        [exact P|].
      apply R'. intros z E. discriminate E. }
    destruct (due_unread body); [|exact U].
    destruct (cast_error_store db
                (updateTask db user id (sanitized body) later)) as [-> | ->];
      [exact P | exact U].
  - unfold patch_status, handleValidationErrors.
    destruct (validateTaskStatus st_raw); [|exact P].
    destruct (status_of_string _) as [st|]; [|exact P].
    destruct (updateTaskStatus_cases db user id st now) as [-> | ->]; [exact P|].
    apply R. intros z E. discriminate E.
  - unfold patch_priority, handleValidationErrors.
    destruct (validateTaskPriority p_raw pos_raw) eqn:V; [|exact P].
    destruct (priority_of_string _) as [p|]; [|exact P].
    match goal with |- context [updateTaskPriority db user id p ?pos now] =>
      destruct (updateTaskPriority_cases db user id p pos now) as [-> | ->]
    end; [exact P|].
    apply R. cbn [set_position]. intros z E.
    unfold validateTaskPriority in V. apply app_eq_nil in V. destruct V as [_ V].
    destruct pos_raw as [[raw | value]|]; try discriminate E.
    injection E as <-. apply rule_passed in V. apply Z.leb_le in V. exact V.
  - destruct (deleteTask_cases db user id) as [-> | ->]; [exact P|].
    apply remove_by_id_Forall. exact P.
  - unfold post_task_memory, handleValidationErrors.
    destruct (validateTask now body'); [|exact P'].
    unfold createTask_memory.
    destruct (memoryStore.users_findById s _); [|exact P'].
    unfold memoryStore.tasks_create.
    match goal with |- context [memoryStore.users_findById ?st user'] =>
      destruct (memoryStore.users_findById st user')
    end; cbn [snd memoryStore.tasks]; apply Forall_app; (split; [exact P'|]);
      constructor; try constructor; cbn [position memoryStore.d_position]; lia.
Qed.

(** ** The routes of the status and of the priority *)

Lemma isIn_find {A : Type} (name : A -> string) (l : list A) (s : string) :
  isIn (map name l) s = true <-> List.find (fun x => String.eqb (name x) s) l <> None.
Proof.
  unfold isIn. induction l as [|x l IH]; simpl.
  - split; [discriminate | congruence].
  - rewrite (String.eqb_sym s (name x)).
    destruct (String.eqb (name x) s); simpl; [split; [discriminate | reflexivity]|].
    exact IH.
Qed.

Lemma status_of_string_name (st : Status) : status_of_string (status_name st) = Some st.
Proof. destruct st; reflexivity. Qed.

Lemma priority_of_string_name (p : Priority) : priority_of_string (priority_name p) = Some p.
Proof. destruct p; reflexivity. Qed.

Lemma status_of_string_none (s : string) :
  (forall st, s <> status_name st) -> status_of_string s = None.
Proof.
  intros K. unfold status_of_string.
  destruct (List.find _ statuses) as [st|] eqn:F; [|reflexivity].
  apply find_some in F. destruct F as [_ F]. apply String.eqb_eq in F.
  exfalso. apply (K st). symmetry. exact F.
Qed.

Lemma priority_of_string_none (s : string) :
  (forall p, s <> priority_name p) -> priority_of_string s = None.
Proof.
  intros K. unfold priority_of_string.
  destruct (List.find _ priorities) as [p|] eqn:F; [|reflexivity].
  apply find_some in F. destruct F as [_ F]. apply String.eqb_eq in F.
  exfalso. apply (K p). symmetry. exact F.
Qed.

Lemma status_update_not_thrown {Id : Type} `{Ident Id} (db : Db) (user id : Id)
    (st : Status) (now : Z) :
  fst (updateTaskStatus db user id st now) <> Thrown.
Proof.
  unfold updateTaskStatus.
  destruct (findById id (db_tasks db)) as [t|] eqn:F; [|discriminate].
  destruct (negb _); [discriminate|].
  rewrite (findByIdAndUpdate_found _ _ _ _ t F) by reflexivity. discriminate.
Qed.

Lemma priority_update_not_thrown {Id : Type} `{Ident Id} (db : Db) (user id : Id)
    (p : Priority) (pos : option Z) (now : Z) :
  fst (updateTaskPriority db user id p pos now) <> Thrown.
Proof.
  unfold updateTaskPriority.
  destruct (findById id (db_tasks db)) as [t|] eqn:F; [|discriminate].
  destruct (negb _); [discriminate|].
  rewrite (findByIdAndUpdate_found _ _ _ _ t F) by reflexivity. discriminate.
Qed.

(** X23. The routes of the status and of the priority, with the [:id]
    of the request as it arrives.  A status that is none of pending,
    in-progress, completed (or is absent), a priority that is none of
    the four (or is absent) and a position that is not an integer or is
    negative are each answered with the validation failure naming the
    field, whatever the [:id] is, and the store stays as it was.  With an
    [:id] that is an ObjectId, a status or a priority of the enumeration
    reaches the handler as that value.  Either route hands an error to
    [next(error)] exactly when the request passed the validation and its
    [:id] is no ObjectId (the lookup rejects it), and the store stays as
    it was then too. *)
Theorem patch_routes_validate {Id : Type} `{Ident Id}
    (db : Db) (user : Id) (param : IdField Id) (st_raw p_raw : option string)
    (pos_raw : option PositionField) (now : Z) :
  ((forall st, or_default "" st_raw <> status_name st) ->
   patch_status_route db user param st_raw now
   = (Invalid [("status", "Status must be pending, in-progress, or completed")], db)) /\
  ((forall p, or_default "" p_raw <> priority_name p) ->
   exists errors,
     In ("priority", "Priority must be high, medium, low, or backlog") errors /\
     patch_priority_route db user param p_raw pos_raw now = (Invalid errors, db)) /\
  ((match pos_raw with
    | Some (NotAnInt _) => True
    | Some (IntField z) => z < 0
    | None => False
    end) ->
   exists errors,
     In ("position", "Position must be a non-negative integer") errors /\
     patch_priority_route db user param p_raw pos_raw now = (Invalid errors, db)) /\
  (forall id st,
     patch_status_route db user (MongoId id) (Some (status_name st)) now
     = updateTaskStatus db user id st now) /\
  (forall id p z, 0 <= z ->
     patch_priority_route db user (MongoId id) (Some (priority_name p))
       (Some (IntField z)) now
     = updateTaskPriority db user id p (Some z) now) /\
  (fst (patch_status_route db user param st_raw now) = Thrown <->
   (exists raw, param = NotAnId raw) /\ validateTaskStatus st_raw = []) /\
  (fst (patch_priority_route db user param p_raw pos_raw now) = Thrown <->
   (exists raw, param = NotAnId raw) /\ validateTaskPriority p_raw pos_raw = []) /\
  (fst (patch_status_route db user param st_raw now) = Thrown ->
   snd (patch_status_route db user param st_raw now) = db) /\
  (fst (patch_priority_route db user param p_raw pos_raw now) = Thrown ->
   snd (patch_priority_route db user param p_raw pos_raw now) = db).
Proof.
  assert (S0 : forall id, fst (patch_status db user id st_raw now) <> Thrown).
  { intros id. unfold patch_status, handleValidationErrors, validateTaskStatus.
    destruct (isIn (map status_name statuses) (or_default "" st_raw)) eqn:E;
      [|discriminate].
    cbn [rule]. apply isIn_find in E. fold (status_of_string (or_default "" st_raw)) in E.
    destruct (status_of_string (or_default "" st_raw)) as [st|]; [|congruence].
    apply status_update_not_thrown. }
  assert (P0 : forall id, fst (patch_priority db user id p_raw pos_raw now) <> Thrown).
  { intros id. unfold patch_priority, handleValidationErrors.
    destruct (validateTaskPriority p_raw pos_raw) eqn:V; [|discriminate].
    unfold validateTaskPriority in V. apply app_eq_nil in V. destruct V as [V _].
    apply rule_passed, isIn_find in V.
    fold (priority_of_string (or_default "" p_raw)) in V.
    destruct (priority_of_string (or_default "" p_raw)) as [p|]; [|congruence].
    apply priority_update_not_thrown. }
  assert (S1 : fst (patch_status_route db user param st_raw now) = Thrown <->
               (exists raw, param = NotAnId raw) /\ validateTaskStatus st_raw = []).
  { destruct param as [raw | id]; cbn [patch_status_route].
    - destruct (validateTaskStatus st_raw) as [|e errors]; cbn [handleValidationErrors fst].
      + split; [intros _; split; [exists raw|]; reflexivity | reflexivity].
      + split; [discriminate | intros [_ E]; discriminate E].
    - split; [intros E; destruct (S0 id E) | intros [[raw E] _]; discriminate E]. }
  assert (P1 : fst (patch_priority_route db user param p_raw pos_raw now) = Thrown <->
               (exists raw, param = NotAnId raw) /\ validateTaskPriority p_raw pos_raw = []).
  { destruct param as [raw | id]; cbn [patch_priority_route].
    - destruct (validateTaskPriority p_raw pos_raw) as [|e errors];
        cbn [handleValidationErrors fst].
      + split; [intros _; split; [exists raw|]; reflexivity | reflexivity].
      + split; [discriminate | intros [_ E]; discriminate E].
    - split; [intros E; destruct (P0 id E) | intros [[raw E] _]; discriminate E]. }
  split; [|split; [|split; [|split; [|split; [|split; [|split; [|split]]]]]]].
  - intros K.
    assert (E : isIn (map status_name statuses) (or_default "" st_raw) = false).
    { destruct (isIn _ _) eqn:E; [|reflexivity].
      apply isIn_find in E. exfalso. apply E.
      apply (status_of_string_none _ K). }
    destruct param as [raw | id];
      unfold patch_status_route, patch_status, validateTaskStatus;
      rewrite E; reflexivity.
  - intros K. exists (validateTaskPriority p_raw pos_raw).
    assert (J : In ("priority", "Priority must be high, medium, low, or backlog")
                  (validateTaskPriority p_raw pos_raw)).
    { unfold validateTaskPriority.
      assert (E : isIn (map priority_name priorities) (or_default "" p_raw) = false).
      { destruct (isIn _ _) eqn:E; [|reflexivity].
        apply isIn_find in E. exfalso. apply E.
        apply (priority_of_string_none _ K). }
      rewrite E. left. reflexivity. }
    split; [exact J|].
    destruct param as [raw | id]; unfold patch_priority_route, patch_priority;
      apply handleValidationErrors_refuses with (1 := J).
  - intros K. exists (validateTaskPriority p_raw pos_raw).
    assert (J : In ("position", "Position must be a non-negative integer")
                  (validateTaskPriority p_raw pos_raw)).
    { unfold validateTaskPriority. apply in_or_app. right.
      destruct pos_raw as [[raw | z]|]; [left; reflexivity | | contradiction].
      assert (E : (0 <=? z) = false) by (apply Z.leb_gt; exact K).
      rewrite E. left. reflexivity. }
    split; [exact J|].
    destruct param as [raw | id]; unfold patch_priority_route, patch_priority;
      apply handleValidationErrors_refuses with (1 := J).
  - intros id st. unfold patch_status_route, patch_status. cbn [or_default].
    rewrite status_of_string_name. destruct st; reflexivity.
  - intros id p z Z0. unfold patch_priority_route, patch_priority. cbn [or_default].
    rewrite priority_of_string_name.
    assert (V : validateTaskPriority (Some (priority_name p)) (Some (IntField z)) = []).
    { unfold validateTaskPriority. cbn [or_default].
      apply Z.leb_le in Z0. rewrite Z0. destruct p; reflexivity. }
    rewrite V. reflexivity.
  - exact S1.
  - exact P1.
  - intros T. apply S1 in T. destruct T as [[raw ->] V].
    cbn [patch_status_route]. rewrite V. reflexivity.
  - intros T. apply P1 in T. destruct T as [[raw ->] V].
    cbn [patch_priority_route]. rewrite V. reflexivity.
Qed.

(** ** The virtuals of a task *)

(** X24. The two virtuals of a task agree.  Without a due date a task is
    not overdue and has no days until due.  With one, [daysUntilDue] is
    the least number of whole days that reaches from the clock to the due
    date; it is positive exactly when the due date is ahead; the task is
    overdue exactly when the due date is behind and the task is not
    completed, and then [daysUntilDue] is zero or negative. *)
Theorem due_virtuals {Id : Type} (now : Z) (t : Task Id) :
  (dueDate t = None -> isOverdue now t = false /\ daysUntilDue now t = None) /\
  (forall due, dueDate t = Some due ->
     exists d,
       daysUntilDue now t = Some d /\
       (d - 1) * ms_per_day < due - now <= d * ms_per_day /\
       (0 < d <-> now < due) /\
       (isOverdue now t = true <-> due < now /\ status t <> completed) /\
       (isOverdue now t = true -> d <= 0)).
Proof.
  split.
  - intros E. unfold isOverdue, daysUntilDue. rewrite E. split; reflexivity.
  - intros due E.
    destruct (Math_ceil_div_spec (due - now) ms_per_day) as (d & K & B);
      [reflexivity|].
    assert (D : daysUntilDue now t = Some d).
    { unfold daysUntilDue. rewrite E. cbv zeta.
      unfold Math_ceil_div in K. change (ms_per_day =? 0) with false in K.
      injection K as <-. reflexivity. }
    assert (M : 0 < ms_per_day) by reflexivity.
    assert (O : isOverdue now t = true <-> due < now /\ status t <> completed).
    { unfold isOverdue. rewrite E, andb_true_iff, Z.ltb_lt, negb_true_iff.
      split; intros [L S]; split; try exact L.
      - intros C. rewrite C in S. discriminate S.
      - destruct (status_eqb (status t) completed) eqn:Q; [|reflexivity].
        apply status_eqb_eq in Q. contradiction. }
    exists d. split; [exact D|]. split; [exact B|]. split; [|split; [exact O|]].
    + split; intros P; nia.
    + intros V. apply O in V. destruct V as [V _]. nia.
Qed.

(** ** Statistics *)

Section Groups.
Variable K : Type.
Variable eqb : K -> K -> bool.
Hypothesis eqb_eq : forall a b, eqb a b = true <-> a = b.

Lemma eqb_same (a : K) : eqb a a = true.
Proof. apply eqb_eq. reflexivity. Qed.

Lemma count_of_bump (k k' : K) (g : list (K * Z)) :
  count_of eqb k (bump eqb k' g) = count_of eqb k g + (if eqb k' k then 1 else 0).
Proof.
  unfold count_of. induction g as [|[x n] g IH]; simpl.
  - destruct (eqb k' k); reflexivity.
  - destruct (eqb x k') eqn:E; simpl.
    + apply eqb_eq in E. subst x. destruct (eqb k' k); simpl; lia.
    + destruct (eqb x k) eqn:E'; simpl; [|exact IH].
      apply eqb_eq in E'. subst x.
      destruct (eqb k' k) eqn:C; [|lia].
      apply eqb_eq in C. subst k'. rewrite eqb_same in E. discriminate E.
Qed.

Lemma bump_keys (k : K) (g : list (K * Z)) :
  NoDup (map fst g) -> NoDup (map fst (bump eqb k g)) /\
  forall x, In x (map fst (bump eqb k g)) -> x = k \/ In x (map fst g).
Proof.
  induction g as [|[x n] g IH]; simpl; intros ND.
  - split; [repeat constructor; auto | intros y [<- | []]; auto].
  - inversion ND as [|? ? NI ND']; subst.
    destruct (eqb x k) eqn:E; simpl.
    + split; [constructor; assumption | intros y [<- | I]; auto].
    + destruct (IH ND') as [ND'' S]. split.
      * constructor; [|exact ND'']. intros I. apply S in I.
        destruct I as [-> | I]; [rewrite eqb_same in E; discriminate | contradiction].
      * intros y [<- | I]; auto. apply S in I. destruct I; auto.
Qed.

Lemma bump_positive (k : K) (g : list (K * Z)) :
  Forall (fun e => 0 < snd e) g -> Forall (fun e => 0 < snd e) (bump eqb k g).
Proof.
  induction 1 as [|[x n] g P Pg IH]; simpl; [repeat constructor|].
  simpl in P. destruct (eqb x k); constructor; simpl; try lia; assumption.
Qed.

Lemma bump_total (k : K) (g : list (K * Z)) :
  total_of (bump eqb k g) = total_of g + 1.
Proof.
  unfold total_of. induction g as [|[x n] g IH]; simpl; [reflexivity|].
  destruct (eqb x k); simpl; lia.
Qed.

Variable A : Type.
Variable key : A -> K.

Lemma group_fold (docs : list A) (g : list (K * Z)) :
  NoDup (map fst g) -> Forall (fun e => 0 < snd e) g ->
  let r := fold_left (fun groups d => bump eqb (key d) groups) docs g in
  NoDup (map fst r) /\
  Forall (fun e => 0 < snd e) r /\
  total_of r = total_of g + Z.of_nat (List.length docs) /\
  forall k, count_of eqb k r
            = count_of eqb k g
              + Z.of_nat (List.length (filter (fun d => eqb (key d) k) docs)).
Proof.
  revert g. induction docs as [|d docs IH]; simpl; intros g ND P.
  - repeat split; auto; try (intros; lia).
  - destruct (IH (bump eqb (key d) g) (proj1 (bump_keys (key d) g ND))
                (bump_positive (key d) g P)) as (N' & P' & T' & C').
    repeat split; auto.
    + rewrite T', bump_total. lia.
    + intros k. rewrite C', count_of_bump.
      destruct (eqb (key d) k); simpl; lia.
Qed.

Lemma count_of_In (k : K) (n : Z) (g : list (K * Z)) :
  NoDup (map fst g) -> Forall (fun e => 0 < snd e) g ->
  (In (k, n) g <-> count_of eqb k g = n /\ 0 < n).
Proof.
  intros ND P. unfold count_of. split.
  - intros I.
    assert (Pn : 0 < n) by (rewrite Forall_forall in P; apply (P (k, n) I)).
    split; [|exact Pn].
    induction g as [|[x m] g IH]; simpl in *; [contradiction|].
    inversion ND as [|? ? NI ND']; subst. inversion P as [|? ? _ P']; subst.
    destruct I as [E | I].
    + injection E as -> ->. rewrite eqb_same. reflexivity.
    + destruct (eqb x k) eqn:E; [|apply IH; assumption].
      apply eqb_eq in E. subst x. exfalso. apply NI.
      apply (in_map fst) in I. exact I.
  - intros [C Pn].
    destruct (List.find (fun e => eqb (fst e) k) g) as [[x m]|] eqn:F; [|simpl in C; lia].
    apply find_some in F. destruct F as [I E]. simpl in E, C.
    apply eqb_eq in E. subst. exact I.
Qed.

(** The groups of [group_count]: one per key that occurs, with the
    number of documents that have the key. *)
Lemma group_count_spec (docs : list A) :
  NoDup (map fst (group_count eqb key docs)) /\
  total_of (group_count eqb key docs) = Z.of_nat (List.length docs) /\
  forall k n,
    In (k, n) (group_count eqb key docs) <->
    n = Z.of_nat (List.length (filter (fun d => eqb (key d) k) docs)) /\ 0 < n.
Proof.
  unfold group_count.
  destruct (group_fold docs [] (NoDup_nil _) (Forall_nil _)) as (ND & P & T & C).
  split; [exact ND|]. split; [exact T|].
  intros k n. rewrite (count_of_In k n _ ND P), C. unfold count_of. simpl.
  split; intros [E L]; split; auto; lia.
Qed.

End Groups.

Lemma filter_length_le {A : Type} (f g : A -> bool) (l : list A) :
  (forall x, f x = true -> g x = true) ->
  (List.length (filter f l) <= List.length (filter g l))%nat.
Proof.
  intros K. induction l as [|x l IH]; simpl; [lia|].
  destruct (f x) eqn:F.
  - rewrite (K x F). simpl. lia.
  - destruct (g x); simpl; lia.
Qed.

Section StatisticsFacts.
Context {Id : Type} `{Ident Id}.

Lemma match_assignee_lane (c : list (Task Id)) (user : Id) (p : Priority) :
  Z.of_nat
    (List.length
       (filter (fun t => priority_eqb (priority t) p) (match_assignee user c)))
  = lane_count c user p.
Proof.
  unfold match_assignee, find, lane_count. rewrite filter_filter_andb.
  do 2 f_equal. apply filter_ext. intros t. unfold matches; simpl.
  rewrite !andb_true_r. reflexivity.
Qed.

Lemma match_assignee_status (c : list (Task Id)) (user : Id) (st : Status) :
  Z.of_nat
    (List.length
       (filter (fun t => status_eqb (status t) st) (match_assignee user c)))
  = status_count c user st.
Proof.
  unfold match_assignee, find, status_count. rewrite filter_filter_andb.
  do 2 f_equal. apply filter_ext. intros t. unfold matches; simpl.
  rewrite !andb_true_r. reflexivity.
Qed.

End StatisticsFacts.

(** X25. The counts by priority.  [getTaskCounts] answers one group for
    each priority in which the user has a non-archived task, none twice,
    with the number of these tasks; the groups add up to the number of
    the user's non-archived tasks; and the count of a priority (0 when it
    has no group) is the [totalCount] of its lane on the board. *)
Theorem priority_counts_match_board {Id : Type} `{Ident Id}
    (c : list (Task Id)) (user : Id) :
  NoDup (map fst (getTaskCounts c user)) /\
  (forall p n, In (p, n) (getTaskCounts c user) <-> n = lane_count c user p /\ 0 < n) /\
  total_of (getTaskCounts c user) = countDocuments (mkFilter user None None) c /\
  (forall limit, exists b,
     getBoardData c user limit = Some b /\
     forall p lane, In (p, lane) b ->
       totalCount lane = count_of priority_eqb p (getTaskCounts c user)).
Proof.
  destruct (group_count_spec Priority priority_eqb priority_eqb_eq (Task Id)
              (@priority Id) (match_assignee user c)) as (ND & T & G).
  assert (G' : forall p n,
            In (p, n) (getTaskCounts c user) <-> n = lane_count c user p /\ 0 < n).
  { intros p n. unfold getTaskCounts. rewrite G, match_assignee_lane. reflexivity. }
  split; [exact ND|]. split; [exact G'|]. split; [exact T|].
  intros limit. rewrite getBoardData_lanes. eexists. split; [reflexivity|].
  intros p lane I. apply in_map_iff in I. destruct I as (q & E & _).
  inversion E; subst; clear E. cbn [totalCount].
  rewrite countDocuments_lane.
  unfold count_of.
  destruct (List.find (fun e => priority_eqb (fst e) p) (getTaskCounts c user))
    as [[x n]|] eqn:F.
  - apply find_some in F. destruct F as [I E]. simpl in E.
    apply priority_eqb_eq in E. subst x. apply G' in I. simpl. symmetry. apply I.
  - destruct (Z.eq_dec (lane_count c user p) 0) as [Z0 | NZ]; [exact Z0|].
    assert (I : In (p, lane_count c user p) (getTaskCounts c user)).
    { apply G'. split; [reflexivity|]. unfold lane_count in *. lia. }
    apply (find_none _ _ F) in I. simpl in I.
    rewrite (proj2 (priority_eqb_eq p p) eq_refl) in I. discriminate I.
Qed.

(** X26. The other figures of [getTaskStats].  The counts by status have
    one group for each status in which the user has a non-archived task,
    with the number of these tasks, and add up to the number of the
    user's non-archived tasks, as the counts by priority do.
    [overdueTasks] is the number of the user's non-archived tasks whose
    virtual [isOverdue] holds; neither it nor [tasksDueToday] exceeds the
    number of the user's non-archived tasks. *)
Theorem stats_figures {Id : Type} `{Ident Id}
    (c : list (Task Id)) (user : Id) (now today tomorrow : Z) :
  exists stats,
    getTaskStats c user now today tomorrow = Ok 200 None stats /\
    priorityCounts stats = getTaskCounts c user /\
    NoDup (map fst (statusCounts stats)) /\
    (forall st n,
       In (st, n) (statusCounts stats) <-> n = status_count c user st /\ 0 < n) /\
    total_of (statusCounts stats) = countDocuments (mkFilter user None None) c /\
    total_of (priorityCounts stats) = countDocuments (mkFilter user None None) c /\
    overdueTasks stats
      = Z.of_nat
          (List.length
             (filter
                (fun t => id_eqb (assignee t) user && negb (isArchived t)
                          && isOverdue now t)
                c)) /\
    0 <= overdueTasks stats <= countDocuments (mkFilter user None None) c /\
    0 <= tasksDueToday stats <= countDocuments (mkFilter user None None) c.
Proof.
  destruct (group_count_spec Status status_eqb status_eqb_eq (Task Id)
              (@status Id) (match_assignee user c)) as (ND & T & G).
  destruct (group_count_spec Priority priority_eqb priority_eqb_eq (Task Id)
              (@priority Id) (match_assignee user c)) as (_ & T' & _).
  eexists. split; [reflexivity|]. cbn [priorityCounts statusCounts overdueTasks tasksDueToday].
  split; [reflexivity|]. split; [exact ND|]. split; [|split; [exact T|split; [exact T'|]]].
  - intros st n. rewrite G, match_assignee_status. reflexivity.
  - assert (B : forall f : Task Id -> bool,
              (forall t, f t = true -> matches (mkFilter user None None) t = true) ->
              0 <= Z.of_nat (List.length (filter f c))
                <= countDocuments (mkFilter user None None) c).
    { intros f K. unfold countDocuments, find.
      pose proof (filter_length_le f (matches (mkFilter user None None)) c K). lia. }
    split; [|split].
    + f_equal. f_equal. apply filter_ext. intros t. unfold isOverdue.
      destruct (dueDate t); destruct (id_eqb (assignee t) user);
        destruct (isArchived t); simpl; rewrite ?andb_false_r, ?andb_true_r;
        reflexivity.
    + apply B. intros t K. unfold matches; simpl.
      rewrite !andb_true_iff in *. destruct K as [[[A _] _] R]. auto.
    + apply B. intros t K. unfold matches; simpl.
      rewrite !andb_true_iff in *. destruct K as [[[A _] _] R]. auto.
Qed.

(** ** Authentication *)

Lemma split_on_no_sep (s : string) : no_space s -> split_on " "%char s = [s].
Proof.
  unfold no_space. induction s as [|c s IH]; simpl; [reflexivity|].
  intros B. apply andb_true_iff in B. destruct B as [C B].
  apply negb_true_iff in C. rewrite C, (IH B). reflexivity.
Qed.

Lemma bearer_token_of (token : string) :
  no_space token -> bearer_token (Some ("Bearer " ++ token)%string) = Some token.
Proof.
  intros NS. unfold bearer_token.
  assert (P : String.prefix "Bearer" ("Bearer " ++ token)%string = true) by reflexivity.
  rewrite P.
  change (split_on " "%char ("Bearer " ++ token)%string)
    with (match split_on " "%char (" " ++ token)%string with
          | piece :: pieces => ("Bearer" ++ piece)%string :: pieces
          | [] => ["Bearer"]
          end).
  change (split_on " "%char (" " ++ token)%string)
    with ("" :: split_on " "%char token).
  rewrite (split_on_no_sep token NS). reflexivity.
Qed.

(** X27. Whom [authenticate] lets through.  A request without the
    header, or whose header does not start with Bearer or has nothing
    after its first space, is answered 401; a request passes only with a
    token that [verifyToken] decodes to the identifier of a stored user
    who is active, and that user becomes [req.user]; and a header
    [Bearer token] with such a token does pass.  This holds on the
    database and on the memory store. *)
Theorem authenticate_admits_active_users {Id : Type} `{Ident Id}
    (verifyToken : string -> Verified Id) (db : Db)
    (verifyToken' : string -> Verified N) (s : memoryStore.State)
    (authorization : option string) :
  ((bearer_token authorization = None \/ bearer_token authorization = Some "") ->
   authenticate_db verifyToken db authorization
     = Refuse 401 "Access denied. No token provided." None /\
   authenticate_memory verifyToken' s authorization
     = Refuse 401 "Access denied. No token provided." None) /\
  (forall u, authenticate_db verifyToken db authorization = Pass u ->
     exists user token,
       u = Some user /\ bearer_token authorization = Some token /\
       verifyToken token = Decoded (u_id user) /\
       In user (db_users db) /\ u_isActive user = true) /\
  (forall u, authenticate_memory verifyToken' s authorization = Pass u ->
     exists user token,
       u = Some user /\ bearer_token authorization = Some token /\
       verifyToken' token = Decoded (u_id user) /\
       In user (memoryStore.users s) /\ u_isActive user = true) /\
  (forall token user,
     no_space token -> token <> "" ->
     verifyToken' token = Decoded (u_id user) ->
     memoryStore.users_findById s (u_id user) = Some user ->
     u_isActive user = true ->
     authenticate_memory verifyToken' s (Some ("Bearer " ++ token)%string)
       = Pass (Some user)) /\
  (forall token user,
     no_space token -> token <> "" ->
     verifyToken token = Decoded (u_id user) ->
     User_findById (u_id user) (db_users db) = Some user ->
     u_isActive user = true ->
     authenticate_db verifyToken db (Some ("Bearer " ++ token)%string)
       = Pass (Some user)).
Proof.
  assert (G : forall (I : Type) (vt : string -> Verified I)
                (fu : I -> option (User I)) (us : list (User I)) u,
            (forall i x, fu i = Some x -> In x us /\ u_id x = i) ->
            authenticate_with vt fu authorization = Pass u ->
            exists user token,
              u = Some user /\ bearer_token authorization = Some token /\
              vt token = Decoded (u_id user) /\ In user us /\ u_isActive user = true).
  { intros I vt fu us u K E. unfold authenticate_with in E.
    destruct (bearer_token authorization) as [token|]; [|discriminate E].
    destruct token as [|c token]; [discriminate E|].
    destruct (vt (String c token)) as [i| | |] eqn:V; try discriminate E.
    destruct (fu i) as [x|] eqn:F; [|discriminate E].
    destruct (u_isActive x) eqn:A; simpl in E; [|discriminate E].
    injection E as <-. destruct (K i x F) as [J <-].
    exists x, (String c token). auto. }
  assert (P : forall (I : Type) (vt : string -> Verified I)
                (fu : I -> option (User I)) token user,
            no_space token -> token <> "" ->
            vt token = Decoded (u_id user) -> fu (u_id user) = Some user ->
            u_isActive user = true ->
            authenticate_with vt fu (Some ("Bearer " ++ token)%string) = Pass (Some user)).
  { intros I vt fu token user NS NE V F A. unfold authenticate_with.
    rewrite (bearer_token_of token NS).
    destruct token as [|c token]; [congruence|].
    rewrite V, F, A. reflexivity. }
  split; [|split; [|split; [|split]]].
  - intros B. unfold authenticate_db, authenticate_memory, authenticate_with.
    destruct B as [-> | ->]; split; reflexivity.
  - intros u. apply G. intros i x F. unfold User_findById in F.
    apply find_some in F. destruct F as [J E]. apply id_eqb_eq in E. auto.
  - intros u. apply G. intros i x F.
    unfold memoryStore.users_findById, js_find in F.
    apply find_some in F. destruct F as [J E]. apply N.eqb_eq in E. auto.
  - intros token user. apply P.
  - intros token user NS NE V F A.
    unfold authenticate_db. apply (P Id verifyToken _ token user NS NE V F A).
Qed.

(** X28. [optionalAuth] never refuses a request, and it sets [req.user]
    to a user exactly when [authenticate] would let the request through
    as that user. *)
Theorem optionalAuth_never_refuses {Id : Type} (verifyToken : string -> Verified Id)
    (findUser : Id -> option (User Id)) (authorization : option string) :
  (exists u, optionalAuth_with verifyToken findUser authorization = Pass u) /\
  (forall user,
     optionalAuth_with verifyToken findUser authorization = Pass (Some user) <->
     authenticate_with verifyToken findUser authorization = Pass (Some user)).
Proof.
  unfold optionalAuth_with, authenticate_with.
  destruct (bearer_token authorization) as [token|].
  - destruct token as [|c token].
    + split; [eexists; reflexivity|]. intros user. split; discriminate.
    + destruct (verifyToken (String c token)) as [i| | |];
        try (split; [eexists; reflexivity|]; intros user; split; discriminate).
      destruct (findUser i) as [x|];
        [|split; [eexists; reflexivity|]; intros user; split; discriminate].
      destruct (u_isActive x); simpl;
        split; try (eexists; reflexivity); intros user; split;
        try discriminate; auto.
  - split; [eexists; reflexivity|]. intros user. split; discriminate.
Qed.

(* ================================================================== *)
(** * Where the code departs from the specification *)

(** ** The access test of [getTask] *)



(** C1. The ownership check is written twice, and the two do not agree.
    [req.checkOwnership] compares strings and lets the assignee through;
    the test that [getTask] writes out compares objects with [==] on the
    database, so it is false for every user and every task, and the
    assignee of a stored task who asks for it is answered 403.  On the
    memory store, where the identifiers are numbers, the same test lets
    the assignee through. *)
Theorem getTask_refuses_owner_on_database :
  findById Sample.task1 (db_tasks Sample.db2) = Some Sample.yard /\
  assignee Sample.yard = Sample.alice /\
  createdBy Sample.yard = Sample.alice /\
  checkOwnership Sample.alice (Some Sample.yard) = true /\
  canAccess loose_eq_objects Sample.alice (populate (db_users Sample.db2) Sample.yard)
    = false /\
  getTask_mongo Sample.db2 Sample.alice Sample.task1
    = Fail 403 "Access denied. You can only view tasks assigned to you or created by you." /\
  (exists task,
     getTask_memory Sample.mem2 1%N 1%N = Ok 200 None task /\
     assignee (p_task task) = 1%N).
Proof.
  split; [reflexivity|]. split; [reflexivity|]. split; [reflexivity|].
  split; [reflexivity|]. split; [reflexivity|]. split; [reflexivity|].
  eexists. split; [vm_compute; reflexivity | reflexivity].
Qed.

(** ** The order of the list *)

Lemma window_all {A : Type} (limit : Z) (l : list A) :
  Z.of_nat (List.length l) <= limit ->
  firstn (Z.to_nat limit) (skipn (Z.to_nat ((1 - 1) * limit)) l) = l.
Proof.
  intros L. replace ((1 - 1) * limit) with 0 by lia.
  simpl. apply firstn_all2. lia.
Qed.

(** C3, amended.  A list query (page at least 1, limit at least 1) is
    answered, on both branches, with the window that starts at
    [(page - 1) * limit] and is [limit] long of a list that holds the
    selected tasks, each once: the non-archived tasks of the assignee
    that match every filter given; so with all of them when one page
    holds them all.  On the database that list is sorted by the stored
    priority string ascending (backlog, high, low, medium), then by
    position ascending, then by creation time descending.  Of the order
    on the memory store nothing is said. *)
Theorem list_sorted_by_stored_priority {Id : Type} `{Ident Id}
    (c : list (Task Id)) (user : Id) (s : memoryStore.State) (user' : N)
    (page limit : Z) (fp : option Priority) (fs : option Status) :
  1 <= page -> 1 <= limit ->
  (exists all tasks pg,
     getTasks_db c user (mkReqQuery page limit fp fs false)
       = Ok 200 None (ListView tasks pg) /\
     Permutation all (find (mkFilter user fp fs) c) /\
     (forall t, In t all <-> In t c /\ selected user fp fs t) /\
     StronglySorted stored_le all /\
     tasks = firstn (Z.to_nat limit) (skipn (Z.to_nat ((page - 1) * limit)) all) /\
     (page = 1 -> Z.of_nat (List.length all) <= limit -> tasks = all)) /\
  (exists all tasks pg,
     getTasks_memory s user' (mkReqQuery page limit fp fs false)
       = Ok 200 None (ListView tasks pg) /\
     Permutation all (find (mkFilter user' fp fs) (memoryStore.tasks s)) /\
     (forall t, In t all <-> In t (memoryStore.tasks s) /\ selected user' fp fs t) /\
     tasks = firstn (Z.to_nat limit) (skipn (Z.to_nat ((page - 1) * limit)) all) /\
     (page = 1 -> Z.of_nat (List.length all) <= limit -> tasks = all)) /\
  (String.ltb (priority_name backlog) (priority_name high) = true /\
   String.ltb (priority_name high) (priority_name low) = true /\
   String.ltb (priority_name low) (priority_name medium) = true).
Proof.
  intros Hp Hl. split; [|split; [|exact priority_names_ascending]].
  - rewrite getTasks_db_list by lia. cbv zeta.
    exists (cursor_sort [(by_priority, asc); (by_position, asc); (by_createdAt, desc)]
              (find (mkFilter user fp fs) c)).
    do 2 eexists. split; [reflexivity|].
    split; [symmetry; apply sort_by_perm|].
    split; [|split; [|split]].
    + intros t. unfold cursor_sort. rewrite sort_by_In, find_In, matches_iff.
      reflexivity.
    + apply StronglySorted_weaken with (2 := cursor_sort_sorted _ _).
      intros a b. apply list_spec_le.
    + apply cursor_limit_firstn. exact Hl.
    + intros -> L. rewrite cursor_limit_firstn by exact Hl.
      apply window_all. exact L.
  - rewrite getTasks_memory_list. cbv zeta.
    exists (find (mkFilter user' fp fs) (memoryStore.tasks s)).
    do 2 eexists. split; [reflexivity|].
    split; [apply Permutation_refl|].
    split; [|split].
    + intros t. rewrite find_In, matches_iff. reflexivity.
    + apply js_slice_window; nia.
    + intros -> L. rewrite js_slice_window by lia.
      apply window_all. exact L.
Qed.

(** ** The two backends side by side *)

Lemma getTasks_db_sent_list {Id : Type} `{Ident Id} (db : Db) (user : Id)
    (page limit : Z) (fp : option Priority) (fs : option Status) :
  1 <= page -> 1 <= limit ->
  getTasks_db_sent db user (mkReqQuery page limit fp fs false) =
  let selected := find (mkFilter user fp fs) (db_tasks db) in
  let total := Z.of_nat (List.length selected) in
  Ok 200 None
    (SentList
       (map (populate_listed (db_users db))
          (firstn (Z.to_nat limit)
             (skipn (Z.to_nat ((page - 1) * limit))
                (cursor_sort
                   [(by_priority, asc); (by_position, asc); (by_createdAt, desc)]
                   selected))))
       (mkPagination page limit (Math_ceil_div total limit) total
          (js_lt page (Math_ceil_div total limit)) (1 <? page))).
Proof.
  intros Hp Hl. unfold getTasks_db_sent.
  rewrite getTasks_db_list by lia. cbv zeta.
  rewrite cursor_limit_firstn by exact Hl. reflexivity.
Qed.

Lemma sent_summary_populated {Id : Type} `{Ident Id} (us : list (User Id))
    (b : BoardData Id) :
  map sent_summary
    (map
       (fun entry =>
          (fst entry,
           mkSentLane (map (populate_listed us) (lane_tasks (snd entry)))
             (totalCount (snd entry)) (hasMore (snd entry))))
       b)
  = map lane_summary b.
Proof. rewrite map_map. apply map_ext. intros [p lane]. reflexivity. Qed.

(** C6, as the specification words it, fails.  After the same two create
    requests the database and the memory store hold the same users and
    the same tasks, yet the same list query is answered with the tasks in
    another order (the database sorts, the memory store does not), and
    the same create request is answered with another message. *)
Lemma backends_differ :
  db_users Sample.ndb2 = memoryStore.users Sample.mem2 /\
  db_tasks Sample.ndb2 = memoryStore.tasks Sample.mem2 /\
  (exists sent tasks pg,
     getTasks_db_sent Sample.ndb2 1%N (mkReqQuery 1 15 None None false)
       = Ok 200 None (SentList sent pg) /\
     getTasks_memory Sample.mem2 1%N (mkReqQuery 1 15 None None false)
       = Ok 200 None (ListView tasks pg) /\
     map (fun x => _id (p_task x)) sent = [2%N; 1%N] /\
     map (@_id N) tasks = [1%N; 2%N]) /\
  fst (createTask_db Sample.ndb2 1%N (Sample.body "Third" (Some low) None) 3000 3%N)
    <> fst (createTask_memory Sample.mem2 1%N (Sample.body "Third" (Some low) None) 3000).
Proof.
  split; [reflexivity|]. split; [reflexivity|]. split.
  - do 3 eexists. split; [vm_compute; reflexivity|].
    split; [vm_compute; reflexivity|]. split; reflexivity.
  - vm_compute. intros E. discriminate E.
Qed.

(** C6, amended.  On the same users and tasks the branches of the
    handlers that have two agree on this much.  A list query (page at
    least 1, limit at least 1) gets the same pagination block and a page
    of the same length, and, when one page holds them all, the same task
    records up to their order; the database sends each of them with the
    sub-documents of its assignee and of its creator, where the memory
    store sends their identifiers.  A board query without filters gets
    the same four lanes with the same counts and [hasMore].  A create
    request that names an assignee the store does not have is answered
    404 on both and stores nothing; a task created into an empty lane
    gets position 0 on both, and the same assignee, creator, priority
    and archived flag. *)
Theorem backends_agree (s : memoryStore.State) (user : N) (page limit : Z)
    (fp : option Priority) (fs : option Status) (body : TaskBody N) (now : Z)
    (new_id : N) :
  1 <= page -> 1 <= limit ->
  (exists sent tasks pg,
     getTasks_db_sent (mkDb (memoryStore.users s) (memoryStore.tasks s)) user
       (mkReqQuery page limit fp fs false)
       = Ok 200 None (SentList sent pg) /\
     getTasks_memory s user (mkReqQuery page limit fp fs false)
       = Ok 200 None (ListView tasks pg) /\
     List.length sent = List.length tasks /\
     (forall x, In x sent -> x = populate_listed (memoryStore.users s) (p_task x)) /\
     (page = 1 -> totalTasks pg <= limit ->
      Permutation (map (@p_task N) sent) tasks)) /\
  (exists b1 b2,
     getTasks_db_sent (mkDb (memoryStore.users s) (memoryStore.tasks s)) user
       (mkReqQuery page limit None None true)
       = Ok 200 None (SentBoard b1) /\
     getTasks_memory s user (mkReqQuery page limit None None true)
       = Ok 200 None (BoardView b2) /\
     map sent_summary b1 = map lane_summary b2) /\
  (memoryStore.users_findById s (or_default user (b_assignee body)) = None ->
   createTask_db (mkDb (memoryStore.users s) (memoryStore.tasks s)) user body now new_id
     = (Fail 404 "Assignee user not found",
        mkDb (memoryStore.users s) (memoryStore.tasks s)) /\
   createTask_memory s user body now = (Fail 404 "Assignee user not found", s)) /\
  (memoryStore.users_findById s (or_default user (b_assignee body)) <> None ->
   draft_valid now body = true ->
   lane_count (memoryStore.tasks s) (or_default user (b_assignee body))
     (or_default backlog (b_priority body)) = 0 ->
   exists task1 task2,
     db_tasks
       (snd (createTask_db (mkDb (memoryStore.users s) (memoryStore.tasks s))
               user body now new_id))
       = memoryStore.tasks s ++ [task1] /\
     memoryStore.tasks (snd (createTask_memory s user body now))
       = memoryStore.tasks s ++ [task2] /\
     position task1 = 0 /\ position task2 = 0 /\
     assignee task1 = assignee task2 /\ createdBy task1 = createdBy task2 /\
     priority task1 = priority task2 /\ isArchived task1 = isArchived task2).
Proof.
  intros Hp Hl.
  split; [|split; [|split]].
  - rewrite getTasks_db_sent_list by lia. rewrite getTasks_memory_list. cbv zeta.
    do 3 eexists. split; [reflexivity|]. split; [reflexivity|].
    cbn [db_tasks db_users totalTasks].
    set (selected := find (mkFilter user fp fs) (memoryStore.tasks s)).
    rewrite js_slice_window by nia.
    split; [|split].
    + rewrite length_map.
      apply Nat2Z.inj. rewrite !window_length by nia.
      unfold cursor_sort. rewrite sort_by_length. reflexivity.
    + intros x I. apply in_map_iff in I. destruct I as (t & <- & _). reflexivity.
    + intros -> T. rewrite map_map. cbn [p_task populate_listed]. rewrite map_id.
      rewrite !window_all.
      * symmetry. apply sort_by_perm.
      * exact T.
      * unfold cursor_sort. rewrite sort_by_length. exact T.
  - destruct (board_db (memoryStore.tasks s) user limit) as (b1 & E1 & L1).
    destruct (board_memory s user page limit) as (b2 & E2 & L2).
    eexists. exists b2. split; [|split; [exact E2|]].
    + unfold getTasks_db_sent, getTasks_db; cbn [rq_board rq_limit db_tasks].
      rewrite E1. reflexivity.
    + cbn [db_users]. rewrite sent_summary_populated.
      rewrite (lanes_of_summary _ _ _ _ L1), (lanes_of_summary _ _ _ _ L2).
      reflexivity.
  - intros F. split.
    + unfold createTask_db. cbn [db_users].
      change (User_findById (or_default user (b_assignee body)) (memoryStore.users s))
        with (memoryStore.users_findById s (or_default user (b_assignee body))).
      rewrite F. reflexivity.
    + unfold createTask_memory. rewrite F. reflexivity.
  - intros F V Z0.
    destruct (createTask_memory_stored s user body now F)
      as (t2 & E2 & P2 & A2 & R2 & C2 & X2).
    assert (F' : User_findById (or_default user (b_assignee body))
                   (db_users (mkDb (memoryStore.users s) (memoryStore.tasks s)))
                 <> None) by exact F.
    destruct (createTask_db_stored (mkDb (memoryStore.users s) (memoryStore.tasks s))
                user body now new_id F' V) as (t1 & E1 & _ & A1 & R1 & C1 & X1 & P1).
    exists t1, t2. rewrite E1. split; [reflexivity|]. split; [exact E2|].
    split; [|split; [rewrite P2; exact Z0|]].
    + rewrite P1. simpl db_tasks.
      rewrite <- countDocuments_lane in Z0. unfold countDocuments in Z0.
      unfold find in *.
      rewrite (filter_length_zero _ _); [reflexivity | lia].
    + rewrite A1, A2, C1, C2, R1, R2, X1, X2. auto.
Qed.

(** ** A due date that [new Date] does not read *)

(** C8. The validator of the due date lets a past date through when it
    is written as a week date: [isISO8601] accepts the string, and the
    comparison of the Invalid Date that [new Date] makes of it with the
    clock is false, so nothing is thrown.  On the memory store the task
    is then created and the answer is 201; on the database the cast of
    the schema refuses the write, by an error handed to [next(error)]
    and not by a validation failure that names the field. *)
Theorem past_week_date_is_stored :
  raw_dueDate (Sample.week (Id := N) "Pay the rent") = Some (IsoUnread "1969-W01-1") /\
  validateTask 1000 (Sample.week (Id := N) "Pay the rent") = [] /\
  (exists data s',
     post_task_memory Sample.mem2 1%N (Sample.week "Pay the rent") 1000 1001
       = (Ok 201 (Some "Task created successfully (demo mode)") data, s') /\
     title (p_task data) = "Pay the rent" /\
     memoryStore.tasks s' = memoryStore.tasks Sample.mem2 ++ [p_task data]) /\
  post_task_db Sample.db2 Sample.alice (Sample.week "Pay the rent") 1000 1001
    Sample.task3
  = (Thrown, Sample.db2) /\
  put_task Sample.db2 Sample.alice Sample.task1 (Sample.week "Pay the rent") 1000 1001
  = (Thrown, Sample.db2).
Proof.
  split; [reflexivity|]. split; [reflexivity|]. split.
  - do 2 eexists. split; [vm_compute; reflexivity|]. split; reflexivity.
  - split; reflexivity.
Qed.

(** ** Reading an archived task *)


(* ================================================================== *)
(** * The further properties at sample stores *)

Lemma sample_db2_in : In Sample.yard (db_tasks Sample.db2).
Proof. left; reflexivity. Qed.

Lemma sample_db2_distinct : NoDup (map (@_id ObjectId) (db_tasks Sample.db2)).
Proof. distinct_ids. Qed.

Lemma sample_db2_fresh : ~ In Sample.task3 (map (@_id ObjectId) (db_tasks Sample.db2)).
Proof. simpl. intuition discriminate. Qed.

Lemma sample_db2_alice :
  User_findById Sample.alice (db_users Sample.db2) <> None.
Proof. vm_compute; discriminate. Qed.

Lemma sample_mem2_user : memoryStore.users_findById Sample.mem2 1%N <> None.
Proof. vm_compute; discriminate. Qed.

Lemma sample_mem2_in_order : store_in_order Sample.mem2.
Proof.
  unfold store_in_order, ids_below.
  change (memoryStore.tasks Sample.mem2)
    with [mkTask 1%N "Sweep the yard" None None low pending 1%N 1%N 0 [] false 1000 1000;
          mkTask 2%N "Fix the login" None None high pending 1%N 1%N 0 [] false 2000 2000].
  change (memoryStore.users Sample.mem2)
    with [mkUser 1%N "Alice" "alice@example.com" None true;
          mkUser 2%N "Bob" "bob@example.com" None true].
  split; [distinct_ids|]. split; [intros x [<-|[<-|[]]]; reflexivity|].
  split; [distinct_ids|]. intros x [<-|[<-|[]]]; reflexivity.
Qed.

Lemma create_assignee_witness :
  draft_valid 1000 (Sample.body (Id := ObjectId) "Sweep the yard" (Some backlog) None)
    = true /\
  memoryStore.users_findById Sample.mem0 1%N <> None /\
  (exists task,
     createTask_db Sample.db0 Sample.alice
       (Sample.body "Sweep the yard" (Some backlog) None) 1000 Sample.task1
     = (Ok 201 (Some "Task created successfully") (populate (db_users Sample.db0) task),
        mkDb (db_users Sample.db0) (db_tasks Sample.db0 ++ [task])) /\
     assignee task = Sample.alice /\ createdBy task = Sample.alice) /\
  createTask_memory Sample.mem0 1%N
    (mkTaskBody "Sweep the yard" None None None None (Some 7%N) None) 1000
  = (Fail 404 "Assignee user not found", Sample.mem0).
Proof.
  assert (V : draft_valid 1000
                (Sample.body (Id := ObjectId) "Sweep the yard" (Some backlog) None) = true)
    by reflexivity.
  assert (F : memoryStore.users_findById Sample.mem0 1%N <> None)
    by (vm_compute; discriminate).
  split; [exact V|]. split; [exact F|].
  destruct (create_assignee Sample.db0 Sample.alice
              (Sample.body "Sweep the yard" (Some backlog) None) 1000 Sample.task1
              Sample.mem0 1%N
              (mkTaskBody "Sweep the yard" None None None None (Some 7%N) None) 1000 V F)
    as (D & _ & _ & M).
  split.
  - destruct D as (task & E & A & _ & C & _); [vm_compute; discriminate|].
    exists task. split; [exact E|]. split; [exact A | exact C].
  - apply M. reflexivity.
Defined.

Lemma unknown_task_not_found_witness :
  (forall t, In t (db_tasks Sample.db2) -> _id t <> Sample.task3) /\
  (forall t, In t (memoryStore.tasks Sample.mem2) -> _id t <> 9%N) /\
  deleteTask Sample.db2 Sample.alice Sample.task3 = (Fail 404 "Task not found", Sample.db2) /\
  getTask_memory Sample.mem2 1%N 9%N = Fail 404 "Task not found".
Proof.
  assert (A : forall t, In t (db_tasks Sample.db2) -> _id t <> Sample.task3).
  { intros t [<-|[<-|[]]]; discriminate. }
  assert (B : forall t, In t (memoryStore.tasks Sample.mem2) -> _id t <> 9%N).
  { intros t [<-|[<-|[]]]; discriminate. }
  split; [exact A|]. split; [exact B|].
  destruct (unknown_task_not_found Sample.db2 Sample.alice Sample.task3
              (fun a b => id_eqb a b) (Sample.body "Any" None None) pending high None
              5000 Sample.mem2 1%N 9%N A B)
    as (_ & _ & _ & _ & D & G).
  split; [exact D | exact G].
Defined.

Lemma update_refused_witness :
  In Sample.yard (db_tasks Sample.db2) /\
  NoDup (map (@_id ObjectId) (db_tasks Sample.db2)) /\
  Sample.bob <> assignee Sample.yard /\
  Sample.bob <> createdBy Sample.yard /\
  updateTaskPriority Sample.db2 Sample.bob (_id Sample.yard) high (Some 2) 5000
  = (Fail 403 "Access denied. You can only modify tasks assigned to you or created by you.",
     Sample.db2).
Proof.
  assert (NA : Sample.bob <> assignee Sample.yard) by discriminate.
  assert (NC : Sample.bob <> createdBy Sample.yard) by discriminate.
  split; [exact sample_db2_in|]. split; [exact sample_db2_distinct|].
  split; [exact NA|]. split; [exact NC|].
  destruct (update_refused Sample.db2 Sample.bob Sample.yard
              (Sample.body "Any" None None) completed high (Some 2) 5000
              sample_db2_in sample_db2_distinct NA NC)
    as (_ & _ & E).
  exact E.
Defined.

Lemma delete_by_owner_witness :
  In Sample.yard (db_tasks Sample.db2) /\
  NoDup (map (@_id ObjectId) (db_tasks Sample.db2)) /\
  (Sample.alice = assignee Sample.yard \/ Sample.alice = createdBy Sample.yard) /\
  exists db',
    deleteTask Sample.db2 Sample.alice (_id Sample.yard)
      = (Ok 200 (Some "Task deleted successfully") tt, db') /\
    ~ In Sample.yard (db_tasks db') /\
    deleteTask db' Sample.alice (_id Sample.yard) = (Fail 404 "Task not found", db').
Proof.
  assert (O : Sample.alice = assignee Sample.yard \/ Sample.alice = createdBy Sample.yard)
    by (left; reflexivity).
  split; [exact sample_db2_in|]. split; [exact sample_db2_distinct|]. split; [exact O|].
  destruct (delete_by_owner Sample.db2 Sample.alice Sample.yard
              sample_db2_in sample_db2_distinct O)
    as (db' & E & _ & _ & G & _ & R).
  exists db'. split; [exact E|]. split; [exact G | exact R].
Defined.

Lemma priority_update_frame_witness :
  In Sample.yard (db_tasks Sample.db2) /\
  NoDup (map (@_id ObjectId) (db_tasks Sample.db2)) /\
  (Sample.alice = assignee Sample.yard \/ Sample.alice = createdBy Sample.yard) /\
  exists t' db',
    updateTaskPriority Sample.db2 Sample.alice (_id Sample.yard) high (Some 3) 5000
      = (Ok 200 (Some "Task priority updated successfully")
           (Some (populate (db_users Sample.db2) t')), db') /\
    priority t' = high /\ position t' = 3 /\ status t' = status Sample.yard.
Proof.
  assert (O : Sample.alice = assignee Sample.yard \/ Sample.alice = createdBy Sample.yard)
    by (left; reflexivity).
  split; [exact sample_db2_in|]. split; [exact sample_db2_distinct|]. split; [exact O|].
  destruct (priority_update_frame Sample.db2 Sample.alice Sample.yard high (Some 3) 5000
              sample_db2_in sample_db2_distinct O)
    as (t' & db' & E & _ & P & Q & _ & _ & _ & _ & S & _).
  exists t', db'. split; [exact E|]. split; [exact P|]. split; [exact Q | exact S].
Defined.

Lemma full_update_frame_witness :
  In Sample.yard (db_tasks Sample.db2) /\
  NoDup (map (@_id ObjectId) (db_tasks Sample.db2)) /\
  updateTask Sample.db2 Sample.alice (_id Sample.yard)
    (Sample.body "  Rake the yard " (Some low) None) 5000
  = (Ok 200 (Some "Task updated successfully")
       (Some (populate (db_users Sample.db2)
                (mkTask Sample.task1 "Rake the yard" None None low pending
                   Sample.alice Sample.alice 0 [] false 1000 5000))),
     snd (updateTask Sample.db2 Sample.alice (_id Sample.yard)
            (Sample.body "  Rake the yard " (Some low) None) 5000)) /\
  exists t',
    findById (_id Sample.yard)
      (db_tasks (snd (updateTask Sample.db2 Sample.alice (_id Sample.yard)
                        (Sample.body "  Rake the yard " (Some low) None) 5000)))
    = Some t' /\
    createdBy t' = createdBy Sample.yard /\
    position t' = position Sample.yard /\
    title t' = "Rake the yard".
Proof.
  assert (E : updateTask Sample.db2 Sample.alice (_id Sample.yard)
                (Sample.body "  Rake the yard " (Some low) None) 5000
    = (Ok 200 (Some "Task updated successfully")
         (Some (populate (db_users Sample.db2)
                  (mkTask Sample.task1 "Rake the yard" None None low pending
                     Sample.alice Sample.alice 0 [] false 1000 5000))),
       snd (updateTask Sample.db2 Sample.alice (_id Sample.yard)
              (Sample.body "  Rake the yard " (Some low) None) 5000)))
    by (vm_compute; reflexivity).
  split; [exact sample_db2_in|]. split; [exact sample_db2_distinct|]. split; [exact E|].
  destruct (full_update_frame Sample.db2 _ Sample.alice Sample.yard
              (Sample.body "  Rake the yard " (Some low) None) 5000 200 _ _
              sample_db2_in sample_db2_distinct E)
    as (t' & F & _ & C & _ & P & _ & _ & _ & T & _).
  exists t'. split; [exact F|]. split; [exact C|]. split; [exact P | exact T].
Defined.

Lemma reassign_moves_access_witness :
  In Sample.yard (db_tasks Sample.db2) /\
  NoDup (map (@_id ObjectId) (db_tasks Sample.db2)) /\
  (Sample.alice = assignee Sample.yard \/ Sample.alice = createdBy Sample.yard) /\
  User_findById Sample.bob (db_users Sample.db2) <> None /\
  update_valid 5000
    (update_of_body
       (mkTaskBody "Sweep the yard" None None None None (Some Sample.bob) None)) = true /\
  exists t' db',
    updateTask Sample.db2 Sample.alice (_id Sample.yard)
      (mkTaskBody "Sweep the yard" None None None None (Some Sample.bob) None) 5000
      = (Ok 200 (Some "Task updated successfully")
           (Some (populate (db_users Sample.db2) t')), db') /\
    assignee t' = Sample.bob /\
    checkOwnership Sample.bob (Some t') = true /\
    checkOwnership Sample.alice (Some t') = true.
Proof.
  assert (O : Sample.alice = assignee Sample.yard \/ Sample.alice = createdBy Sample.yard)
    by (left; reflexivity).
  assert (F : User_findById Sample.bob (db_users Sample.db2) <> None)
    by (vm_compute; discriminate).
  assert (V : update_valid 5000
                (update_of_body
                   (mkTaskBody "Sweep the yard" None None None None (Some Sample.bob) None))
              = true) by reflexivity.
  split; [exact sample_db2_in|]. split; [exact sample_db2_distinct|]. split; [exact O|].
  split; [exact F|]. split; [exact V|].
  destruct (reassign_moves_access Sample.db2 Sample.alice Sample.bob Sample.yard
              (mkTaskBody "Sweep the yard" None None None None (Some Sample.bob) None) 5000
              sample_db2_in sample_db2_distinct O eq_refl F V)
    as (t' & db' & E & _ & A & C & B & _).
  exists t', db'. split; [exact E|]. split; [exact A|]. split; [exact B | exact C].
Defined.

Lemma status_last_write_wins_witness :
  In Sample.yard (db_tasks Sample.db2) /\
  NoDup (map (@_id ObjectId) (db_tasks Sample.db2)) /\
  (Sample.alice = assignee Sample.yard \/ Sample.alice = createdBy Sample.yard) /\
  snd (updateTaskStatus
         (snd (updateTaskStatus Sample.db2 Sample.alice (_id Sample.yard) in_progress 5000))
         Sample.alice (_id Sample.yard) completed 6000)
  = snd (updateTaskStatus Sample.db2 Sample.alice (_id Sample.yard) completed 6000).
Proof.
  assert (O : Sample.alice = assignee Sample.yard \/ Sample.alice = createdBy Sample.yard)
    by (left; reflexivity).
  split; [exact sample_db2_in|]. split; [exact sample_db2_distinct|]. split; [exact O|].
  destruct (status_last_write_wins Sample.db2 Sample.alice Sample.yard in_progress completed
              5000 6000 sample_db2_in sample_db2_distinct O)
    as (E & _).
  exact E.
Defined.

Lemma board_lane_tasks_db_witness :
  1 <= 1 /\
  exists b,
    getBoardData (db_tasks Sample.db2) Sample.alice 1 = Some b /\
    forall p lane, In (p, lane) b ->
      Z.of_nat (List.length (lane_tasks lane)) = Z.min 1 (totalCount lane).
Proof.
  split; [lia|].
  destruct (board_lane_tasks_db (db_tasks Sample.db2) Sample.alice 1 ltac:(lia))
    as (b & E & L).
  exists b. split; [exact E|]. intros p lane I. exact (proj1 (L p lane I)).
Defined.

Lemma board_lane_tasks_memory_witness :
  0 <= 1 /\
  exists b,
    getTasks_memory Sample.mem2 1%N (mkReqQuery 1 1 None None true)
      = Ok 200 None (BoardView b) /\
    forall p lane, In (p, lane) b ->
      Z.of_nat (List.length (lane_tasks lane)) = Z.min 1 (totalCount lane).
Proof.
  split; [lia|].
  destruct (board_lane_tasks_memory Sample.mem2 1%N 1 1 ltac:(lia))
    as (b & E & L).
  exists b. split; [exact E|]. intros p lane I. exact (proj1 (L p lane I)).
Defined.

Lemma pages_are_blocks_witness :
  1 <= 1 /\
  (exists all,
     Permutation all (find (mkFilter Sample.alice None None) (db_tasks Sample.db2)) /\
     StronglySorted stored_le all /\
     exists tasks pg,
       getTasks_db (db_tasks Sample.db2) Sample.alice (mkReqQuery 2 1 None None false)
         = Ok 200 None (ListView tasks pg) /\
       nth_error tasks 0 = nth_error all 1) /\
  forall page, 1 <= page ->
    exists tasks pg,
      getTasks_memory Sample.mem2 1%N (mkReqQuery page 1 None None false)
        = Ok 200 None (ListView tasks pg) /\
      forall j, (j < Z.to_nat 1)%nat ->
        nth_error tasks j
        = nth_error (find (mkFilter 1%N None None) (memoryStore.tasks Sample.mem2))
            (Z.to_nat ((page - 1) * 1) + j).
Proof.
  split; [lia|].
  destruct (pages_are_blocks (db_tasks Sample.db2) Sample.alice Sample.mem2 1%N 1 None None
              ltac:(lia))
    as ((all & P & S & B) & M).
  split.
  - exists all. split; [exact P|]. split; [exact S|].
    destruct (B 2 ltac:(lia)) as (tasks & pg & E & _ & J).
    exists tasks, pg. split; [exact E|]. apply (J 0%nat). simpl. lia.
  - intros page Hp. destruct (M page Hp) as (tasks & pg & E & _ & J).
    exists tasks, pg. split; [exact E | exact J].
Defined.

Lemma answer_ignores_other_tasks_witness :
  (assignee Sample.shelved <> Sample.alice \/ isArchived Sample.shelved = true) /\
  (assignee Sample.shelved' <> 1%N \/ isArchived Sample.shelved' = true) /\
  memoryStore.tasks Sample.mem_shelved = [] ++ Sample.shelved' :: [] /\
  memoryStore.tasks (memoryStore.mkState (memoryStore.users Sample.mem0) [] 3 2) = [] ++ [] /\
  getTasks_db ([Sample.yard] ++ Sample.shelved :: []) Sample.alice
    (mkReqQuery 1 15 None None false)
  = getTasks_db ([Sample.yard] ++ []) Sample.alice (mkReqQuery 1 15 None None false) /\
  getTasks_memory Sample.mem_shelved 1%N (mkReqQuery 1 15 None None true)
  = getTasks_memory (memoryStore.mkState (memoryStore.users Sample.mem0) [] 3 2) 1%N
      (mkReqQuery 1 15 None None true).
Proof.
  assert (A : assignee Sample.shelved <> Sample.alice \/ isArchived Sample.shelved = true)
    by (right; reflexivity).
  assert (B : assignee Sample.shelved' <> 1%N \/ isArchived Sample.shelved' = true)
    by (right; reflexivity).
  split; [exact A|]. split; [exact B|]. split; [reflexivity|]. split; [reflexivity|].
  split.
  - exact (proj1 (answer_ignores_other_tasks [Sample.yard] [] Sample.shelved Sample.alice
                    Sample.mem_shelved
                    (memoryStore.mkState (memoryStore.users Sample.mem0) [] 3 2)
                    [] [] Sample.shelved' 1%N (mkReqQuery 1 15 None None false)
                    A B eq_refl eq_refl)).
  - exact (proj2 (answer_ignores_other_tasks [Sample.yard] [] Sample.shelved Sample.alice
                    Sample.mem_shelved
                    (memoryStore.mkState (memoryStore.users Sample.mem0) [] 3 2)
                    [] [] Sample.shelved' 1%N (mkReqQuery 1 15 None None true)
                    A B eq_refl eq_refl)).
Defined.


Lemma reachable_store_in_order_witness :
  Reachable Sample.mem0 /\ store_in_order Sample.mem0.
Proof.
  assert (R : Reachable Sample.mem0).
  { exact (@reach_users_create _ "Bob" "bob@example.com" None
             (@reach_users_create _ "Alice" "alice@example.com" None reach_clear)). }
  split; [exact R|]. exact (reachable_store_in_order Sample.mem0 R).
Defined.

Lemma create_then_read_memory_witness :
  store_in_order Sample.mem2 /\
  memoryStore.users_findById Sample.mem2 1%N <> None /\
  exists task data s',
    createTask_memory Sample.mem2 1%N (Sample.body "Third" (Some high) None) 3000
      = (Ok 201 (Some "Task created successfully (demo mode)") data, s') /\
    _id task = 3%N /\
    memoryStore.tasks_findById s' (_id task) = Some task /\
    getTask_memory s' 1%N (_id task) = Ok 200 None data.
Proof.
  split; [exact sample_mem2_in_order|]. split; [exact sample_mem2_user|].
  destruct (create_then_read_memory Sample.mem2 1%N (Sample.body "Third" (Some high) None)
              3000 sample_mem2_in_order sample_mem2_user sample_mem2_user)
    as (task & data & s' & E & _ & I & _ & F & _ & _ & G).
  exists task, data, s'. split; [exact E|]. split; [exact I|]. split; [exact F | exact G].
Defined.

Lemma handlers_keep_identifiers_distinct_witness :
  NoDup (map (@_id ObjectId) (db_tasks Sample.db2)) /\
  ~ In Sample.task3 (map (@_id ObjectId) (db_tasks Sample.db2)) /\
  NoDup (map (@_id ObjectId)
           (db_tasks (snd (createTask_db Sample.db2 Sample.alice
                             (Sample.body "Third" (Some high) None) 3000 Sample.task3)))) /\
  NoDup (map (@_id ObjectId)
           (db_tasks (snd (deleteTask Sample.db2 Sample.alice Sample.task1)))).
Proof.
  split; [exact sample_db2_distinct|]. split; [exact sample_db2_fresh|].
  destruct (handlers_keep_identifiers_distinct Sample.db2 Sample.alice Sample.task1
              Sample.task3 (Sample.body "Third" (Some high) None) completed low None 3000
              sample_db2_distinct sample_db2_fresh)
    as ((C & _) & _ & _ & _ & (D & _)).
  split; [exact C | exact D].
Defined.

Lemma create_then_use_db_witness :
  User_findById Sample.alice (db_users Sample.db2) <> None /\
  draft_valid 3000 (Sample.body (Id := ObjectId) "Third" (Some high) None) = true /\
  ~ In Sample.task3 (map (@_id ObjectId) (db_tasks Sample.db2)) /\
  exists task db',
    createTask_db Sample.db2 Sample.alice (Sample.body "Third" (Some high) None) 3000
      Sample.task3
    = (Ok 201 (Some "Task created successfully") (populate (db_users Sample.db2) task),
       db') /\
    findById Sample.task3 (db_tasks db') = Some task /\
    exists task' db'',
      updateTaskStatus db' Sample.alice Sample.task3 completed 4000
        = (Ok 200 (Some "Task status updated successfully")
             (Some (populate (db_users Sample.db2) task')), db'') /\
      status task' = completed.
Proof.
  assert (V : draft_valid 3000 (Sample.body (Id := ObjectId) "Third" (Some high) None) = true)
    by reflexivity.
  split; [exact sample_db2_alice|]. split; [exact V|]. split; [exact sample_db2_fresh|].
  destruct (create_then_use_db Sample.db2 Sample.alice
              (Sample.body "Third" (Some high) None) 3000 Sample.task3 completed 4000
              sample_db2_alice V sample_db2_fresh)
    as (task & db' & E & F & _ & task' & db'' & U & _ & S & _).
  exists task, db'. split; [exact E|]. split; [exact F|].
  exists task', db''. split; [exact U | exact S].
Defined.

Lemma deleteById_removes_witness :
  store_in_order Sample.mem2 /\
  (forall x, In x (memoryStore.tasks Sample.mem2) -> _id x <> 9%N) /\
  memoryStore.tasks_deleteById Sample.mem2 9%N = (None, Sample.mem2) /\
  exists s',
    memoryStore.tasks_deleteById Sample.mem2 1%N
      = (Some (mkTask 1%N "Sweep the yard" None None low pending 1%N 1%N 0 [] false
                 1000 1000), s') /\
    memoryStore.tasks_findById s' 1%N = None /\
    memoryStore.taskIdCounter s' = memoryStore.taskIdCounter Sample.mem2.
Proof.
  assert (B : forall x, In x (memoryStore.tasks Sample.mem2) -> _id x <> 9%N).
  { intros x [<-|[<-|[]]]; discriminate. }
  split; [exact sample_mem2_in_order|]. split; [exact B|].
  destruct (deleteById_removes Sample.mem2
              (mkTask 1%N "Sweep the yard" None None low pending 1%N 1%N 0 [] false
                 1000 1000) 9%N sample_mem2_in_order)
    as (D & K).
  split; [exact (K B)|].
  destruct D as (s' & E & F & _ & _ & C & _); [left; reflexivity|].
  exists s'. split; [exact E|]. split; [exact F | exact C].
Defined.

Lemma users_create_then_find_witness :
  store_in_order Sample.mem2 /\
  exists user s',
    memoryStore.users_create Sample.mem2 "Carol" "alice@example.com" None = (user, s') /\
    u_id user = 3%N /\
    memoryStore.users_findById s' (u_id user) = Some user /\
    memoryStore.users_findByEmail s' "alice@example.com"
      = Some (mkUser 1%N "Alice" "alice@example.com" None true) /\
    store_in_order s'.
Proof.
  split; [exact sample_mem2_in_order|].
  destruct (users_create_then_find Sample.mem2 "Carol" "alice@example.com" None
              sample_mem2_in_order)
    as (user & s' & E & I & _ & _ & _ & F & _ & M & _ & O).
  exists user, s'. split; [exact E|]. split; [exact I|]. split; [exact F|].
  split; [exact M | exact O].
Defined.

Lemma validated_request_is_stored_witness :
  ascii_body (Sample.raw (Id := ObjectId) "  Pay the rent " 9000) /\
  due_unread (Sample.raw (Id := ObjectId) "  Pay the rent " 9000) = false /\
  validateTask 1000 (Sample.raw (Id := ObjectId) "  Pay the rent " 9000) = [] /\
  (forall due,
     raw_dueDate (Sample.raw (Id := ObjectId) "  Pay the rent " 9000) = Some (IsoDate due) ->
     1001 < due) /\
  User_findById Sample.alice (db_users Sample.db2) <> None /\
  exists task,
    post_task_db Sample.db2 Sample.alice (Sample.raw "  Pay the rent " 9000) 1000 1001
      Sample.task3
    = (Ok 201 (Some "Task created successfully") (populate (db_users Sample.db2) task),
       mkDb (db_users Sample.db2) (db_tasks Sample.db2 ++ [task])) /\
    title task = "Pay the rent" /\
    within_limits task.
Proof.
  assert (A : ascii_body (Sample.raw (Id := ObjectId) "  Pay the rent " 9000)).
  { split; [reflexivity|]. split; [reflexivity | constructor]. }
  assert (U : due_unread (Sample.raw (Id := ObjectId) "  Pay the rent " 9000) = false)
    by reflexivity.
  assert (V : validateTask 1000 (Sample.raw (Id := ObjectId) "  Pay the rent " 9000) = [])
    by reflexivity.
  assert (D : forall due,
            raw_dueDate (Sample.raw (Id := ObjectId) "  Pay the rent " 9000)
            = Some (IsoDate due) -> 1001 < due).
  { intros due E. injection E as <-. reflexivity. }
  split; [exact A|]. split; [exact U|].
  split; [exact V|]. split; [exact D|]. split; [exact sample_db2_alice|].
  destruct (validated_request_is_stored Sample.db2 Sample.alice Sample.task3
              (Sample.raw "  Pay the rent " 9000) 1000 1001 A U V D sample_db2_alice)
    as (task & E & T & W).
  exists task. split; [exact E|]. split; [exact T | exact W].
Defined.

Lemma blank_title_is_refused_witness :
  blank_title (raw_title (Sample.raw (Id := ObjectId) "   " 9000)) /\
  blank_title (raw_title (mkRawBody (Id := N) None None None None None None None)) /\
  (exists errors,
     In ("title", "Title must be between 1 and 200 characters") errors /\
     post_task_db Sample.db2 Sample.alice (Sample.raw "   " 9000) 1000 1001 Sample.task3
     = (Invalid errors, Sample.db2)) /\
  (exists errors,
     In ("title", "Title must be between 1 and 200 characters") errors /\
     post_task_memory Sample.mem2 1%N (mkRawBody None None None None None None None)
       1000 1001
     = (Invalid errors, Sample.mem2)).
Proof.
  assert (A : blank_title (raw_title (Sample.raw (Id := ObjectId) "   " 9000)))
    by reflexivity.
  assert (B : blank_title
                (raw_title (mkRawBody (Id := N) None None None None None None None)))
    by exact I.
  split; [exact A|]. split; [exact B|].
  destruct (blank_title_is_refused Sample.db2 Sample.alice Sample.task1 Sample.task3
              (Sample.raw "   " 9000) Sample.mem2 1%N
              (mkRawBody None None None None None None None) 1000 1001 A B)
    as ((errors & T & P & _) & M).
  split; [|exact M]. exists errors. split; [exact T | exact P].
Defined.

Lemma positions_stay_nonneg_witness :
  positions_nonneg (db_tasks Sample.db2) /\
  positions_nonneg (memoryStore.tasks Sample.mem2) /\
  positions_nonneg
    (db_tasks (snd (patch_priority Sample.db2 Sample.alice Sample.task1 (Some "high")
                      (Some (IntField (-4))) 5000))) /\
  positions_nonneg
    (db_tasks (snd (patch_priority Sample.db2 Sample.alice Sample.task1 (Some "high")
                      (Some (IntField 4)) 5000))).
Proof.
  assert (A : positions_nonneg (db_tasks Sample.db2)).
  { apply Forall_forall. intros t [<-|[<-|[]]]; discriminate. }
  assert (B : positions_nonneg (memoryStore.tasks Sample.mem2)).
  { apply Forall_forall. intros t [<-|[<-|[]]]; discriminate. }
  split; [exact A|]. split; [exact B|].
  split.
  - destruct (positions_stay_nonneg Sample.db2 Sample.alice Sample.task1 Sample.task3
                (Sample.raw "Pay the rent" 9000) (Some "completed") (Some "high")
                (Some (IntField (-4))) 5000 5001 Sample.mem2 1%N
                (Sample.raw "Pay the rent" 9000) A B)
      as (_ & _ & _ & P & _).
    exact P.
  - destruct (positions_stay_nonneg Sample.db2 Sample.alice Sample.task1 Sample.task3
                (Sample.raw "Pay the rent" 9000) (Some "completed") (Some "high")
                (Some (IntField 4)) 5000 5001 Sample.mem2 1%N
                (Sample.raw "Pay the rent" 9000) A B)
      as (_ & _ & _ & P & _).
    exact P.
Defined.

Lemma patch_routes_validate_witness :
  (forall st, or_default "" (Some "done") <> status_name st) /\
  patch_status_route Sample.db2 Sample.alice (NotAnId "42") (Some "done") 5000
  = (Invalid [("status", "Status must be pending, in-progress, or completed")], Sample.db2) /\
  (exists errors,
     In ("position", "Position must be a non-negative integer") errors /\
     patch_priority_route Sample.db2 Sample.alice (MongoId Sample.task1) (Some "high")
       (Some (IntField (-4))) 5000
     = (Invalid errors, Sample.db2)) /\
  patch_status_route Sample.db2 Sample.alice (NotAnId "42") (Some "completed") 5000
  = (Thrown, Sample.db2).
Proof.
  assert (A : forall st, or_default "" (Some "done") <> status_name st)
    by (intros st; destruct st; discriminate).
  split; [exact A|].
  destruct (patch_routes_validate Sample.db2 Sample.alice (NotAnId "42") (Some "done")
              (Some "high") (Some (IntField (-4))) 5000)
    as (S & _).
  split; [exact (S A)|].
  destruct (patch_routes_validate Sample.db2 Sample.alice (MongoId Sample.task1)
              (Some "done") (Some "high") (Some (IntField (-4))) 5000)
    as (_ & _ & P & _).
  split; [apply P; reflexivity|].
  destruct (patch_routes_validate Sample.db2 Sample.alice (NotAnId "42")
              (Some "completed") (Some "high") None 5000)
    as (_ & _ & _ & _ & _ & T & _ & K & _).
  assert (E : fst (patch_status_route Sample.db2 Sample.alice (NotAnId "42")
                     (Some "completed") 5000) = Thrown).
  { apply T. split; [exists "42"|]; reflexivity. }
  rewrite (surjective_pairing
             (patch_status_route Sample.db2 Sample.alice (NotAnId "42")
                (Some "completed") 5000)).
  rewrite E, (K E). reflexivity.
Defined.

Lemma due_virtuals_witness :
  exists d,
    daysUntilDue 1000
      (mkTask Sample.task1 "Pay the rent" None (Some 90000000) high pending
         Sample.alice Sample.alice 0 [] false 500 500)
    = Some d /\
    (0 < d <-> 1000 < 90000000) /\
    (d - 1) * ms_per_day < 90000000 - 1000 <= d * ms_per_day.
Proof.
  destruct (due_virtuals 1000
              (mkTask Sample.task1 "Pay the rent" None (Some 90000000) high pending
                 Sample.alice Sample.alice 0 [] false 500 500))
    as (_ & D).
  destruct (D 90000000 eq_refl) as (d & E & B & P & _).
  exists d. split; [exact E|]. split; [exact P | exact B].
Defined.

Lemma authenticate_admits_active_users_witness :
  no_space "abc" /\
  authenticate_memory
    (fun token => if String.eqb token "abc" then Decoded 1%N else JsonWebTokenError)
    Sample.mem0 (Some "Bearer abc")
  = Pass (Some (mkUser 1%N "Alice" "alice@example.com" None true)) /\
  authenticate_db
    (fun token => if String.eqb token "abc" then Decoded Sample.bob else TokenExpiredError)
    Sample.db0 None
  = Refuse 401 "Access denied. No token provided." None.
Proof.
  assert (NS : no_space "abc") by reflexivity.
  split; [exact NS|].
  destruct (authenticate_admits_active_users
              (fun token =>
                 if String.eqb token "abc" then Decoded Sample.bob else TokenExpiredError)
              Sample.db0
              (fun token => if String.eqb token "abc" then Decoded 1%N else JsonWebTokenError)
              Sample.mem0 None)
    as (R & _).
  split; [|exact (proj1 (R (or_introl eq_refl)))].
  destruct (authenticate_admits_active_users
              (fun token =>
                 if String.eqb token "abc" then Decoded Sample.bob else TokenExpiredError)
              Sample.db0
              (fun token => if String.eqb token "abc" then Decoded 1%N else JsonWebTokenError)
              Sample.mem0 (Some "Bearer abc"))
    as (_ & _ & _ & M & _).
  apply (M "abc" (mkUser 1%N "Alice" "alice@example.com" None true) NS);
    [discriminate | reflexivity | reflexivity | reflexivity].
Defined.

Lemma list_sorted_by_stored_priority_witness :
  1 <= 1 /\ 1 <= 15 /\
  (exists all tasks pg,
     getTasks_db (db_tasks Sample.db2) Sample.alice (mkReqQuery 1 15 None None false)
       = Ok 200 None (ListView tasks pg) /\
     Permutation all (find (mkFilter Sample.alice None None) (db_tasks Sample.db2)) /\
     StronglySorted stored_le all /\
     tasks = all) /\
  (exists all tasks pg,
     getTasks_memory Sample.mem2 1%N (mkReqQuery 1 15 None None false)
       = Ok 200 None (ListView tasks pg) /\
     Permutation all (find (mkFilter 1%N None None) (memoryStore.tasks Sample.mem2)) /\
     tasks = firstn (Z.to_nat 15) (skipn (Z.to_nat ((1 - 1) * 15)) all)).
Proof.
  split; [lia|]. split; [lia|].
  destruct (list_sorted_by_stored_priority (db_tasks Sample.db2) Sample.alice
              Sample.mem2 1%N 1 15 None None ltac:(lia) ltac:(lia))
    as ((all & tasks & pg & E & P & _ & S & _ & A) &
        (all' & tasks' & pg' & E' & P' & _ & W' & _) & _).
  split.
  - exists all, tasks, pg. split; [exact E|]. split; [exact P|]. split; [exact S|].
    apply A; [reflexivity|].
    rewrite (Permutation_length P). vm_compute. discriminate.
  - exists all', tasks', pg'. split; [exact E'|]. split; [exact P' | exact W'].
Defined.

Lemma backends_agree_witness :
  1 <= 1 /\ 1 <= 15 /\
  (exists sent tasks pg,
     getTasks_db_sent
       (mkDb (memoryStore.users Sample.mem2) (memoryStore.tasks Sample.mem2)) 1%N
       (mkReqQuery 1 15 None None false)
       = Ok 200 None (SentList sent pg) /\
     getTasks_memory Sample.mem2 1%N (mkReqQuery 1 15 None None false)
       = Ok 200 None (ListView tasks pg) /\
     List.length sent = List.length tasks) /\
  (exists task1 task2,
     db_tasks
       (snd (createTask_db
               (mkDb (memoryStore.users Sample.mem2) (memoryStore.tasks Sample.mem2))
               1%N (Sample.body "Third" (Some medium) None) 3000 3%N))
       = memoryStore.tasks Sample.mem2 ++ [task1] /\
     memoryStore.tasks
       (snd (createTask_memory Sample.mem2 1%N
               (Sample.body "Third" (Some medium) None) 3000))
       = memoryStore.tasks Sample.mem2 ++ [task2] /\
     position task1 = 0 /\ position task2 = 0).
Proof.
  split; [lia|]. split; [lia|].
  destruct (backends_agree Sample.mem2 1%N 1 15 None None
              (Sample.body "Third" (Some medium) None) 3000 3%N
              ltac:(lia) ltac:(lia))
    as ((sent & tasks & pg & E1 & E2 & L & _) & _ & _ & C).
  split.
  - exists sent, tasks, pg. split; [exact E1|]. split; [exact E2 | exact L].
  - destruct C as (task1 & task2 & S1 & S2 & P1 & P2 & _);
      [vm_compute; discriminate | reflexivity | reflexivity |].
    exists task1, task2. split; [exact S1|]. split; [exact S2|].
    split; [exact P1 | exact P2].
Defined.

